(** * Order execution engine of the trading bot: a shallow embedding

    The development follows [src/bot/orders.py] (class [OrderManager]) and
    the price query of [src/bot/client.py].  Python dictionaries keyed by
    strings are finite maps, the local lists of the strategies are lists,
    and the [try]/[except] blocks are handlers of a state-and-exception
    monad.  The exchange, the clocks and the other threads of the process
    are an environment [Env.t] of oracles.

    Python's [float] is an interface [PyFloat] with two instances: exact
    rational arithmetic ([Qc]) and IEEE binary64 ([float]).  What does
    not depend on the arithmetic is proved for every instance; what
    depends on exact values is proved on [Qc], and the concrete
    scenarios are re-run on binary64 bit for bit, which is also where
    the properties that rounding breaks are shown to fail. *)

From Stdlib Require Import ZArith QArith Qcanon Floats String Ascii List.
From Stdlib Require Import DecimalString Lia Lqa Permutation Sorted.
From stdpp Require Import base option list strings gmap.

Local Open Scope Z_scope.
Local Open Scope string_scope.

(** ** Python numbers *)

(** What the engine needs from Python's [float]: the four operations, the
    comparisons, and the conversion from [int] that mixed arithmetic
    performs implicitly ([None] stands for [OverflowError]). *)
Class PyFloat (F : Type) := {
  f_zero : F;
  f_add : F -> F -> F;
  f_sub : F -> F -> F;
  f_mul : F -> F -> F;
  f_div : F -> F -> F;
  f_ltb : F -> F -> bool;
  f_leb : F -> F -> bool;
  f_eqb : F -> F -> bool;
  f_of_int : Z -> option F
}.

(** Exact arithmetic: canonical rationals. *)
#[export] Instance exact_float : PyFloat Qc := {
  f_zero := Q2Qc 0;
  f_add := Qcplus;
  f_sub := Qcminus;
  f_mul := Qcmult;
  f_div := Qcdiv;
  f_ltb := fun x y => match Qccompare x y with Lt => true | _ => false end;
  f_leb := fun x y => match Qccompare x y with Gt => false | _ => true end;
  f_eqb := Qc_eq_bool;
  f_of_int := fun z => Some (Q2Qc (inject_Z z))
}.

(** IEEE binary64, as CPython's [float].  An [int] is converted with
    rounding to nearest even, and the conversion overflows instead of
    producing an infinity. *)
Definition binary64_of_int (z : Z) : option float :=
  match binary_normalize prec emax z 0 false with
  | S754_infinity _ => None
  | sf => Some (SF2Prim sf)
  end.

#[export] Instance binary64_float : PyFloat float := {
  f_zero := PrimFloat.zero;
  f_add := PrimFloat.add;
  f_sub := PrimFloat.sub;
  f_mul := PrimFloat.mul;
  f_div := PrimFloat.div;
  f_ltb := PrimFloat.ltb;
  f_leb := PrimFloat.leb;
  f_eqb := PrimFloat.eqb;
  f_of_int := binary64_of_int
}.

(** [str(n)] for an [int]. *)
Definition str_int (n : Z) : string := NilZero.string_of_int (Z.to_int n).

(** [range(n)]: empty when [n <= 0]. *)
Definition py_range (n : Z) : list Z := map Z.of_nat (seq 0 (Z.to_nat n)).

(** ** Exceptions and results *)

(** The exceptions that occur in the engine; each is a subclass of
    Python's [Exception].  The two client exceptions carry [str(e)]. *)
Inductive exn :=
| ZeroDivisionError
| OverflowError
| KeyError (key : string)
| ValueError (msg : string)
| OSError (msg : string)
| BinanceOrderException (msg : string)
| ClientException (msg : string).

Definition is_BinanceOrderException (e : exn) : bool :=
  match e with BinanceOrderException _ => true | _ => false end.

(** [except Exception] matches every member of [exn]. *)
Definition is_Exception (e : exn) : bool := true.

(** [str(e)].  The message given for [OverflowError] is the one of the
    [int] to [float] conversion; the one [time.sleep] raises is never
    read, as nothing catches it. *)
Definition str_exn (e : exn) : string :=
  match e with
  | ZeroDivisionError => "float division by zero"
  | OverflowError => "int too large to convert to float"
  | KeyError k => "'" ++ k ++ "'"
  | ValueError m => m
  | OSError m => m
  | BinanceOrderException m => m
  | ClientException m => m
  end.

Inductive outcome (A : Type) :=
| Returned (a : A)
| Raised (e : exn).
Arguments Returned {A} a.
Arguments Raised {A} e.

Definition outcome_bind {A B} (o : outcome A) (k : A -> outcome B) : outcome B :=
  match o with Returned a => k a | Raised e => Raised e end.

(** [a // b] on [int]s: floor division, [ZeroDivisionError] when [b = 0]. *)
Definition py_floordiv (a b : Z) : outcome Z :=
  if Z.eqb b 0 then Raised ZeroDivisionError else Returned (a / b).

Section Arithmetic.
Context {F : Type} `{PyFloat F}.

  (** The implicit [int] to [float] conversion of mixed arithmetic. *)
Definition py_float (n : Z) : outcome F :=
    match f_of_int n with Some x => Returned x | None => Raised OverflowError end.

  (** [x / n] for a [float] [x] and an [int] [n]. *)
Definition py_truediv (x : F) (n : Z) : outcome F :=
    outcome_bind (py_float n) (fun d =>
      if f_eqb d f_zero then Raised ZeroDivisionError else Returned (f_div x d)).

  (** [n * x] for an [int] [n] and a [float] [x]. *)
Definition py_mul_int (n : Z) (x : F) : outcome F :=
    outcome_bind (py_float n) (fun d => Returned (f_mul d x)).

  (** [min(a, b)]: the first argument unless the second is smaller. *)
Definition py_min (a b : F) : F := if f_ltb b a then b else a.
End Arithmetic.

(** ** Data model *)

Module OrderResult.
Record t (F : Type) := mk {
    order_id : string;
    symbol : string;
    side : string;
    order_type : string;
    quantity : F;
    price : option F;
    status : string;
    timestamp : Z;
    error_message : option string
  }.
Arguments mk {F}.
Arguments order_id {F}.
Arguments symbol {F}.
Arguments side {F}.
Arguments order_type {F}.
Arguments quantity {F}.
Arguments price {F}.
Arguments status {F}.
Arguments timestamp {F}.
Arguments error_message {F}.
End OrderResult.

(** The keyword arguments of one [futures_create_order] call. *)
Module Request.
Record t (F : Type) := mk {
    symbol : string;
    side : string;
    type : string;
    quantity : F;
    price : option F;
    timeInForce : option string
  }.
Arguments mk {F}.
Arguments symbol {F}.
Arguments side {F}.
Arguments type {F}.
Arguments quantity {F}.
Arguments price {F}.
Arguments timeInForce {F}.
End Request.

(** The dictionary the exchange answers with; [None] is a missing key.
    Binance order ids are JSON integers. *)
Module OrderDict.
Record t := mk {
    orderId : option Z;
    status : option string
  }.
End OrderDict.

(** The entry [place_oco_order] stores in [active_orders]. *)
Module Oco.
Record t (F : Type) := mk {
    type : string;
    stop_price : F;
    stop_limit_price : F;
    symbol : string;
    side : string;
    quantity : F
  }.
Arguments mk {F}.
Arguments type {F}.
Arguments stop_price {F}.
Arguments stop_limit_price {F}.
Arguments symbol {F}.
Arguments side {F}.
Arguments quantity {F}.
End Oco.

Module Twap.
Record t (F : Type) := mk {
    symbol : string;
    side : string;
    total_quantity : F;
    remaining_quantity : F;
    duration_minutes : Z;
    interval_seconds : Z;
    start_time : Z;
    orders : list (OrderResult.t F);
    active : bool
  }.
Arguments mk {F}.
Arguments symbol {F}.
Arguments side {F}.
Arguments total_quantity {F}.
Arguments remaining_quantity {F}.
Arguments duration_minutes {F}.
Arguments interval_seconds {F}.
Arguments start_time {F}.
Arguments orders {F}.
Arguments active {F}.

Definition set_active {F} (b : bool) (tw : t F) : t F :=
    mk (symbol tw) (side tw) (total_quantity tw) (remaining_quantity tw)
       (duration_minutes tw) (interval_seconds tw) (start_time tw) (orders tw) b.

Definition set_remaining_quantity {F} (q : F) (tw : t F) : t F :=
    mk (symbol tw) (side tw) (total_quantity tw) q
       (duration_minutes tw) (interval_seconds tw) (start_time tw) (orders tw) (active tw).

Definition append_order {F} (r : OrderResult.t F) (tw : t F) : t F :=
    mk (symbol tw) (side tw) (total_quantity tw) (remaining_quantity tw)
       (duration_minutes tw) (interval_seconds tw) (start_time tw) (orders tw ++ [r]) (active tw).
End Twap.

Module Grid.
Record t (F : Type) := mk {
    symbol : string;
    lower_price : F;
    upper_price : F;
    grid_levels : Z;
    quantity_per_level : F;
    buy_levels : list F;
    sell_levels : list F;
    active_orders : list (OrderResult.t F);
    active : bool
  }.
Arguments mk {F}.
Arguments symbol {F}.
Arguments lower_price {F}.
Arguments upper_price {F}.
Arguments grid_levels {F}.
Arguments quantity_per_level {F}.
Arguments buy_levels {F}.
Arguments sell_levels {F}.
Arguments active_orders {F}.
Arguments active {F}.

Definition append_order {F} (r : OrderResult.t F) (g : t F) : t F :=
    mk (symbol g) (lower_price g) (upper_price g) (grid_levels g) (quantity_per_level g)
       (buy_levels g) (sell_levels g) (active_orders g ++ [r]) (active g).

(** Several appends in a row. *)
Definition extend_orders {F} (rs : list (OrderResult.t F)) (g : t F) : t F :=
    mk (symbol g) (lower_price g) (upper_price g) (grid_levels g) (quantity_per_level g)
       (buy_levels g) (sell_levels g) (active_orders g ++ rs) (active g).
End Grid.

(** The [OrderManager] object together with what the process around it
    remembers: the requests its client has sent to the exchange (oldest
    first), the background threads it has started (by their argument), and
    how often the clocks and the price ticker have been read. *)
Module OrderManager.
Record t (F : Type) := mk {
    active_orders : gmap string (Oco.t F);
    twap_orders : gmap string (Twap.t F);
    grid_orders : gmap string (Grid.t F);
    sent : list (Request.t F);
    threads : list string;
    clock_reads : nat;
    price_queries : nat
  }.
Arguments mk {F}.
Arguments active_orders {F}.
Arguments twap_orders {F}.
Arguments grid_orders {F}.
Arguments sent {F}.
Arguments threads {F}.
Arguments clock_reads {F}.
Arguments price_queries {F}.

  (** [OrderManager(client)] in a fresh process. *)
Definition init {F} : t F := mk ∅ ∅ ∅ [] [] 0%nat 0%nat.

Definition with_active_orders {F} (m : gmap string (Oco.t F)) (s : t F) : t F :=
  mk m (twap_orders s) (grid_orders s) (sent s) (threads s) (clock_reads s) (price_queries s).

Definition with_twap_orders {F} (m : gmap string (Twap.t F)) (s : t F) : t F :=
  mk (active_orders s) m (grid_orders s) (sent s) (threads s) (clock_reads s) (price_queries s).

Definition with_grid_orders {F} (m : gmap string (Grid.t F)) (s : t F) : t F :=
  mk (active_orders s) (twap_orders s) m (sent s) (threads s) (clock_reads s) (price_queries s).

Definition with_sent {F} (l : list (Request.t F)) (s : t F) : t F :=
  mk (active_orders s) (twap_orders s) (grid_orders s) l (threads s) (clock_reads s) (price_queries s).

Definition with_threads {F} (l : list string) (s : t F) : t F :=
  mk (active_orders s) (twap_orders s) (grid_orders s) (sent s) l (clock_reads s) (price_queries s).

Definition tick_clock {F} (s : t F) : t F :=
  mk (active_orders s) (twap_orders s) (grid_orders s) (sent s) (threads s) (S (clock_reads s))
     (price_queries s).

Definition tick_price {F} (s : t F) : t F :=
  mk (active_orders s) (twap_orders s) (grid_orders s) (sent s) (threads s) (clock_reads s)
     (S (price_queries s)).
End OrderManager.

(** The world outside the engine.  [futures_create_order] answers a
    request given the requests sent before it, with a dictionary or by
    raising; [get_symbol_ticker n s] is the [n]-th price query, already
    passed through [float(ticker['price'])]; [datetime_now] and
    [time_time] give the value of the [n]-th clock read;
    [cancel_requested id i] tells whether another thread has stored
    [False] in the [active] field of TWAP order [id] by the time its
    iteration [i] begins; [os_sleep secs] is what the platform's timer
    does with a sleep of [secs] seconds that the interpreter has
    accepted: [None] when the thread is suspended and resumes, the
    exception when the platform refuses the length. *)
Module Env.
Record t (F : Type) := mk {
    futures_create_order : list (Request.t F) -> Request.t F -> exn + OrderDict.t;
    get_symbol_ticker : nat -> string -> exn + F;
    datetime_now : nat -> Z;
    time_time : nat -> Z;
    cancel_requested : string -> Z -> bool;
    os_sleep : Z -> option exn
  }.
Arguments mk {F}.
Arguments futures_create_order {F}.
Arguments get_symbol_ticker {F}.
Arguments datetime_now {F}.
Arguments time_time {F}.
Arguments cancel_requested {F}.
Arguments os_sleep {F}.
End Env.

(** ** The monad of the engine *)

(** A computation runs on the state of the process and either returns or
    raises; the state reached when it raises is kept, as a Python object
    mutated before the exception stays mutated. *)
Definition M (F A : Type) : Type := OrderManager.t F -> outcome A * OrderManager.t F.

Section Monad.
Context {F : Type}.

Definition ret {A} (a : A) : M F A := fun s => (Returned a, s).

Definition bind {A B} (c : M F A) (k : A -> M F B) : M F B :=
    fun s => match c s with
             | (Returned a, s') => k a s'
             | (Raised e, s') => (Raised e, s')
             end.

Definition raise {A} (e : exn) : M F A := fun s => (Raised e, s).

Definition lift {A} (o : outcome A) : M F A := fun s => (o, s).

Definition get : M F (OrderManager.t F) := fun s => (Returned s, s).

Definition modify (f : OrderManager.t F -> OrderManager.t F) : M F unit :=
    fun s => (Returned tt, f s).

  (** [try: c  except <clauses>]: the first clause whose class matches
      handles the exception; an exception no clause matches propagates. *)
Fixpoint handle {A} (clauses : list ((exn -> bool) * (exn -> M F A))) (e : exn) : M F A :=
    match clauses with
    | [] => raise e
    | (matches, h) :: rest => if matches e then h e else handle rest e
    end.

Definition try_except {A} (c : M F A) (clauses : list ((exn -> bool) * (exn -> M F A))) : M F A :=
    fun s => match c s with
             | (Returned a, s') => (Returned a, s')
             | (Raised e, s') => handle clauses e s'
             end.
End Monad.

Declare Scope py_scope.
Delimit Scope py_scope with py.
Notation "x <~ c ;; k" := (bind c (fun x => k))
  (at level 100, c at next level, k at level 200, right associativity) : py_scope.
Notation "c ;;; k" := (bind c (fun _ => k))
  (at level 100, k at level 200, right associativity) : py_scope.
Local Open Scope py_scope.

(** [for x in xs: body], without [break]. *)
Fixpoint for_each {F A} (xs : list A) (body : A -> M F unit) : M F unit :=
  match xs with
  | [] => ret tt
  | x :: xs' => body x ;;; for_each xs' body
  end.

(** [for x in xs: body] where the body may [break]. *)
Inductive ctl := Continue | Break.

Fixpoint for_break {F A} (xs : list A) (body : A -> M F ctl) : M F unit :=
  match xs with
  | [] => ret tt
  | x :: xs' => c <~ body x ;;
                match c with
                | Break => ret tt
                | Continue => for_break xs' body
                end
  end.

(** ** The engine *)

Section Engine.
Context {F : Type} `{PyFloat F} (env : Env.t F).

(** *** Reads of the outside world *)

(** [datetime.now()]. *)
Definition datetime_now : M F Z :=
  fun s => (Returned (Env.datetime_now env (OrderManager.clock_reads s)),
            OrderManager.tick_clock s).

(** [int(time.time())]. *)
Definition time_time : M F Z :=
  fun s => (Returned (Env.time_time env (OrderManager.clock_reads s)),
            OrderManager.tick_clock s).

(** [time.sleep(secs)] for an [int] length, as CPython has it.  The
    length is first converted to the interpreter's signed 64-bit count of
    nanoseconds, which raises [OverflowError] when it does not fit, that
    is when [secs] lies outside [-9223372036 .. 9223372036]; a negative
    length is then refused with [ValueError].  A length that passes both
    tests goes to the platform's timer.  Up to [platform_sleep_max]
    seconds (2^32 - 1 milliseconds, the narrowest range among the timers
    CPython sleeps on) the thread is suspended and resumes; for a longer
    one the platform decides: Linux, for one, refuses with [OSError] a
    deadline past the range of its clock. *)
Definition pytime_max_seconds : Z := 9223372036.

Definition platform_sleep_max : Z := 4294967.

Definition sleep_outcome (secs : Z) : outcome unit :=
  if Z.ltb secs (- pytime_max_seconds) || Z.ltb pytime_max_seconds secs
  then Raised OverflowError
  else if Z.ltb secs 0 then Raised (ValueError "sleep length must be non-negative")
  else if Z.leb secs platform_sleep_max then Returned tt
  else match Env.os_sleep env secs with
       | Some e => Raised e
       | None => Returned tt
       end.

Definition time_sleep (secs : Z) : M F unit := lift (sleep_outcome secs).

(** [self.client.client.futures_create_order(...)]: the request is handed
    to the client, which answers or raises. *)
Definition futures_create_order (req : Request.t F) : M F OrderDict.t :=
  fun s =>
    let s' := OrderManager.with_sent (OrderManager.sent s ++ [req]) s in
    match Env.futures_create_order env (OrderManager.sent s) req with
    | inl e => (Raised e, s')
    | inr order => (Returned order, s')
    end.

(** [d[key]] on a dictionary read as a record of optional fields. *)
Definition dict_get {A} (key : string) (v : option A) : M F A :=
  match v with Some a => ret a | None => raise (KeyError key) end.

(** [float(self.client.get_symbol_ticker(symbol=symbol)['price'])]. *)
Definition ticker_price (symbol : string) : M F F :=
  fun s =>
    match Env.get_symbol_ticker env (OrderManager.price_queries s) symbol with
    | inl e => (Raised e, OrderManager.tick_price s)
    | inr p => (Returned p, OrderManager.tick_price s)
    end.

(** [BinanceClient.get_current_price]. *)
Definition get_current_price (symbol : string) : M F F :=
  try_except (ticker_price symbol) [(is_Exception, fun _ => ret f_zero)].

(** *** Primitive orders *)

(** The [OrderResult] every [except] clause of the placement methods
    builds. *)
Definition failed_result (symbol side order_type : string) (quantity : F)
    (price : option F) (e : exn) : M F (OrderResult.t F) :=
  ts <~ datetime_now ;;
  ret (OrderResult.mk "" symbol side order_type quantity price "FAILED" ts (Some (str_exn e))).

Definition place_market_order (symbol side : string) (quantity : F) : M F (OrderResult.t F) :=
  try_except
    (order <~ futures_create_order (Request.mk symbol side "MARKET" quantity None None) ;;
     oid <~ dict_get "orderId" (OrderDict.orderId order) ;;
     st <~ dict_get "status" (OrderDict.status order) ;;
     ts <~ datetime_now ;;
     ret (OrderResult.mk (str_int oid) symbol side "MARKET" quantity None st ts None))
    [(is_BinanceOrderException, failed_result symbol side "MARKET" quantity None);
     (is_Exception, failed_result symbol side "MARKET" quantity None)].

Definition place_limit_order (symbol side : string) (quantity price : F) : M F (OrderResult.t F) :=
  try_except
    (order <~ futures_create_order
                (Request.mk symbol side "LIMIT" quantity (Some price) (Some "GTC")) ;;
     oid <~ dict_get "orderId" (OrderDict.orderId order) ;;
     st <~ dict_get "status" (OrderDict.status order) ;;
     ts <~ datetime_now ;;
     ret (OrderResult.mk (str_int oid) symbol side "LIMIT" quantity (Some price) st ts None))
    [(is_BinanceOrderException, failed_result symbol side "LIMIT" quantity (Some price));
     (is_Exception, failed_result symbol side "LIMIT" quantity (Some price))].

(** [result.status != "FAILED"]. *)
Definition not_failed (r : OrderResult.t F) : bool :=
  negb (String.eqb (OrderResult.status r) "FAILED").

Definition place_oco_order (symbol side : string) (quantity price stop_price stop_limit_price : F)
    : M F (OrderResult.t F) :=
  try_except
    (limit_order <~ place_limit_order symbol side quantity price ;;
     (if not_failed limit_order
      then modify (fun s => OrderManager.with_active_orders
                     (<[OrderResult.order_id limit_order :=
                          Oco.mk "OCO" stop_price stop_limit_price symbol side quantity]>
                        (OrderManager.active_orders s)) s)
      else ret tt) ;;;
     ret limit_order)
    [(is_Exception, failed_result symbol side "OCO" quantity (Some price))].

(** *** TWAP *)

Definition start_twap_order (symbol side : string) (total_quantity : F)
    (duration_minutes interval_seconds : Z) : M F string :=
  t <~ time_time ;;
  let twap_id := "twap_" ++ symbol ++ "_" ++ str_int t in
  now <~ datetime_now ;;
  modify (fun s => OrderManager.with_twap_orders
            (<[twap_id := Twap.mk symbol side total_quantity total_quantity
                            duration_minutes interval_seconds now [] true]>
               (OrderManager.twap_orders s)) s) ;;;
  modify (fun s => OrderManager.with_threads (OrderManager.threads s ++ [twap_id]) s) ;;;
  ret twap_id.

(** [self.twap_orders[twap_id]], and a read through that reference. *)
Definition read_twap (twap_id : string) : M F (Twap.t F) :=
  s <~ get ;;
  match OrderManager.twap_orders s !! twap_id with
  | Some twap_order => ret twap_order
  | None => raise (KeyError twap_id)
  end.

(** A write through the reference: the dictionary held by the store is
    the one mutated. *)
Definition update_twap (twap_id : string) (f : Twap.t F -> Twap.t F) : M F unit :=
  modify (fun s => OrderManager.with_twap_orders (alter f twap_id (OrderManager.twap_orders s)) s).

(** One pass through the body of the [for] loop of [_execute_twap].  A
    cancellation by another thread takes effect before the flag is read. *)
Definition twap_iteration (twap_id : string) (quantity_per_interval : F) (i : Z) : M F ctl :=
  (if Env.cancel_requested env twap_id i
   then update_twap twap_id (Twap.set_active false) else ret tt) ;;;
  twap_order <~ read_twap twap_id ;;
  if negb (Twap.active twap_order) then ret Break else
  if f_leb (Twap.remaining_quantity twap_order) f_zero then ret Break else
  let order_quantity := py_min quantity_per_interval (Twap.remaining_quantity twap_order) in
  result <~ place_market_order (Twap.symbol twap_order) (Twap.side twap_order) order_quantity ;;
  update_twap twap_id (Twap.append_order result) ;;;
  update_twap twap_id (fun tw =>
    Twap.set_remaining_quantity (f_sub (Twap.remaining_quantity tw) order_quantity) tw) ;;;
  time_sleep (Twap.interval_seconds twap_order) ;;;
  ret Continue.

(** The first [k] passes of the loop that runs [total_intervals] times. *)
Definition twap_loop (twap_id : string) (quantity_per_interval : F) (k : Z) : M F unit :=
  for_break (py_range k) (twap_iteration twap_id quantity_per_interval).

Definition _execute_twap (twap_id : string) : M F unit :=
  twap_order <~ read_twap twap_id ;;
  total_intervals <~ lift (py_floordiv (Twap.duration_minutes twap_order * 60)
                                       (Twap.interval_seconds twap_order)) ;;
  quantity_per_interval <~ lift (py_truediv (Twap.total_quantity twap_order) total_intervals) ;;
  twap_loop twap_id quantity_per_interval total_intervals ;;;
  update_twap twap_id (Twap.set_active false).

(** *** Grid *)

(** [lower_price + (i * price_step)]. *)
Definition level_price (lower_price price_step : F) (i : Z) : outcome F :=
  outcome_bind (py_mul_int i price_step) (fun d => Returned (f_add lower_price d)).

(** The classification loop of [start_grid_strategy] over the indices
    still to visit, with the two local lists built so far. *)
Fixpoint classify_levels (lower_price price_step current_price : F) (indices : list Z)
    (buy_levels sell_levels : list F) : outcome (list F * list F) :=
  match indices with
  | [] => Returned (buy_levels, sell_levels)
  | i :: rest =>
      outcome_bind (level_price lower_price price_step i) (fun p =>
        if f_ltb p current_price
        then classify_levels lower_price price_step current_price rest
               (buy_levels ++ [p]) sell_levels
        else classify_levels lower_price price_step current_price rest
               buy_levels (sell_levels ++ [p]))
  end.

Definition read_grid (grid_id : string) : M F (Grid.t F) :=
  s <~ get ;;
  match OrderManager.grid_orders s !! grid_id with
  | Some grid_order => ret grid_order
  | None => raise (KeyError grid_id)
  end.

Definition update_grid (grid_id : string) (f : Grid.t F -> Grid.t F) : M F unit :=
  modify (fun s => OrderManager.with_grid_orders (alter f grid_id (OrderManager.grid_orders s)) s).

(** The body shared by the two loops of [_place_grid_orders]. *)
Definition place_grid_level (grid_id : string) (grid_order : Grid.t F) (side : string)
    (price : F) : M F unit :=
  result <~ place_limit_order (Grid.symbol grid_order) side
              (Grid.quantity_per_level grid_order) price ;;
  if not_failed result then update_grid grid_id (Grid.append_order result) else ret tt.

Definition _place_grid_orders (grid_id : string) : M F unit :=
  grid_order <~ read_grid grid_id ;;
  for_each (Grid.buy_levels grid_order) (place_grid_level grid_id grid_order "BUY") ;;;
  for_each (Grid.sell_levels grid_order) (place_grid_level grid_id grid_order "SELL").

Definition start_grid_strategy (symbol : string) (lower_price upper_price : F)
    (grid_levels : Z) (quantity_per_level : F) : M F string :=
  t <~ time_time ;;
  let grid_id := "grid_" ++ symbol ++ "_" ++ str_int t in
  price_step <~ lift (py_truediv (f_sub upper_price lower_price) (grid_levels - 1)) ;;
  current_price <~ get_current_price symbol ;;
  levels <~ lift (classify_levels lower_price price_step current_price
                    (py_range grid_levels) [] []) ;;
  modify (fun s => OrderManager.with_grid_orders
            (<[grid_id := Grid.mk symbol lower_price upper_price grid_levels quantity_per_level
                            (fst levels) (snd levels) [] true]>
               (OrderManager.grid_orders s)) s) ;;;
  _place_grid_orders grid_id ;;;
  ret grid_id.

End Engine.

(** ** Reading the engine's results *)

Section Reading.
Context {F : Type} `{PyFloat F}.

(** The [OrderResult] a placement method returns, as a function of what
    the client answered and of the clock: the success branch when the
    dictionary has both keys, the [except] branch otherwise. *)
Definition result_of_answer (symbol side order_type : string) (quantity : F)
    (price : option F) (answer : exn + OrderDict.t) (ts : Z) : OrderResult.t F :=
  let failure e :=
    OrderResult.mk "" symbol side order_type quantity price "FAILED" ts (Some (str_exn e)) in
  match answer with
  | inl e => failure e
  | inr order =>
      match OrderDict.orderId order, OrderDict.status order with
      | Some oid, Some st =>
          OrderResult.mk (str_int oid) symbol side order_type quantity price st ts None
      | None, _ => failure (KeyError "orderId")
      | Some _, None => failure (KeyError "status")
      end
  end.

(** Whether the client's answer is a success: no exception and both keys
    present. *)
Definition accepted (answer : exn + OrderDict.t) : bool :=
  match answer with
  | inr order =>
      match OrderDict.orderId order, OrderDict.status order with
      | Some _, Some _ => true
      | _, _ => false
      end
  | inl _ => false
  end.

Definition market_request (symbol side : string) (quantity : F) : Request.t F :=
  Request.mk symbol side "MARKET" quantity None None.

Definition limit_request (symbol side : string) (quantity price : F) : Request.t F :=
  Request.mk symbol side "LIMIT" quantity (Some price) (Some "GTC").

(** The state after one request and one clock read. *)
Definition after_submit (req : Request.t F) (s : OrderManager.t F) : OrderManager.t F :=
  OrderManager.tick_clock (OrderManager.with_sent (OrderManager.sent s ++ [req]) s).

End Reading.

(** The contract of a placement method, for a call in which the client
    gave [answer]: the call returns; a refused or failed submission gives
    a [FAILED] result with an empty id and a message (for an exception
    [e], its [str(e)]); an accepted one gives a non-empty id and no
    message. *)
Definition submitter_contract {F} (answer : exn + OrderDict.t)
    (run : outcome (OrderResult.t F) * OrderManager.t F) : Prop :=
  exists r s',
    run = (Returned r, s') /\
    (if accepted answer
     then OrderResult.order_id r <> "" /\ OrderResult.error_message r = None
     else OrderResult.status r = "FAILED" /\ OrderResult.order_id r = "" /\
          is_Some (OrderResult.error_message r)) /\
    match answer with
    | inl e => OrderResult.error_message r = Some (str_exn e)
    | inr _ => True
    end /\
    (is_Some (OrderResult.error_message r) <-> OrderResult.order_id r = "").

(** ** Environments for the worked examples *)

(** An exchange that accepts every request with status NEW and numbers
    the orders from 1000, a ticker that answers [ticker], clocks that
    count from fixed instants, nobody cancelling, and a platform that
    refuses no sleep. *)
Definition accepting_exchange {F} (ticker : exn + F) : Env.t F :=
  Env.mk (fun history _ => inr (OrderDict.mk (Some (1000 + Z.of_nat (length history)))
                                             (Some "NEW")))
         (fun _ _ => ticker)
         (fun n => 1700000000000 + Z.of_nat n)
         (fun n => 1700000000 + Z.of_nat n)
         (fun _ _ => false)
         (fun _ => None).

(** The same, except that the exchange rejects the second request it
    receives. *)
Definition rejecting_second {F} (ticker : exn + F) : Env.t F :=
  Env.mk (fun history _ =>
            if Nat.eqb (length history) 1
            then inl (BinanceOrderException "Margin is insufficient.")
            else inr (OrderDict.mk (Some (1000 + Z.of_nat (length history))) (Some "NEW")))
         (fun _ _ => ticker)
         (fun n => 1700000000000 + Z.of_nat n)
         (fun n => 1700000000 + Z.of_nat n)
         (fun _ _ => false)
         (fun _ => None).

(** A start call is rejected without effect when it raises and leaves the
    state as it found it. *)
Definition rejected_without_effect {F A} (run : outcome A * OrderManager.t F)
    (s : OrderManager.t F) : Prop :=
  exists e, run = (Raised e, s).

(** ** Reading a TWAP run *)

Section TwapReading.
Context {F : Type} `{PyFloat F}.

(** The strategy entry as iteration [i] sees it: with the flag cleared if
    another thread has cancelled by then. *)
Definition twap_observed (env : Env.t F) (twap_id : string) (i : Z) (tw : Twap.t F) : Twap.t F :=
  if Env.cancel_requested env twap_id i then Twap.set_active false tw else tw.

(** The two [break] tests of the loop. *)
Definition twap_stops (tw : Twap.t F) : bool :=
  negb (Twap.active tw) || f_leb (Twap.remaining_quantity tw) f_zero.

(** [sum(r.quantity for r in orders)]. *)
Definition sum_quantities (orders : list (OrderResult.t F)) : F :=
  fold_left f_add (map OrderResult.quantity orders) f_zero.

(** Executed quantity plus remaining quantity is the total quantity. *)
Definition twap_conserved (tw : Twap.t F) : Prop :=
  f_add (sum_quantities (Twap.orders tw)) (Twap.remaining_quantity tw) = Twap.total_quantity tw.

Definition twap_conserved_at (twap_id : string) (s : OrderManager.t F) : Prop :=
  exists tw, OrderManager.twap_orders s !! twap_id = Some tw /\ twap_conserved tw.

End TwapReading.

(** The integer [j] as an exact number. *)
Definition exact_of_nat (j : nat) : Qc := Q2Qc (inject_Z (Z.of_nat j)).

(** A strategy entry after [j] equal slices of [q]: still active, [j]
    results of quantity [q] each, and [j * q] taken off the total. *)
Definition twap_progress (symbol side : string) (total q : Qc) (interval : Z) (j : nat)
    (tw : Twap.t Qc) : Prop :=
  Twap.symbol tw = symbol /\ Twap.side tw = side /\
  Twap.total_quantity tw = total /\ Twap.interval_seconds tw = interval /\
  Twap.active tw = true /\
  map OrderResult.quantity (Twap.orders tw) = repeat q j /\
  Twap.remaining_quantity tw = (total - exact_of_nat j * q)%Qc.

(** The remaining quantity and the recorded quantities of strategy
    [twap_id] in a state. *)
Definition twap_remaining {F} (twap_id : string) (s : OrderManager.t F) : option F :=
  Twap.remaining_quantity <$> OrderManager.twap_orders s !! twap_id.

Definition twap_quantities {F} (twap_id : string) (s : OrderManager.t F) : option (list F) :=
  (fun tw => map OrderResult.quantity (Twap.orders tw)) <$> OrderManager.twap_orders s !! twap_id.

Definition twap_active {F} (twap_id : string) (s : OrderManager.t F) : option bool :=
  Twap.active <$> OrderManager.twap_orders s !! twap_id.

(** What one pass of the TWAP loop does, by cases on the two [break]
    tests: either it breaks, submitting nothing and leaving the entry as
    observed; or it submits one MARKET order for
    [min(quantity_per_interval, remaining_quantity)], appends the result
    and takes that quantity off [remaining_quantity]; it then sleeps, and
    continues unless [time.sleep] raises. *)
Definition twap_iteration_contract {F} `{PyFloat F} (env : Env.t F) (twap_id : string)
    (quantity_per_interval : F) : Prop :=
  forall (i : Z) (s : OrderManager.t F) (tw : Twap.t F),
    OrderManager.twap_orders s !! twap_id = Some tw ->
    let tw0 := twap_observed env twap_id i tw in
    let order_quantity := py_min quantity_per_interval (Twap.remaining_quantity tw0) in
    let run := twap_iteration env twap_id quantity_per_interval i s in
    if twap_stops tw0
    then fst run = Returned Break /\
         OrderManager.sent (snd run) = OrderManager.sent s /\
         OrderManager.twap_orders (snd run) !! twap_id = Some tw0
    else exists result,
         fst run = match sleep_outcome env (Twap.interval_seconds tw0) with
                   | Returned _ => Returned Continue
                   | Raised e => Raised e
                   end /\
         OrderManager.sent (snd run) =
           (OrderManager.sent s
              ++ [market_request (Twap.symbol tw0) (Twap.side tw0) order_quantity])%list /\
         OrderResult.order_type result = "MARKET" /\
         OrderResult.quantity result = order_quantity /\
         OrderManager.twap_orders (snd run) !! twap_id =
           Some (Twap.set_remaining_quantity
                   (f_sub (Twap.remaining_quantity tw0) order_quantity)
                   (Twap.append_order result tw0)).

(** Executed quantity plus remaining quantity of strategy [twap_id]. *)
Definition twap_balance {F} `{PyFloat F} (twap_id : string) (s : OrderManager.t F) : option F :=
  (fun tw => f_add (sum_quantities (Twap.orders tw)) (Twap.remaining_quantity tw))
    <$> OrderManager.twap_orders s !! twap_id.

(** Closeness of two binary64 numbers, up to [2^-50]. *)
Definition close_to (x y : float) : bool :=
  PrimFloat.ltb (PrimFloat.abs (PrimFloat.sub x y)) (Z.ldexp 1 (-50)).

(** ** Reading a grid *)

Section GridReading.
Context {F : Type} `{PyFloat F}.

(** The results of placing limit orders at [prices], one after the other,
    when the client has [history] behind it and the clock has been read
    [clock] times: what the loops of [_place_grid_orders] receive. *)
Fixpoint grid_results (env : Env.t F) (symbol side : string) (quantity : F) (prices : list F)
    (history : list (Request.t F)) (clock : nat) : list (OrderResult.t F) :=
  match prices with
  | [] => []
  | price :: rest =>
      let req := limit_request symbol side quantity price in
      result_of_answer symbol side "LIMIT" quantity (Some price)
        (Env.futures_create_order env history req) (Env.datetime_now env clock)
      :: grid_results env symbol side quantity rest (history ++ [req]) (S clock)
  end.

(** The price [get_current_price] reports in state [s]. *)
Definition observed_price (env : Env.t F) (symbol : string) (s : OrderManager.t F) : F :=
  match Env.get_symbol_ticker env (OrderManager.price_queries s) symbol with
  | inl _ => f_zero
  | inr p => p
  end.

End GridReading.

(** In exact arithmetic, level [i] of a grid. *)
Definition exact_level (lower_price price_step : Qc) (i : Z) : Qc :=
  (lower_price + Q2Qc (inject_Z i) * price_step)%Qc.

(** The step and the levels of a grid, in generation order. *)
Definition exact_step (lower_price upper_price : Qc) (grid_levels : Z) : Qc :=
  ((upper_price - lower_price) / Q2Qc (inject_Z (grid_levels - 1)))%Qc.

Definition exact_levels (lower_price upper_price : Qc) (grid_levels : Z) : list Qc :=
  map (exact_level lower_price (exact_step lower_price upper_price grid_levels))
      (py_range grid_levels).

(** ** Further readings of the state *)

(** What a computation on strategy [twap_id] must leave alone: the other
    TWAP strategies, the grids, the OCO entries, the thread list and the
    price-query count. *)
Definition twap_frame {F} (twap_id : string) (s s' : OrderManager.t F) : Prop :=
  (forall other, other <> twap_id ->
     OrderManager.twap_orders s' !! other = OrderManager.twap_orders s !! other) /\
  OrderManager.grid_orders s' = OrderManager.grid_orders s /\
  OrderManager.active_orders s' = OrderManager.active_orders s /\
  OrderManager.threads s' = OrderManager.threads s /\
  OrderManager.price_queries s' = OrderManager.price_queries s.

(** The strategies the TWAP tab of the dashboard lists: those whose
    [active] flag is set ([main.py], the loop over [bot.twap_orders.items()]).
    The order of display is not modelled. *)
Definition twap_panel {F} (s : OrderManager.t F) : gmap string (Twap.t F) :=
  filter (fun entry => Twap.active (snd entry) = true) (OrderManager.twap_orders s).

(** An environment like [accepting_exchange] in which another thread
    cancels every TWAP strategy by the time its iteration [j] begins. *)
Definition cancelling_at {F} (j : Z) (ticker : exn + F) : Env.t F :=
  Env.mk (fun history _ => inr (OrderDict.mk (Some (1000 + Z.of_nat (length history)))
                                             (Some "NEW")))
         (fun _ _ => ticker)
         (fun n => 1700000000000 + Z.of_nat n)
         (fun n => 1700000000 + Z.of_nat n)
         (fun _ i => Z.eqb i j)
         (fun _ => None).

(** An environment like [accepting_exchange] whose [time.time()] does not
    advance: every read falls in the same second. *)
Definition same_second {F} (ticker : exn + F) : Env.t F :=
  Env.mk (fun history _ => inr (OrderDict.mk (Some (1000 + Z.of_nat (length history)))
                                             (Some "NEW")))
         (fun _ _ => ticker)
         (fun n => 1700000000000 + Z.of_nat n)
         (fun _ => 1700000000)
         (fun _ _ => false)
         (fun _ => None).

(** An exchange that rejects every request. *)
Definition rejecting_exchange {F} (ticker : exn + F) : Env.t F :=
  Env.mk (fun _ _ => inl (BinanceOrderException "Margin is insufficient."))
         (fun _ _ => ticker)
         (fun n => 1700000000000 + Z.of_nat n)
         (fun n => 1700000000 + Z.of_nat n)
         (fun _ _ => false)
         (fun _ => None).

(** A computation keeps the frame of strategy [twap_id] when, from every
    state and however it ends, it leaves the rest of the state alone. *)
Definition keeps_twap_frame {F A} (twap_id : string) (c : M F A) : Prop :=
  forall s, twap_frame twap_id s (snd (c s)).

(** The requests a TWAP strategy's records stand for: one MARKET request
    per recorded result, of its quantity, in order. *)
Definition twap_record_requests {F} (symbol side : string) (records : list (OrderResult.t F))
    : list (Request.t F) :=
  map (fun r => market_request symbol side (OrderResult.quantity r)) records.

(** The strategy's records match the requests sent since [sent0]. *)
Definition twap_records_match {F} (twap_id symbol side : string) (sent0 : list (Request.t F))
    (s : OrderManager.t F) : Prop :=
  exists tw,
    OrderManager.twap_orders s !! twap_id = Some tw /\
    Twap.symbol tw = symbol /\ Twap.side tw = side /\
    OrderManager.sent s = (sent0 ++ twap_record_requests symbol side (Twap.orders tw))%list /\
    Forall (fun r => OrderResult.order_type r = "MARKET" /\
                     OrderResult.symbol r = symbol /\ OrderResult.side r = side)
           (Twap.orders tw).

(** The remaining quantity stays between 0 and the total. *)
Definition remaining_bounded (twap_id : string) (total : Qc) (s : OrderManager.t Qc) : Prop :=
  exists tw,
    OrderManager.twap_orders s !! twap_id = Some tw /\
    (0 <= Twap.remaining_quantity tw)%Qc /\ (Twap.remaining_quantity tw <= total)%Qc.

(** Every recorded quantity is positive, and a pass can only submit when
    the slice is positive. *)
Definition quantities_positive (twap_id : string) (q : Qc) (s : OrderManager.t Qc) : Prop :=
  exists tw,
    OrderManager.twap_orders s !! twap_id = Some tw /\
    ((0 < q)%Qc \/ (Twap.remaining_quantity tw <= 0)%Qc) /\
    Forall (fun r => (0 < OrderResult.quantity r)%Qc) (Twap.orders tw).

(** ** The stop order, the client's queries and the dashboard *)

(** The keyword arguments of the [futures_create_order] call made by
    [place_stop_limit_order]; they include [stopPrice], which [Request.t]
    does not carry. *)
Module StopRequest.
Record t (F : Type) := mk {
    symbol : string;
    side : string;
    type : string;
    quantity : F;
    stopPrice : F;
    timeInForce : string
  }.
Arguments mk {F}.
Arguments symbol {F}.
Arguments side {F}.
Arguments type {F}.
Arguments quantity {F}.
Arguments stopPrice {F}.
Arguments timeInForce {F}.
End StopRequest.

Section StopOrder.
Context {F : Type} `{PyFloat F} (env : Env.t F).

(** The client call with these keyword arguments: any computation that
    answers with a dictionary or raises. *)
Variable create_stop_order : StopRequest.t F -> M F OrderDict.t.

Definition place_stop_limit_order (symbol side : string) (quantity stop_price limit_price : F)
    : M F (OrderResult.t F) :=
  try_except
    (order <~ create_stop_order
                (StopRequest.mk symbol side "STOP_MARKET" quantity stop_price "GTC") ;;
     oid <~ dict_get "orderId" (OrderDict.orderId order) ;;
     st <~ dict_get "status" (OrderDict.status order) ;;
     ts <~ datetime_now env ;;
     ret (OrderResult.mk (str_int oid) symbol side "STOP_MARKET" quantity (Some stop_price)
            st ts None))
    [(is_Exception, failed_result env symbol side "STOP_MARKET" quantity (Some stop_price))].

End StopOrder.

(** The outcome of a client call as an answer. *)
Definition answer_of_outcome (o : outcome OrderDict.t) : exn + OrderDict.t :=
  match o with Returned order => inr order | Raised e => inl e end.

(** [try: o  except Exception as e: h e] without state. *)
Definition outcome_try {A} (o : outcome A) (h : exn -> outcome A) : outcome A :=
  match o with Returned a => Returned a | Raised e => h e end.

(** [d[key]] without state. *)
Definition outcome_get {A} (key : string) (v : option A) : outcome A :=
  match v with Some a => Returned a | None => Raised (KeyError key) end.

(** One entry of [info['symbols']]; [None] is a missing key. *)
Module SymbolInfo.
Record t := mk {
    symbol : option string;
    status : option string
  }.
End SymbolInfo.

(** The dictionary [get_exchange_info()] answers with. *)
Module ExchangeInfo.
Record t := mk {
    symbols : option (list SymbolInfo.t)
  }.
End ExchangeInfo.

(** [[s['symbol'] for s in entries if s['status'] == 'TRADING']]. *)
Fixpoint trading_symbols (entries : list SymbolInfo.t) : outcome (list string) :=
  match entries with
  | [] => Returned []
  | s :: rest =>
      outcome_bind (outcome_get "status" (SymbolInfo.status s)) (fun st =>
        if String.eqb st "TRADING"
        then outcome_bind (outcome_get "symbol" (SymbolInfo.symbol s)) (fun sym =>
               outcome_bind (trading_symbols rest) (fun syms => Returned (sym :: syms)))
        else trading_symbols rest)
  end.

(** [BinanceClient.validate_symbol], for the answer [get_exchange_info]
    gave; [upper] is Python's [str.upper]. *)
Definition validate_symbol (upper : string -> string) (get_exchange_info : exn + ExchangeInfo.t)
    (symbol : string) : outcome bool :=
  outcome_try
    (outcome_bind (match get_exchange_info with inl e => Raised e | inr info => Returned info end)
       (fun info =>
          outcome_bind (outcome_get "symbols" (ExchangeInfo.symbols info)) (fun entries =>
            outcome_bind (trading_symbols entries) (fun symbols =>
              Returned (bool_decide (upper symbol ∈ symbols))))))
    (fun _ => Returned false).

(** An entry of the [symbols] list that the comprehension can read. *)
Definition readable_entry (s : SymbolInfo.t) : Prop :=
  exists st, SymbolInfo.status s = Some st /\
             (st = "TRADING" -> is_Some (SymbolInfo.symbol s)).

(** One item of [futures_account_balance()]: the asset, when the key is
    there, and what [float(item['balance'])] gives. *)
Module BalanceItem.
Record t (F : Type) := mk {
    asset : option string;
    balance : outcome F
  }.
Arguments mk {F}.
Arguments asset {F}.
Arguments balance {F}.
End BalanceItem.

(** [{item['asset']: float(item['balance']) for item in items}], on top
    of the entries built so far. *)
Fixpoint balance_dict {F} (items : list (BalanceItem.t F)) (built : gmap string F)
    : outcome (gmap string F) :=
  match items with
  | [] => Returned built
  | item :: rest =>
      outcome_bind (outcome_get "asset" (BalanceItem.asset item)) (fun a =>
        outcome_bind (BalanceItem.balance item) (fun b =>
          balance_dict rest (<[a := b]> built)))
  end.

(** [BinanceClient.get_account_balance], for the answer
    [futures_account_balance] gave. *)
Definition get_account_balance {F} (futures_account_balance : exn + list (BalanceItem.t F))
    : outcome (gmap string F) :=
  outcome_try
    (outcome_bind (match futures_account_balance with
                   | inl e => Raised e
                   | inr items => Returned items
                   end)
       (fun items => balance_dict items ∅))
    (fun _ => Returned ∅).

(** What the dashboard shows after an order button: [st.error] or
    [st.success] with its text ([main.py], lines 46 to 50). *)
Inductive banner :=
| st_error (text : string)
| st_success (text : string).

(** Python's truth value of an optional string. *)
Definition truthy (s : option string) : bool :=
  match s with
  | Some (String _ _) => true
  | _ => false
  end.

Definition report_order {F} (result : OrderResult.t F) : banner :=
  if truthy (OrderResult.error_message result)
  then st_error ("Error: " ++ default "" (OrderResult.error_message result))
  else st_success ("Order placed successfully! Order ID: " ++ OrderResult.order_id result).

(** The "Place Order" button of the market order form. *)
Definition market_order_button {F} `{PyFloat F} (env : Env.t F) (symbol side : string)
    (quantity : F) : M F banner :=
  result <~ place_market_order env symbol side quantity ;;
  ret (report_order result).

(** A balance item the comprehension can read. *)
Definition readable_item {F} (item : BalanceItem.t F) : Prop :=
  is_Some (BalanceItem.asset item) /\ exists b, BalanceItem.balance item = Returned b.

(** The environment in which every failed price query of [env] is
    replaced by a genuine answer of 0.0. *)
Definition zero_priced {F} `{PyFloat F} (env : Env.t F) : Env.t F :=
  Env.mk (Env.futures_create_order env)
         (fun n symbol => match Env.get_symbol_ticker env n symbol with
                          | inl _ => inr f_zero
                          | inr p => inr p
                          end)
         (Env.datetime_now env) (Env.time_time env) (Env.cancel_requested env)
         (Env.os_sleep env).

(** ** The two halves of a TWAP pass *)

Section TwapPass.
Context {F : Type} `{PyFloat F} (env : Env.t F).

(** Lines 238 to 252 of one pass of the loop of [_execute_twap]: the two
    tests, the order, and the append of its result.  The state it leaves
    is the one another thread reads until line 253 has run.  It hands on
    the quantity submitted and the entry read, or [None] when the pass
    breaks. *)
Definition twap_iteration_to_append (twap_id : string) (quantity_per_interval : F) (i : Z)
    : M F (option (F * Twap.t F)) :=
  (if Env.cancel_requested env twap_id i
   then update_twap twap_id (Twap.set_active false) else ret tt) ;;;
  twap_order <~ read_twap twap_id ;;
  if negb (Twap.active twap_order) then ret None else
  if f_leb (Twap.remaining_quantity twap_order) f_zero then ret None else
  let order_quantity := py_min quantity_per_interval (Twap.remaining_quantity twap_order) in
  result <~ place_market_order env (Twap.symbol twap_order) (Twap.side twap_order)
              order_quantity ;;
  update_twap twap_id (Twap.append_order result) ;;;
  ret (Some (order_quantity, twap_order)).

(** Lines 253 to 257: the decrement and the sleep. *)
Definition twap_iteration_from_decrement (twap_id : string) (order_quantity : F)
    (twap_order : Twap.t F) : M F ctl :=
  update_twap twap_id (fun tw =>
    Twap.set_remaining_quantity (f_sub (Twap.remaining_quantity tw) order_quantity) tw) ;;;
  time_sleep env (Twap.interval_seconds twap_order) ;;;
  ret Continue.

(** The pass as the one half followed by the other. *)
Definition twap_iteration_in_halves (twap_id : string) (quantity_per_interval : F) (i : Z)
    : M F ctl :=
  half <~ twap_iteration_to_append twap_id quantity_per_interval i ;;
  match half with
  | None => ret Break
  | Some (order_quantity, twap_order) =>
      twap_iteration_from_decrement twap_id order_quantity twap_order
  end.

End TwapPass.

(** What the decrements of a strategy's records leave of [total]:
    [total - q1 - ... - qk], computed in that order. *)
Definition remaining_after {F} `{PyFloat F} (total : F) (records : list (OrderResult.t F)) : F :=
  fold_left f_sub (map OrderResult.quantity records) total.

(** Every result of strategy [twap_id] is a rejection, and every one of
    them has been taken off the remaining quantity. *)
Definition rejections_consumed {F} `{PyFloat F} (twap_id : string) (total : F)
    (s : OrderManager.t F) : Prop :=
  exists tw,
    OrderManager.twap_orders s !! twap_id = Some tw /\
    Forall (fun r => OrderResult.status r = "FAILED" /\ OrderResult.order_id r = "")
           (Twap.orders tw) /\
    Twap.remaining_quantity tw = remaining_after total (Twap.orders tw).

(** Every recorded quantity of strategy [twap_id] compares above zero. *)
Definition recorded_positive {F} `{PyFloat F} (twap_id : string) (s : OrderManager.t F) : Prop :=
  exists tw,
    OrderManager.twap_orders s !! twap_id = Some tw /\
    Forall (fun r => f_ltb f_zero (OrderResult.quantity r) = true) (Twap.orders tw).

(** The smallest positive binary64 number, [2^-1074]. *)
Definition smallest_positive : float := Z.ldexp 1 (-1074).

(** ** The levels of a grid in any arithmetic *)

Section GridLevelPrices.
Context {F : Type} `{PyFloat F}.

(** The prices [lower_price + i * price_step] for the indices [i], in
    the order of the indices: the values the loop of lines 272 to 278
    computes one by one.  The first conversion of an index that overflows
    raises. *)
Fixpoint grid_level_prices (lower_price price_step : F) (indices : list Z) : outcome (list F) :=
  match indices with
  | [] => Returned []
  | i :: rest =>
      outcome_bind (level_price lower_price price_step i) (fun p =>
        outcome_bind (grid_level_prices lower_price price_step rest) (fun ps =>
          Returned (p :: ps)))
  end.

End GridLevelPrices.

(** * Properties *)

(** ** Running the monad *)

Section MonadFacts.
Context {F : Type}.

Lemma bind_returned {A B} (c : M F A) (k : A -> M F B) s a s' :
  c s = (Returned a, s') -> bind c k s = k a s'.
Proof. intros Hc. unfold bind. now rewrite Hc. Qed.

Lemma bind_raised {A B} (c : M F A) (k : A -> M F B) s e s' :
  c s = (Raised e, s') -> bind c k s = (Raised e, s').
Proof. intros Hc. unfold bind. now rewrite Hc. Qed.

Lemma bind_assoc {A B C} (c : M F A) (k : A -> M F B) (k' : B -> M F C) s :
  bind (bind c k) k' s = bind c (fun a => bind (k a) k') s.
Proof. unfold bind. destruct (c s) as [[a | e] s']; reflexivity. Qed.

Lemma bind_ext {A B} (c : M F A) (k k' : A -> M F B) s :
  (forall a s', k a s' = k' a s') -> bind c k s = bind c k' s.
Proof. intros Hk. unfold bind. destruct (c s) as [[a | e] s']; [apply Hk | reflexivity]. Qed.

End MonadFacts.

(** ** [str] of an integer *)

Lemma str_int_nonempty (n : Z) : str_int n <> "".
Proof.
  unfold str_int, NilZero.string_of_int.
  destruct (Z.to_int n) as [d | d]; [| discriminate].
  unfold NilZero.string_of_uint. destruct d; discriminate.
Qed.

(** ** The primitive orders *)

Section Submitter.
Context {F : Type} `{PyFloat F} (env : Env.t F).

Lemma place_market_order_run symbol side quantity s :
  place_market_order env symbol side quantity s =
  (Returned (result_of_answer symbol side "MARKET" quantity None
               (Env.futures_create_order env (OrderManager.sent s)
                  (market_request symbol side quantity))
               (Env.datetime_now env (OrderManager.clock_reads s))),
   after_submit (market_request symbol side quantity) s).
Proof.
  unfold place_market_order, result_of_answer, after_submit, market_request.
  unfold try_except, bind at 1, futures_create_order.
  destruct (Env.futures_create_order env _ _) as [e | [[oid |] [st |]]]; simpl;
    try (destruct (is_BinanceOrderException e)); reflexivity.
Qed.

Lemma place_limit_order_run symbol side quantity price s :
  place_limit_order env symbol side quantity price s =
  (Returned (result_of_answer symbol side "LIMIT" quantity (Some price)
               (Env.futures_create_order env (OrderManager.sent s)
                  (limit_request symbol side quantity price))
               (Env.datetime_now env (OrderManager.clock_reads s))),
   after_submit (limit_request symbol side quantity price) s).
Proof.
  unfold place_limit_order, result_of_answer, after_submit, limit_request.
  unfold try_except, bind at 1, futures_create_order.
  destruct (Env.futures_create_order env _ _) as [e | [[oid |] [st |]]]; simpl;
    try (destruct (is_BinanceOrderException e)); reflexivity.
Qed.

(** What [result_of_answer] builds, by the kind of answer. *)
Lemma result_of_answer_accepted symbol side ty (quantity : F) price answer ts :
  accepted answer = true ->
  exists oid st,
    answer = inr (OrderDict.mk (Some oid) (Some st)) /\
    result_of_answer symbol side ty quantity price answer ts =
    OrderResult.mk (str_int oid) symbol side ty quantity price st ts None.
Proof.
  destruct answer as [e | [[oid |] [st |]]]; simpl; try discriminate.
  intros _. now exists oid, st.
Qed.

Lemma result_of_answer_refused symbol side ty (quantity : F) price answer ts :
  accepted answer = false ->
  exists msg,
    result_of_answer symbol side ty quantity price answer ts =
    OrderResult.mk "" symbol side ty quantity price "FAILED" ts (Some msg).
Proof.
  destruct answer as [e | [[oid |] [st |]]]; simpl; try discriminate; intros _; eauto.
Qed.

Lemma result_of_answer_error_iff symbol side ty (quantity : F) price answer ts :
  let r := result_of_answer symbol side ty quantity price answer ts in
  is_Some (OrderResult.error_message r) <-> OrderResult.order_id r = "".
Proof.
  destruct (accepted answer) eqn:Hacc.
  - destruct (result_of_answer_accepted symbol side ty quantity price answer ts Hacc)
      as (oid & st & _ & ->). simpl. split.
    + intros [? ?]. discriminate.
    + intros Hid. now apply str_int_nonempty in Hid.
  - destruct (result_of_answer_refused symbol side ty quantity price answer ts Hacc)
      as (msg & ->). simpl. split; eauto.
Qed.

End Submitter.

Lemma result_of_answer_contract {F} symbol side ty (quantity : F) price answer ts s' :
  submitter_contract answer
    (Returned (result_of_answer symbol side ty quantity price answer ts), s').
Proof.
  eexists _, _. split; [reflexivity |]. split; [| split].
  - destruct (accepted answer) eqn:Hacc.
    + destruct (result_of_answer_accepted symbol side ty quantity price answer ts Hacc)
        as (oid & st & _ & ->). simpl. split; [apply str_int_nonempty | reflexivity].
    + destruct (result_of_answer_refused symbol side ty quantity price answer ts Hacc)
        as (msg & ->). simpl. eauto.
  - destruct answer; [reflexivity | exact I].
  - apply result_of_answer_error_iff.
Qed.

(** C7.  The market and the limit placement never raise: whatever the
    client answers, the call returns an [OrderResult]; a failure of the
    submission is captured as status FAILED with an empty [order_id] and
    [error_message] set, a success has a non-empty [order_id] and no
    [error_message]; so [error_message] is set exactly when [order_id] is
    empty. *)
Theorem placement_never_raises {F} `{PyFloat F} (env : Env.t F)
    (symbol side : string) (quantity price : F) (s : OrderManager.t F) :
  submitter_contract
    (Env.futures_create_order env (OrderManager.sent s) (market_request symbol side quantity))
    (place_market_order env symbol side quantity s) /\
  submitter_contract
    (Env.futures_create_order env (OrderManager.sent s)
       (limit_request symbol side quantity price))
    (place_limit_order env symbol side quantity price s).
Proof.
  rewrite place_market_order_run, place_limit_order_run.
  split; apply result_of_answer_contract.
Qed.

(** ** OCO *)

(** C9.  [place_oco_order] submits the limit leg only: the request log
    grows by exactly the one LIMIT request, the result returned is the
    limit leg's result, and the stop prices are stored under the limit
    order's id exactly when that result is not FAILED. *)
Theorem oco_submits_limit_leg_only {F} `{PyFloat F} (env : Env.t F)
    (symbol side : string) (quantity price stop_price stop_limit_price : F)
    (s : OrderManager.t F) :
  exists limit_order s1 s2,
    place_limit_order env symbol side quantity price s = (Returned limit_order, s1) /\
    place_oco_order env symbol side quantity price stop_price stop_limit_price s
      = (Returned limit_order, s2) /\
    OrderManager.sent s2 =
      (OrderManager.sent s ++ [limit_request symbol side quantity price])%list /\
    OrderManager.active_orders s2 =
      (if not_failed limit_order
       then <[OrderResult.order_id limit_order :=
                Oco.mk "OCO" stop_price stop_limit_price symbol side quantity]>
              (OrderManager.active_orders s)
       else OrderManager.active_orders s) /\
    OrderManager.twap_orders s2 = OrderManager.twap_orders s /\
    OrderManager.grid_orders s2 = OrderManager.grid_orders s.
Proof.
  pose proof (place_limit_order_run env symbol side quantity price s) as Hlimit.
  set (r := result_of_answer _ _ _ _ _ _ _) in Hlimit.
  set (s1 := after_submit _ s) in Hlimit.
  exists r, s1.
  exists (if not_failed r
          then OrderManager.with_active_orders
                 (<[OrderResult.order_id r :=
                      Oco.mk "OCO" stop_price stop_limit_price symbol side quantity]>
                    (OrderManager.active_orders s1)) s1
          else s1).
  split; [exact Hlimit |].
  unfold place_oco_order, try_except, bind at 1.
  rewrite Hlimit. unfold bind, modify, ret.
  destruct (not_failed r); simpl; auto 10.
Qed.

(** ** TWAP: starting *)

Section TwapStart.
Context {F : Type} `{PyFloat F} (env : Env.t F).

Lemma start_twap_order_run symbol side total_quantity duration_minutes interval_seconds s :
  let twap_id := "twap_" ++ symbol ++ "_"
                 ++ str_int (Env.time_time env (OrderManager.clock_reads s)) in
  let entry := Twap.mk symbol side total_quantity total_quantity duration_minutes
                 interval_seconds (Env.datetime_now env (S (OrderManager.clock_reads s)))
                 [] true in
  start_twap_order env symbol side total_quantity duration_minutes interval_seconds s =
  (Returned twap_id,
   OrderManager.mk (OrderManager.active_orders s)
     (<[twap_id := entry]> (OrderManager.twap_orders s))
     (OrderManager.grid_orders s) (OrderManager.sent s)
     (OrderManager.threads s ++ [twap_id])
     (S (S (OrderManager.clock_reads s))) (OrderManager.price_queries s)).
Proof. reflexivity. Qed.

End TwapStart.

(** C2, as the code has it.  [start_twap_order] validates nothing: for
    every total quantity, duration and interval, positive or not, it
    returns the strategy id, having registered the strategy (remaining
    quantity equal to the total, no orders, active) and launched its
    background task, and having placed no order itself. *)
Theorem start_twap_never_validates {F} `{PyFloat F} (env : Env.t F)
    (symbol side : string) (total_quantity : F) (duration_minutes interval_seconds : Z)
    (s : OrderManager.t F) :
  exists twap_id s' start_time,
    start_twap_order env symbol side total_quantity duration_minutes interval_seconds s
      = (Returned twap_id, s') /\
    twap_id = "twap_" ++ symbol ++ "_"
              ++ str_int (Env.time_time env (OrderManager.clock_reads s)) /\
    OrderManager.twap_orders s' !! twap_id =
      Some (Twap.mk symbol side total_quantity total_quantity duration_minutes
              interval_seconds start_time [] true) /\
    OrderManager.threads s' = (OrderManager.threads s ++ [twap_id])%list /\
    OrderManager.sent s' = OrderManager.sent s.
Proof.
  eexists _, _, _. split; [apply start_twap_order_run |].
  simpl. split; [reflexivity |]. split; [| split; reflexivity].
  apply lookup_insert_eq.
Qed.

(** C2 fails as stated: a start with total quantity -1, duration 0 and
    interval 0 is not rejected; it returns an id, registers the strategy
    and launches the task. *)
Lemma start_twap_accepts_nonpositive :
  let s := @OrderManager.init Qc in
  let run := start_twap_order (accepting_exchange (inr (Q2Qc 0)))
               "BTCUSDT" "BUY" (Q2Qc (-1)) 0 0 s in
  ~ rejected_without_effect run s /\
  fst run = Returned "twap_BTCUSDT_1700000000" /\
  OrderManager.threads (snd run) = ["twap_BTCUSDT_1700000000"] /\
  is_Some (OrderManager.twap_orders (snd run) !! "twap_BTCUSDT_1700000000").
Proof.
  intros s run. split; [| split; [| split]].
  - intros [e He]. subst run. rewrite start_twap_order_run in He. discriminate.
  - reflexivity.
  - reflexivity.
  - subst run. rewrite start_twap_order_run. simpl. rewrite lookup_insert_eq. eauto.
Qed.

(** ** TWAP: one iteration *)

Section TwapIteration.
Context {F : Type} `{PyFloat F} (env : Env.t F).

Lemma read_twap_run twap_id (s : OrderManager.t F) (tw : Twap.t F) :
  OrderManager.twap_orders s !! twap_id = Some tw ->
  read_twap twap_id s = (Returned tw, s).
Proof. intros Hlook. unfold read_twap, bind, get. now rewrite Hlook. Qed.

Lemma read_twap_missing twap_id (s : OrderManager.t F) :
  OrderManager.twap_orders s !! twap_id = None ->
  read_twap twap_id s = (Raised (KeyError twap_id), s).
Proof. intros Hlook. unfold read_twap, bind, get. now rewrite Hlook. Qed.

(** A cancellation touches the flag only. *)
Lemma twap_observed_fields twap_id i (tw : Twap.t F) :
  Twap.symbol (twap_observed env twap_id i tw) = Twap.symbol tw /\
  Twap.side (twap_observed env twap_id i tw) = Twap.side tw /\
  Twap.total_quantity (twap_observed env twap_id i tw) = Twap.total_quantity tw /\
  Twap.remaining_quantity (twap_observed env twap_id i tw) = Twap.remaining_quantity tw /\
  Twap.orders (twap_observed env twap_id i tw) = Twap.orders tw.
Proof. unfold twap_observed. now destruct (Env.cancel_requested env twap_id i). Qed.

(** The state in which iteration [i] reads the flag. *)
Lemma twap_observe_run twap_id i (s : OrderManager.t F) (tw : Twap.t F) :
  OrderManager.twap_orders s !! twap_id = Some tw ->
  exists s0,
    (if Env.cancel_requested env twap_id i
     then update_twap twap_id (Twap.set_active false) else ret tt) s = (Returned tt, s0) /\
    OrderManager.twap_orders s0 !! twap_id = Some (twap_observed env twap_id i tw) /\
    OrderManager.sent s0 = OrderManager.sent s /\
    OrderManager.clock_reads s0 = OrderManager.clock_reads s.
Proof.
  intros Hlook. unfold twap_observed.
  destruct (Env.cancel_requested env twap_id i).
  - eexists. split; [reflexivity |]. simpl.
    rewrite lookup_alter_eq, Hlook. auto.
  - exists s. auto.
Qed.

(** An iteration that finds the strategy inactive or exhausted breaks and
    submits nothing. *)
Lemma twap_iteration_break twap_id quantity_per_interval i
    (s : OrderManager.t F) (tw : Twap.t F) :
  OrderManager.twap_orders s !! twap_id = Some tw ->
  twap_stops (twap_observed env twap_id i tw) = true ->
  exists s',
    twap_iteration env twap_id quantity_per_interval i s = (Returned Break, s') /\
    OrderManager.sent s' = OrderManager.sent s /\
    OrderManager.twap_orders s' !! twap_id = Some (twap_observed env twap_id i tw).
Proof.
  intros Hlook Hstop.
  destruct (twap_observe_run twap_id i s tw Hlook) as (s0 & Hobs & Hlook0 & Hsent & _).
  exists s0. unfold twap_iteration.
  rewrite (bind_returned _ _ _ _ _ Hobs).
  rewrite (bind_returned _ _ _ _ _ (read_twap_run _ _ _ Hlook0)).
  unfold twap_stops in Hstop.
  destruct (negb (Twap.active _)); [auto |].
  simpl in Hstop. rewrite Hstop. auto.
Qed.

(** Otherwise the iteration submits one MARKET order for
    [min(quantity_per_interval, remaining_quantity)], appends its result
    and takes that quantity off the remaining quantity; it then sleeps,
    and continues unless the sleep raises. *)
Lemma twap_iteration_submit twap_id quantity_per_interval i
    (s : OrderManager.t F) (tw : Twap.t F) :
  OrderManager.twap_orders s !! twap_id = Some tw ->
  twap_stops (twap_observed env twap_id i tw) = false ->
  let tw0 := twap_observed env twap_id i tw in
  let order_quantity := py_min quantity_per_interval (Twap.remaining_quantity tw0) in
  let req := market_request (Twap.symbol tw0) (Twap.side tw0) order_quantity in
  let result := result_of_answer (Twap.symbol tw0) (Twap.side tw0) "MARKET" order_quantity None
                  (Env.futures_create_order env (OrderManager.sent s) req)
                  (Env.datetime_now env (OrderManager.clock_reads s)) in
  exists s',
    twap_iteration env twap_id quantity_per_interval i s =
      (match sleep_outcome env (Twap.interval_seconds tw0) with
       | Returned _ => Returned Continue
       | Raised e => Raised e
       end, s') /\
    OrderManager.sent s' = (OrderManager.sent s ++ [req])%list /\
    OrderManager.twap_orders s' !! twap_id =
      Some (Twap.set_remaining_quantity
              (f_sub (Twap.remaining_quantity tw0) order_quantity)
              (Twap.append_order result tw0)).
Proof.
  intros Hlook Hgo tw0 order_quantity req result.
  destruct (twap_observe_run twap_id i s tw Hlook) as (s0 & Hobs & Hlook0 & Hsent & Hclock).
  fold tw0 in Hlook0.
  unfold twap_iteration.
  rewrite (bind_returned _ _ _ _ _ Hobs).
  rewrite (bind_returned _ _ _ _ _ (read_twap_run _ _ _ Hlook0)).
  unfold twap_stops in Hgo. fold tw0 in Hgo.
  apply orb_false_iff in Hgo as [Hact Hrem]. rewrite Hact, Hrem.
  rewrite (bind_returned _ _ _ _ _ (place_market_order_run env _ _ _ s0)).
  rewrite Hsent, Hclock. fold order_quantity req result.
  unfold bind, update_twap, modify, time_sleep, lift, ret, raise.
  eexists. split.
  - destruct (sleep_outcome env (Twap.interval_seconds tw0)) as [[] | e]; reflexivity.
  - simpl. rewrite Hsent. split; [reflexivity |].
    rewrite !lookup_alter_eq, Hlook0. reflexivity.
Qed.

End TwapIteration.

Lemma result_of_answer_quantity {F} symbol side ty (q : F) price answer ts :
  OrderResult.quantity (result_of_answer symbol side ty q price answer ts) = q.
Proof. now destruct answer as [e | [[oid |] [st |]]]. Qed.

Lemma result_of_answer_order_type {F} symbol side ty (q : F) price answer ts :
  OrderResult.order_type (result_of_answer symbol side ty q price answer ts) = ty.
Proof. now destruct answer as [e | [[oid |] [st |]]]. Qed.

Lemma twap_iteration_meets_contract {F} `{PyFloat F} (env : Env.t F) twap_id q :
  twap_iteration_contract env twap_id q.
Proof.
  intros i s tw Hlook tw0 order_quantity run.
  destruct (twap_stops tw0) eqn:Hstop.
  - destruct (twap_iteration_break env twap_id q i s tw Hlook Hstop) as (s' & Hrun & Hsent & Hs).
    subst run. rewrite Hrun. auto.
  - destruct (twap_iteration_submit env twap_id q i s tw Hlook Hstop) as (s' & Hrun & Hsent & Hs).
    subst run. rewrite Hrun. eexists. simpl.
    split; [reflexivity |]. split; [exact Hsent |].
    split; [apply result_of_answer_order_type |].
    split; [apply result_of_answer_quantity | exact Hs].
Qed.

(** ** TWAP: the loop and the whole task *)

Section TwapTask.
Context {F : Type} `{PyFloat F} (env : Env.t F).

(** A property of the state that every pass of a loop body keeps, however
    the pass ends, holds when the loop is left. *)
Lemma for_break_invariant {A} (P : OrderManager.t F -> Prop) (body : A -> M F ctl) xs :
  (forall x s, P s -> P (snd (body x s))) ->
  forall s, P s -> P (snd (for_break xs body s)).
Proof.
  intros Hbody. induction xs as [| x xs IH]; intros s Hs; simpl; [exact Hs |].
  unfold bind. specialize (Hbody x s Hs).
  destruct (body x s) as [[[] | e] s1]; simpl in *; auto.
Qed.

(** A loop whose body adds at most one to a measure adds at most its
    number of passes. *)
Lemma for_break_bounded {A} (mu : OrderManager.t F -> nat) (body : A -> M F ctl) xs :
  (forall x s, (mu (snd (body x s)) <= mu s + 1)%nat) ->
  forall s, (mu (snd (for_break xs body s)) <= mu s + length xs)%nat.
Proof.
  intros Hbody. induction xs as [| x xs IH]; intros s; simpl; [lia |].
  unfold bind. specialize (Hbody x s).
  destruct (body x s) as [[[] | e] s1]; simpl in *; try lia.
  specialize (IH s1). lia.
Qed.

Lemma length_py_range n : length (py_range n) = Z.to_nat n.
Proof. unfold py_range. now rewrite length_map, length_seq. Qed.

(** [_execute_twap] on a registered strategy: the two divisions, then the
    loop, then the flag. *)
Lemma execute_twap_run twap_id (s : OrderManager.t F) (tw : Twap.t F) :
  OrderManager.twap_orders s !! twap_id = Some tw ->
  _execute_twap env twap_id s =
  match py_floordiv (Twap.duration_minutes tw * 60) (Twap.interval_seconds tw) with
  | Raised e => (Raised e, s)
  | Returned total_intervals =>
      match py_truediv (Twap.total_quantity tw) total_intervals with
      | Raised e => (Raised e, s)
      | Returned quantity_per_interval =>
          (twap_loop env twap_id quantity_per_interval total_intervals ;;;
           update_twap twap_id (Twap.set_active false)) s
      end
  end.
Proof.
  intros Hlook. unfold _execute_twap.
  rewrite (bind_returned _ _ _ _ _ (read_twap_run _ _ _ Hlook)).
  unfold bind at 1, lift.
  destruct (py_floordiv _ _) as [n | e]; [| reflexivity].
  unfold bind at 1.
  destruct (py_truediv _ _) as [q | e]; reflexivity.
Qed.

(** An iteration sends at most one request and appends at most one
    result. *)
Lemma twap_iteration_sends_at_most_one twap_id q i (s : OrderManager.t F) :
  (length (OrderManager.sent (snd (twap_iteration env twap_id q i s)))
   <= length (OrderManager.sent s) + 1)%nat.
Proof.
  destruct (OrderManager.twap_orders s !! twap_id) as [tw |] eqn:Hlook.
  - destruct (twap_stops (twap_observed env twap_id i tw)) eqn:Hstop.
    + destruct (twap_iteration_break env twap_id q i s tw Hlook Hstop) as (s' & -> & Hs & _).
      simpl. rewrite Hs. lia.
    + destruct (twap_iteration_submit env twap_id q i s tw Hlook Hstop) as (s' & -> & Hs & _).
      simpl. rewrite Hs, length_app. simpl. lia.
  - unfold twap_iteration.
    assert (Hobs : exists s0,
      (if Env.cancel_requested env twap_id i
       then update_twap twap_id (Twap.set_active false) else ret tt) s = (Returned tt, s0) /\
      OrderManager.twap_orders s0 !! twap_id = None /\
      OrderManager.sent s0 = OrderManager.sent s).
    { destruct (Env.cancel_requested env twap_id i).
      - eexists. split; [reflexivity |]. simpl. rewrite lookup_alter_eq, Hlook. auto.
      - exists s. auto. }
    destruct Hobs as (s0 & Hobs & Hnone & Hsent).
    rewrite (bind_returned _ _ _ _ _ Hobs).
    rewrite (bind_raised _ _ _ _ _ (read_twap_missing _ _ Hnone)).
    simpl. rewrite Hsent. lia.
Qed.

End TwapTask.

(** ** Exact arithmetic *)

Section Exact.

Lemma Qc_eq_Qeq (x y : Qc) : x = y -> (x == y)%Q.
Proof. intros ->. reflexivity. Qed.

Lemma exact_ltb_true (x y : Qc) : f_ltb x y = true <-> (x < y)%Qc.
Proof.
  simpl. rewrite Qclt_alt. unfold Qccompare.
  destruct (x ?= y)%Q; split; congruence.
Qed.

Lemma exact_ltb_false (x y : Qc) : f_ltb x y = false <-> (y <= x)%Qc.
Proof.
  split; intros Hxy.
  - apply Qcnot_lt_le. intros Hlt. apply exact_ltb_true in Hlt. congruence.
  - destruct (f_ltb x y) eqn:Hlt; [| reflexivity].
    apply exact_ltb_true in Hlt. now apply Qcle_not_lt in Hxy.
Qed.

Lemma exact_leb_true (x y : Qc) : f_leb x y = true <-> (x <= y)%Qc.
Proof.
  simpl. rewrite Qcle_alt. unfold Qccompare.
  destruct (x ?= y)%Q; split; congruence.
Qed.

Lemma exact_leb_false (x y : Qc) : f_leb x y = false <-> (y < x)%Qc.
Proof.
  split; intros Hxy.
  - apply Qcnot_le_lt. intros Hle. apply exact_leb_true in Hle. congruence.
  - destruct (f_leb x y) eqn:Hle; [| reflexivity].
    apply exact_leb_true in Hle. now apply Qcle_not_lt in Hle.
Qed.

Lemma exact_of_int_zero_iff (n : Z) : Q2Qc (inject_Z n) = Q2Qc 0 <-> n = 0.
Proof.
  rewrite Q2Qc_eq_iff. unfold Qeq. simpl. lia.
Qed.

Lemma exact_truediv (x : Qc) (n : Z) :
  n <> 0 -> py_truediv x n = Returned (x / Q2Qc (inject_Z n))%Qc.
Proof.
  intros Hn. unfold py_truediv, py_float. simpl. unfold Qc_eq_bool.
  destruct (Qcanon.Qc_eq_dec _ _) as [Heq | _]; [| reflexivity].
  now apply exact_of_int_zero_iff in Heq.
Qed.

Lemma exact_sum_quantities_app (l : list (OrderResult.t Qc)) (r : OrderResult.t Qc) :
  sum_quantities (l ++ [r]) = (sum_quantities l + OrderResult.quantity r)%Qc.
Proof. unfold sum_quantities. now rewrite map_app, fold_left_app. Qed.

End Exact.

(** Goals and hypotheses on [Qc] read on [Q], where [lra] and [nra]
    decide them. *)
Ltac qc2q :=
  unfold Qclt, Qcle in *;
  repeat match goal with
         | |- @eq Qc _ _ => apply Qc_is_canon
         | H : @eq Qc _ _ |- _ => apply Qc_eq_Qeq in H
         end;
  cbn [this Qcplus Qcminus Qcmult Qcopp Qcdiv Qcinv Q2Qc
       f_add f_sub f_mul f_div f_zero exact_float] in *;
  rewrite ?Qred_correct in *.

(** ** TWAP: a zero slice count *)

(** C1 (the code's behaviour).  When [duration_minutes * 60 //
    interval_seconds] is 0, the background task of a freshly started
    strategy divides by zero: [_execute_twap] raises [ZeroDivisionError]
    before the loop and before the final [active = False], so the
    strategy keeps [active = True], with no orders. *)
Theorem twap_zero_slices_raises (env : Env.t Qc) (symbol side : string) (total_quantity : Qc)
    (duration_minutes interval_seconds : Z) (s0 : OrderManager.t Qc) :
  py_floordiv (duration_minutes * 60) interval_seconds = Returned 0 ->
  let twap_id := "twap_" ++ symbol ++ "_"
                 ++ str_int (Env.time_time env (OrderManager.clock_reads s0)) in
  let s1 := snd (start_twap_order env symbol side total_quantity
                   duration_minutes interval_seconds s0) in
  _execute_twap env twap_id s1 = (Raised ZeroDivisionError, s1) /\
  exists tw,
    OrderManager.twap_orders s1 !! twap_id = Some tw /\
    Twap.active tw = true /\ Twap.orders tw = [] /\
    OrderManager.sent s1 = OrderManager.sent s0.
Proof.
  intros Hzero twap_id s1.
  assert (Hlook : OrderManager.twap_orders s1 !! twap_id =
                  Some (Twap.mk symbol side total_quantity total_quantity duration_minutes
                          interval_seconds
                          (Env.datetime_now env (S (OrderManager.clock_reads s0))) [] true)).
  { subst s1. rewrite start_twap_order_run. simpl. apply lookup_insert_eq. }
  split.
  - rewrite (execute_twap_run env twap_id s1 _ Hlook). simpl.
    rewrite Hzero. reflexivity.
  - eexists. split; [exact Hlook |]. repeat split.
Qed.

Lemma twap_zero_slices_raises_witness :
  let env := accepting_exchange (inr (Q2Qc 0)) in
  let s1 := snd (start_twap_order env "BTCUSDT" "BUY" (Q2Qc 1) 1 120 OrderManager.init) in
  _execute_twap env "twap_BTCUSDT_1700000000" s1 = (Raised ZeroDivisionError, s1) /\
  exists tw,
    OrderManager.twap_orders s1 !! "twap_BTCUSDT_1700000000" = Some tw /\
    Twap.active tw = true /\ Twap.orders tw = [] /\
    OrderManager.sent s1 = [].
Proof.
  exact (twap_zero_slices_raises (accepting_exchange (inr (Q2Qc 0))) "BTCUSDT" "BUY" (Q2Qc 1)
           1 120 OrderManager.init eq_refl).
Defined.

(** The same run on binary64: a one-minute TWAP sliced every 120 seconds
    dies on [ZeroDivisionError] and stays active. *)
Example twap_zero_slices_binary64 :
  let env := accepting_exchange (inr 0%float) in
  let s1 := snd (start_twap_order env "BTCUSDT" "BUY" 1%float 1 120 OrderManager.init) in
  fst (_execute_twap env "twap_BTCUSDT_1700000000" s1) = Raised ZeroDivisionError /\
  (Twap.active <$> OrderManager.twap_orders (snd (_execute_twap env "twap_BTCUSDT_1700000000" s1))
                   !! "twap_BTCUSDT_1700000000") = Some true.
Proof. vm_compute. split; reflexivity. Qed.

(** ** TWAP: conservation of quantity *)

Section TwapConservation.
Context (env : Env.t Qc).

Lemma twap_conserved_observed twap_id i (tw : Twap.t Qc) :
  twap_conserved tw -> twap_conserved (twap_observed env twap_id i tw).
Proof. unfold twap_observed. now destruct (Env.cancel_requested env twap_id i). Qed.

(** Appending a result of quantity [q] and taking [q] off the remaining
    quantity keeps the balance. *)
Lemma twap_conserved_slice (tw : Twap.t Qc) (r : OrderResult.t Qc) :
  twap_conserved tw ->
  twap_conserved
    (Twap.set_remaining_quantity
       (f_sub (Twap.remaining_quantity tw) (OrderResult.quantity r))
       (Twap.append_order r tw)).
Proof.
  unfold twap_conserved. simpl. intros <-.
  rewrite exact_sum_quantities_app. ring.
Qed.

Lemma twap_iteration_conserves twap_id q i (s : OrderManager.t Qc) :
  twap_conserved_at twap_id s ->
  twap_conserved_at twap_id (snd (twap_iteration env twap_id q i s)).
Proof.
  intros (tw & Hlook & Hcons).
  apply (twap_conserved_observed twap_id i) in Hcons.
  destruct (twap_stops (twap_observed env twap_id i tw)) eqn:Hstop.
  - destruct (twap_iteration_break env twap_id q i s tw Hlook Hstop) as (s' & -> & _ & Hs).
    eexists. split; [exact Hs | exact Hcons].
  - destruct (twap_iteration_submit env twap_id q i s tw Hlook Hstop) as (s' & -> & _ & Hs).
    eexists. split; [exact Hs |].
    set (r := result_of_answer _ _ _ _ _ _ _).
    replace (py_min q _) with (OrderResult.quantity r)
      by apply result_of_answer_quantity.
    now apply twap_conserved_slice.
Qed.

Lemma update_twap_active_conserves twap_id b (s : OrderManager.t Qc) :
  twap_conserved_at twap_id s ->
  twap_conserved_at twap_id (snd (update_twap twap_id (Twap.set_active b) s)).
Proof.
  intros (tw & Hlook & Hcons). exists (Twap.set_active b tw). simpl.
  rewrite lookup_alter_eq, Hlook. auto.
Qed.

Lemma twap_loop_conserves twap_id q k (s : OrderManager.t Qc) :
  twap_conserved_at twap_id s ->
  twap_conserved_at twap_id (snd (twap_loop env twap_id q k s)).
Proof.
  apply for_break_invariant. intros i s1. apply twap_iteration_conserves.
Qed.

Lemma execute_twap_conserves twap_id (s : OrderManager.t Qc) :
  twap_conserved_at twap_id s ->
  twap_conserved_at twap_id (snd (_execute_twap env twap_id s)).
Proof.
  intros Hs. pose proof Hs as (tw & Hlook & _).
  rewrite (execute_twap_run env twap_id s tw Hlook).
  destruct (py_floordiv _ _) as [n | e]; [| exact Hs].
  destruct (py_truediv _ _) as [q | e]; [| exact Hs].
  pose proof (twap_loop_conserves twap_id q n s Hs) as Hloop.
  unfold bind. destruct (twap_loop env twap_id q n s) as [[[] | e] s1]; simpl in *.
  - now apply update_twap_active_conserves.
  - exact Hloop.
Qed.

End TwapConservation.

(** ** TWAP: between the append and the decrement *)

Section TwapHalves.
Context {F : Type} `{PyFloat F} (env : Env.t F).

(** A pass is its first half followed by its second. *)
Lemma twap_iteration_halves twap_id q i (s : OrderManager.t F) :
  twap_iteration env twap_id q i s = twap_iteration_in_halves env twap_id q i s.
Proof.
  symmetry. unfold twap_iteration_in_halves, twap_iteration_to_append, twap_iteration.
  etransitivity; [apply bind_assoc |]. apply bind_ext. intros _ s0.
  etransitivity; [apply bind_assoc |]. apply bind_ext. intros tw s1.
  destruct (negb (Twap.active tw)); [reflexivity |].
  destruct (f_leb _ _); [reflexivity |].
  cbv zeta.
  etransitivity; [apply bind_assoc |]. apply bind_ext. intros r s2.
  etransitivity; [apply bind_assoc |]. apply bind_ext. intros _ s3. reflexivity.
Qed.

(** The first half of a pass that submits: the request has gone out and
    its result has been appended, while the remaining quantity is still
    what it was. *)
Lemma twap_iteration_to_append_submit twap_id q i (s : OrderManager.t F) (tw : Twap.t F) :
  OrderManager.twap_orders s !! twap_id = Some tw ->
  twap_stops (twap_observed env twap_id i tw) = false ->
  let tw0 := twap_observed env twap_id i tw in
  let order_quantity := py_min q (Twap.remaining_quantity tw0) in
  let req := market_request (Twap.symbol tw0) (Twap.side tw0) order_quantity in
  let result := result_of_answer (Twap.symbol tw0) (Twap.side tw0) "MARKET" order_quantity None
                  (Env.futures_create_order env (OrderManager.sent s) req)
                  (Env.datetime_now env (OrderManager.clock_reads s)) in
  exists mid,
    twap_iteration_to_append env twap_id q i s = (Returned (Some (order_quantity, tw0)), mid) /\
    OrderManager.sent mid = (OrderManager.sent s ++ [req])%list /\
    OrderManager.twap_orders mid !! twap_id = Some (Twap.append_order result tw0) /\
    twap_iteration env twap_id q i s
      = twap_iteration_from_decrement env twap_id order_quantity tw0 mid.
Proof.
  intros Hlook Hgo tw0 order_quantity req result.
  destruct (twap_observe_run env twap_id i s tw Hlook) as (s0 & Hobs & Hlook0 & Hsent & Hclock).
  fold tw0 in Hlook0.
  assert (Hhalf : exists mid,
    twap_iteration_to_append env twap_id q i s = (Returned (Some (order_quantity, tw0)), mid) /\
    OrderManager.sent mid = (OrderManager.sent s ++ [req])%list /\
    OrderManager.twap_orders mid !! twap_id = Some (Twap.append_order result tw0)).
  { unfold twap_iteration_to_append.
    rewrite (bind_returned _ _ _ _ _ Hobs).
    rewrite (bind_returned _ _ _ _ _ (read_twap_run _ _ _ Hlook0)).
    unfold twap_stops in Hgo. fold tw0 in Hgo.
    apply orb_false_iff in Hgo as [Hact Hrem]. rewrite Hact, Hrem.
    rewrite (bind_returned _ _ _ _ _ (place_market_order_run env _ _ _ s0)).
    rewrite Hsent, Hclock. fold order_quantity req result.
    unfold bind, update_twap, modify, ret.
    eexists. split; [reflexivity |]. simpl. rewrite Hsent. split; [reflexivity |].
    rewrite lookup_alter_eq, Hlook0. reflexivity. }
  destruct Hhalf as (mid & Hrun & Hmid & Hlookmid).
  exists mid. split; [exact Hrun |]. split; [exact Hmid |]. split; [exact Hlookmid |].
  rewrite twap_iteration_halves. unfold twap_iteration_in_halves.
  now rewrite (bind_returned _ _ _ _ _ Hrun).
Qed.

End TwapHalves.

(** In exact arithmetic, between the append and the decrement of a pass
    the balance is the total plus the quantity just submitted. *)
Lemma twap_balance_between (env : Env.t Qc) twap_id q i (s : OrderManager.t Qc)
    (tw : Twap.t Qc) :
  OrderManager.twap_orders s !! twap_id = Some tw ->
  twap_conserved tw ->
  twap_stops (twap_observed env twap_id i tw) = false ->
  let order_quantity := py_min q (Twap.remaining_quantity (twap_observed env twap_id i tw)) in
  let mid := snd (twap_iteration_to_append env twap_id q i s) in
  twap_balance twap_id mid = Some (Twap.total_quantity tw + order_quantity)%Qc /\
  (q <> Q2Qc 0 -> ~ twap_conserved_at twap_id mid).
Proof.
  intros Hlook Hcons Hgo order_quantity mid.
  destruct (twap_iteration_to_append_submit env twap_id q i s tw Hlook Hgo)
    as (mid' & Hrun & _ & Hlookmid & _).
  subst mid. rewrite Hrun. cbn [snd].
  destruct (twap_observed_fields env twap_id i tw) as (_ & _ & Htot & Hrem & Hord).
  set (tw0 := twap_observed env twap_id i tw) in *.
  fold order_quantity in Hlookmid.
  set (result := result_of_answer _ _ _ _ _ _ _) in Hlookmid.
  assert (Hbal : (sum_quantities (Twap.orders tw0 ++ [result])
                  + Twap.remaining_quantity tw0)%Qc
                 = (Twap.total_quantity tw + order_quantity)%Qc).
  { rewrite exact_sum_quantities_app. subst result.
    rewrite result_of_answer_quantity, Hord, Hrem.
    unfold twap_conserved in Hcons. cbn [f_add exact_float] in Hcons. rewrite <- Hcons. ring. }
  split.
  - unfold twap_balance. rewrite Hlookmid.
    cbn [fmap option_fmap option_map]. f_equal. exact Hbal.
  - intros Hq (tw' & Hlook' & Hcons').
    rewrite Hlookmid in Hlook'. injection Hlook' as <-.
    unfold twap_conserved in Hcons'.
    change ((sum_quantities (Twap.orders tw0 ++ [result]) + Twap.remaining_quantity tw0)%Qc
            = Twap.total_quantity tw0) in Hcons'.
    rewrite Hbal, Htot in Hcons'.
    assert (Hzero : order_quantity = Q2Qc 0).
    { qc2q. lra. }
    unfold twap_stops in Hgo. apply orb_false_iff in Hgo as [_ Hpos].
    apply exact_leb_false in Hpos.
    subst order_quantity. unfold py_min in Hzero.
    destruct (f_ltb _ q).
    + rewrite Hzero in Hpos. now apply Qclt_not_eq in Hpos.
    + contradiction.
Qed.

(** C3, as the code has it.  In exact arithmetic, for every strategy
    started by [start_twap_order]: the quantities of the results recorded
    so far plus [remaining_quantity] equal [total_quantity] at every
    boundary between passes, that is at creation, after every number [k]
    of passes of the loop, and when the background task has ended
    (normally or not); a pass that does not break submits exactly
    [min(quantity_per_interval, remaining_quantity)], records a result of
    that quantity and takes the same quantity off [remaining_quantity].
    Inside a pass the balance does not hold throughout: a pass is its
    lines up to the append followed by the decrement and the sleep, and
    in the state between the two the recorded quantities plus the
    remaining quantity are the total plus the quantity just submitted,
    which is not the total unless the slice is zero; the decrement
    restores the balance. *)
Theorem twap_quantity_conserved (env : Env.t Qc) (symbol side : string) (total_quantity : Qc)
    (duration_minutes interval_seconds : Z) (s0 : OrderManager.t Qc) :
  let twap_id := "twap_" ++ symbol ++ "_"
                 ++ str_int (Env.time_time env (OrderManager.clock_reads s0)) in
  let s1 := snd (start_twap_order env symbol side total_quantity
                   duration_minutes interval_seconds s0) in
  twap_conserved_at twap_id s1 /\
  (forall quantity_per_interval k,
     twap_conserved_at twap_id (snd (twap_loop env twap_id quantity_per_interval k s1))) /\
  twap_conserved_at twap_id (snd (_execute_twap env twap_id s1)) /\
  (forall quantity_per_interval, twap_iteration_contract env twap_id quantity_per_interval) /\
  (forall quantity_per_interval i (s : OrderManager.t Qc),
     twap_iteration env twap_id quantity_per_interval i s
       = twap_iteration_in_halves env twap_id quantity_per_interval i s) /\
  (forall quantity_per_interval i (s : OrderManager.t Qc) (tw : Twap.t Qc),
     OrderManager.twap_orders s !! twap_id = Some tw ->
     twap_conserved tw ->
     twap_stops (twap_observed env twap_id i tw) = false ->
     let order_quantity :=
       py_min quantity_per_interval
              (Twap.remaining_quantity (twap_observed env twap_id i tw)) in
     let mid := snd (twap_iteration_to_append env twap_id quantity_per_interval i s) in
     twap_balance twap_id mid = Some (Twap.total_quantity tw + order_quantity)%Qc /\
     (quantity_per_interval <> Q2Qc 0 -> ~ twap_conserved_at twap_id mid) /\
     twap_iteration env twap_id quantity_per_interval i s
       = twap_iteration_from_decrement env twap_id order_quantity
           (twap_observed env twap_id i tw) mid /\
     twap_conserved_at twap_id (snd (twap_iteration env twap_id quantity_per_interval i s))).
Proof.
  intros twap_id s1.
  assert (Hstart : twap_conserved_at twap_id s1).
  { subst s1. rewrite start_twap_order_run. simpl. eexists. split.
    - apply lookup_insert_eq.
    - unfold twap_conserved, sum_quantities. simpl. apply Qcplus_0_l. }
  split; [exact Hstart |]. split; [| split; [| split; [| split]]].
  - intros q k. now apply twap_loop_conserves.
  - now apply execute_twap_conserves.
  - intros q. apply twap_iteration_meets_contract.
  - intros q i s. apply twap_iteration_halves.
  - intros q i s tw Hlook Hcons Hgo order_quantity mid.
    destruct (twap_balance_between env twap_id q i s tw Hlook Hcons Hgo) as [Hbal Hoff].
    split; [exact Hbal |]. split; [exact Hoff |]. split.
    + destruct (twap_iteration_to_append_submit env twap_id q i s tw Hlook Hgo)
        as (mid' & Hrun & _ & _ & Hrest).
      subst mid. rewrite Hrun. exact Hrest.
    + apply twap_iteration_conserves. exists tw. auto.
Qed.

(** C3 fails as stated: in the run of total 1 over 5 slices, when the
    first pass has appended its result and not yet decremented, the
    recorded quantities are [1/5] and the remaining quantity is still 1,
    so their sum is 6/5 and not the total; on binary64 the sum is 1.2,
    which is not within rounding of 1.0 either. *)
Lemma twap_balance_off_inside_pass :
  (let env := accepting_exchange (inr (Q2Qc 0)) in
   let twap_id := "twap_BTCUSDT_1700000000" in
   let s1 := snd (start_twap_order env "BTCUSDT" "BUY" (Q2Qc 1) 5 60 OrderManager.init) in
   let mid := snd (twap_iteration_to_append env twap_id (Q2Qc (1 # 5)) 0 s1) in
   py_truediv (Q2Qc 1) 5 = Returned (Q2Qc (1 # 5)) /\
   twap_loop env twap_id (Q2Qc (1 # 5)) 5 s1
     = for_break [0; 1; 2; 3; 4] (twap_iteration_in_halves env twap_id (Q2Qc (1 # 5))) s1 /\
   (map this <$> twap_quantities twap_id mid) = Some [1 # 5]%Q /\
   (this <$> twap_remaining twap_id mid) = Some 1%Q /\
   (this <$> twap_balance twap_id mid) = Some (6 # 5)%Q /\
   ~ twap_conserved_at twap_id mid) /\
  (let env := accepting_exchange (inr 0%float) in
   let twap_id := "twap_BTCUSDT_1700000000" in
   let s1 := snd (start_twap_order env "BTCUSDT" "BUY" 1%float 5 60 OrderManager.init) in
   let mid := snd (twap_iteration_to_append env twap_id (1 / 5)%float 0 s1) in
   let balance := default nan (twap_balance twap_id mid) in
   PrimFloat.eqb balance (6 / 5)%float = true /\
   close_to balance 1%float = false).
Proof.
  split.
  - intros env twap_id s1 mid.
    split; [apply exact_truediv; lia |]. split.
    { unfold twap_loop. change (py_range 5) with [0; 1; 2; 3; 4].
      generalize s1. generalize [0; 1; 2; 3; 4].
      induction l as [| i l IH]; intros s; [reflexivity |].
      cbn [for_break]. unfold bind. rewrite twap_iteration_halves.
      destruct (twap_iteration_in_halves env twap_id (Q2Qc (1 # 5)) i s) as [[[] | e] s'];
        [apply IH | reflexivity | reflexivity]. }
    split; [reflexivity |]. split; [reflexivity |]. split; [reflexivity |].
    assert (Hlook : OrderManager.twap_orders s1 !! twap_id =
                    Some (Twap.mk "BTCUSDT" "BUY" (Q2Qc 1) (Q2Qc 1) 5 60
                            (Env.datetime_now env 1) [] true)).
    { subst s1. rewrite start_twap_order_run. simpl. apply lookup_insert_eq. }
    apply (twap_balance_between env twap_id (Q2Qc (1 # 5)) 0 s1 _ Hlook).
    + unfold twap_conserved, sum_quantities. simpl. apply Qcplus_0_l.
    + reflexivity.
    + intros Heq. apply Qc_eq_Qeq in Heq. discriminate.
  - vm_compute. split; reflexivity.
Qed.

(** On binary64 the balance holds up to rounding only: in the run of
    total 1.0 over 5 slices it stays within [2^-50] of the total after
    every pass, and after the third pass it is not the total itself. *)
Example twap_balance_binary64 :
  let env := accepting_exchange (inr 0%float) in
  let twap_id := "twap_BTCUSDT_1700000000" in
  let s1 := snd (start_twap_order env "BTCUSDT" "BUY" 1%float 5 60 OrderManager.init) in
  let balance k := default nan (twap_balance twap_id
                                  (snd (twap_loop env twap_id (1 / 5)%float k s1))) in
  forallb (fun k => close_to (balance k) 1%float) [0; 1; 2; 3; 4; 5] = true /\
  PrimFloat.eqb (balance 3) 1%float = false.
Proof. vm_compute. split; reflexivity. Qed.

(** ** TWAP: equal slices *)

Section TwapEqualSlices.
Context (env : Env.t Qc) (twap_id symbol side : string) (total q : Qc) (interval n : Z).
Hypothesis no_cancel : forall i, Env.cancel_requested env twap_id i = false.
Hypothesis total_pos : (0 < total)%Qc.
Hypothesis n_pos : 1 <= n.
Hypothesis q_def : (q * Q2Qc (inject_Z n) = total)%Qc.
Hypothesis sleep_returns : sleep_outcome env interval = Returned tt.

Lemma exact_of_nat_S j : exact_of_nat (S j) = (exact_of_nat j + 1)%Qc.
Proof.
  unfold exact_of_nat. qc2q. rewrite Nat2Z.inj_succ. unfold Z.succ.
  rewrite inject_Z_plus. reflexivity.
Qed.

Lemma slice_pos : (0 < q)%Qc.
Proof.
  pose proof total_pos as Ht. pose proof q_def as Hq. qc2q.
  assert (Hn : (1 <= inject_Z n)%Q) by (rewrite (Zle_Qle 1 n) in n_pos; exact n_pos).
  nra.
Qed.

(** Before the last slice at least one slice remains. *)
Lemma slice_le_remaining j :
  Z.of_nat j < n -> (q <= total - exact_of_nat j * q)%Qc.
Proof.
  intros Hj. pose proof slice_pos as Hpos. pose proof q_def as Hq.
  unfold exact_of_nat. qc2q.
  assert (Hn : (inject_Z (Z.of_nat j) + 1 <= inject_Z n)%Q).
  { replace 1%Q with (inject_Z 1) by reflexivity.
    rewrite <- inject_Z_plus, <- Zle_Qle. lia. }
  nra.
Qed.

Lemma twap_progress_step j i (s : OrderManager.t Qc) (tw : Twap.t Qc) :
  OrderManager.twap_orders s !! twap_id = Some tw ->
  twap_progress symbol side total q interval j tw ->
  Z.of_nat j < n ->
  exists s' tw',
    twap_iteration env twap_id q i s = (Returned Continue, s') /\
    OrderManager.twap_orders s' !! twap_id = Some tw' /\
    twap_progress symbol side total q interval (S j) tw' /\
    OrderManager.sent s' = (OrderManager.sent s ++ [market_request symbol side q])%list.
Proof.
  intros Hlook (Hsym & Hside & Htot & Hint & Hact & Hqs & Hrem) Hj.
  pose proof (slice_le_remaining j Hj) as Hle.
  pose proof slice_pos as Hpos.
  assert (Hobs : twap_observed env twap_id i tw = tw).
  { unfold twap_observed. now rewrite no_cancel. }
  assert (Hgo : twap_stops (twap_observed env twap_id i tw) = false).
  { rewrite Hobs. unfold twap_stops. rewrite Hact. simpl.
    apply exact_leb_false. rewrite Hrem.
    eapply Qclt_le_trans; [exact Hpos | exact Hle]. }
  destruct (twap_iteration_submit env twap_id q i s tw Hlook Hgo) as (s' & Hrun & Hsent & Hs).
  rewrite Hobs in Hrun, Hsent, Hs.
  assert (Hmin : py_min q (Twap.remaining_quantity tw) = q).
  { unfold py_min. rewrite Hrem.
    now rewrite (proj2 (exact_ltb_false _ _) Hle). }
  rewrite Hmin in Hsent, Hs.
  rewrite Hint, sleep_returns in Hrun.
  rewrite Hsym, Hside in Hsent.
  eexists _, _. split; [exact Hrun |]. split; [exact Hs |]. split; [| exact Hsent].
  unfold twap_progress. simpl. repeat split; try assumption.
  - rewrite map_app, Hqs. simpl. rewrite result_of_answer_quantity.
    change [q] with (repeat q 1). rewrite <- repeat_app, Nat.add_1_r. reflexivity.
  - rewrite Hrem, exact_of_nat_S. ring.
Qed.

(** [m] further passes, starting at pass [j]. *)
Lemma twap_progress_passes m : forall j (s : OrderManager.t Qc) (tw : Twap.t Qc),
  OrderManager.twap_orders s !! twap_id = Some tw ->
  twap_progress symbol side total q interval j tw ->
  Z.of_nat (j + m) <= n ->
  exists s' tw',
    for_break (map Z.of_nat (seq j m)) (twap_iteration env twap_id q) s = (Returned tt, s') /\
    OrderManager.twap_orders s' !! twap_id = Some tw' /\
    twap_progress symbol side total q interval (j + m) tw' /\
    OrderManager.sent s' = (OrderManager.sent s ++ repeat (market_request symbol side q) m)%list.
Proof.
  induction m as [| m IH]; intros j s tw Hlook Hprog Hjm.
  - exists s, tw. simpl. rewrite Nat.add_0_r, app_nil_r. auto.
  - destruct (twap_progress_step j (Z.of_nat j) s tw Hlook Hprog) as (s1 & tw1 & Hrun & Hlook1 & Hprog1 & Hsent1);
      [lia |].
    destruct (IH (S j) s1 tw1 Hlook1 Hprog1) as (s2 & tw2 & Hloop & Hlook2 & Hprog2 & Hsent2);
      [lia |].
    exists s2, tw2. simpl.
    rewrite (bind_returned _ _ _ _ _ Hrun).
    split; [exact Hloop |]. split; [exact Hlook2 |].
    split; [now rewrite Nat.add_succ_r |].
    rewrite Hsent2, Hsent1, <- app_assoc. reflexivity.
Qed.

End TwapEqualSlices.

(** A started strategy has made no progress yet. *)
Lemma start_twap_order_progress (env : Env.t Qc) symbol side total duration interval q s0 :
  let twap_id := "twap_" ++ symbol ++ "_"
                 ++ str_int (Env.time_time env (OrderManager.clock_reads s0)) in
  let s1 := snd (start_twap_order env symbol side total duration interval s0) in
  exists tw,
    OrderManager.twap_orders s1 !! twap_id = Some tw /\
    Twap.duration_minutes tw = duration /\
    twap_progress symbol side total q interval 0 tw /\
    OrderManager.sent s1 = OrderManager.sent s0.
Proof.
  intros twap_id s1. subst s1. rewrite start_twap_order_run. simpl.
  eexists. split; [apply lookup_insert_eq |]. split; [reflexivity |].
  split; [| reflexivity].
  unfold twap_progress. simpl. repeat split.
  unfold exact_of_nat. qc2q. simpl. ring.
Qed.

Lemma exact_of_nat_to_nat n : 0 <= n -> exact_of_nat (Z.to_nat n) = Q2Qc (inject_Z n).
Proof. intros Hn. unfold exact_of_nat. now rewrite Z2Nat.id. Qed.

(** With nobody cancelling, a positive total and an interval that
    [time.sleep] accepts, the first [k] of the [n] passes submit [k]
    orders of [total / n] each, whatever the exchange answers, and the
    whole task ends with nothing remaining and the flag cleared. *)
Lemma twap_equal_slices (env : Env.t Qc) symbol side total duration interval s0 n :
  let twap_id := "twap_" ++ symbol ++ "_"
                 ++ str_int (Env.time_time env (OrderManager.clock_reads s0)) in
  let s1 := snd (start_twap_order env symbol side total duration interval s0) in
  let q := (total / Q2Qc (inject_Z n))%Qc in
  py_floordiv (duration * 60) interval = Returned n ->
  1 <= n ->
  (forall i, Env.cancel_requested env twap_id i = false) ->
  (0 < total)%Qc ->
  sleep_outcome env interval = Returned tt ->
  (forall k, (k <= Z.to_nat n)%nat ->
     let sk := snd (twap_loop env twap_id q (Z.of_nat k) s1) in
     fst (twap_loop env twap_id q (Z.of_nat k) s1) = Returned tt /\
     twap_remaining twap_id sk = Some (total - exact_of_nat k * q)%Qc /\
     twap_quantities twap_id sk = Some (repeat q k) /\
     twap_active twap_id sk = Some true /\
     OrderManager.sent sk =
       (OrderManager.sent s0 ++ repeat (market_request symbol side q) k)%list) /\
  (let s2 := snd (_execute_twap env twap_id s1) in
   fst (_execute_twap env twap_id s1) = Returned tt /\
   twap_remaining twap_id s2 = Some (Q2Qc 0) /\
   twap_quantities twap_id s2 = Some (repeat q (Z.to_nat n)) /\
   twap_active twap_id s2 = Some false /\
   OrderManager.sent s2 =
     (OrderManager.sent s0 ++ repeat (market_request symbol side q) (Z.to_nat n))%list).
Proof.
  intros twap_id s1 q Hdiv Hn Hcancel Htotal Hint.
  assert (HN : Q2Qc (inject_Z n) <> Q2Qc 0).
  { intros Heq. apply exact_of_int_zero_iff in Heq. lia. }
  assert (Hq : (q * Q2Qc (inject_Z n))%Qc = total).
  { subst q. rewrite Qcmult_comm. now apply Qcmult_div_r. }
  destruct (start_twap_order_progress env symbol side total duration interval q s0)
    as (tw & Hlook & Hdur & Hprog & Hsent).
  fold twap_id in Hlook. fold s1 in Hlook, Hsent.
  assert (Hloop : forall k, (k <= Z.to_nat n)%nat ->
    exists s' tw',
      twap_loop env twap_id q (Z.of_nat k) s1 = (Returned tt, s') /\
      OrderManager.twap_orders s' !! twap_id = Some tw' /\
      twap_progress symbol side total q interval k tw' /\
      OrderManager.sent s' =
        (OrderManager.sent s0 ++ repeat (market_request symbol side q) k)%list).
  { intros k Hk. unfold twap_loop, py_range. rewrite Nat2Z.id.
    destruct (twap_progress_passes env twap_id symbol side total q interval n
                Hcancel Htotal Hn Hq Hint k 0%nat s1 tw Hlook Hprog)
      as (s' & tw' & Hrun & Hlook' & Hprog' & Hsent'); [simpl; lia |].
    exists s', tw'. rewrite Hsent in Hsent'. auto. }
  split.
  - intros k Hk sk. destruct (Hloop k Hk) as (s' & tw' & Hrun & Hlook' & Hprog' & Hsent').
    subst sk. rewrite Hrun. simpl.
    destruct Hprog' as (_ & _ & _ & _ & Hact & Hqs & Hrem).
    unfold twap_remaining, twap_quantities, twap_active. rewrite Hlook'. simpl.
    rewrite Hact, Hqs, Hrem. auto.
  - destruct (Hloop (Z.to_nat n) (Nat.le_refl _)) as (s' & tw' & Hrun & Hlook' & Hprog' & Hsent').
    rewrite Z2Nat.id in Hrun by lia.
    rewrite (execute_twap_run env twap_id s1 tw Hlook).
    destruct Hprog as (_ & _ & Htot & Hitv & _). rewrite Hdur, Hitv, Hdiv, Htot.
    rewrite (exact_truediv total n) by lia. fold q.
    rewrite (bind_returned _ _ _ _ _ Hrun). unfold update_twap, modify. simpl.
    unfold twap_remaining, twap_quantities, twap_active. simpl.
    rewrite lookup_alter_eq, Hlook'. simpl.
    destruct Hprog' as (_ & _ & _ & _ & _ & Hqs & Hrem).
    rewrite Hqs, Hrem, Hsent', exact_of_nat_to_nat by lia.
    repeat split. f_equal. rewrite Qcmult_comm, Hq. ring.
Qed.

Lemma twap_loop_sends_at_most {F} `{PyFloat F} (env : Env.t F) twap_id q k
    (s : OrderManager.t F) :
  (length (OrderManager.sent (snd (twap_loop env twap_id q k s)))
   <= length (OrderManager.sent s) + Z.to_nat k)%nat.
Proof.
  unfold twap_loop. rewrite <- (length_py_range k).
  apply (for_break_bounded (fun s => length (OrderManager.sent s))).
  intros i s1. apply twap_iteration_sends_at_most_one.
Qed.

(** C4.  In exact arithmetic, for a strategy whose slice count
    [n = duration_minutes * 60 // interval_seconds] is at least 1: the
    task computes [total_quantity / n], runs the loop over [range(n)]
    (so at most [n] passes and at most [n] requests) and then clears the
    flag; each pass either breaks (inactive or nothing remaining) or
    submits one MARKET order for [min(quantity_per_interval,
    remaining_quantity)], appends its result and decrements the remaining
    quantity by it.  For total 1.0, 5 minutes and 60 seconds, with nobody
    cancelling and whatever the exchange answers, the task places 5
    orders of 1/5 and the remaining quantity steps through 4/5, 3/5, 2/5,
    1/5, 0; on binary64 the 5 orders are of the float 0.2 each and the
    remaining quantities are those values up to rounding. *)
Theorem twap_slicing :
  (forall (env : Env.t Qc) (symbol side : string) (total_quantity : Qc)
          (duration_minutes interval_seconds : Z) (s0 : OrderManager.t Qc) (n : Z),
     py_floordiv (duration_minutes * 60) interval_seconds = Returned n ->
     1 <= n ->
     let twap_id := "twap_" ++ symbol ++ "_"
                    ++ str_int (Env.time_time env (OrderManager.clock_reads s0)) in
     let s1 := snd (start_twap_order env symbol side total_quantity
                      duration_minutes interval_seconds s0) in
     let q := (total_quantity / Q2Qc (inject_Z n))%Qc in
     py_truediv total_quantity n = Returned q /\
     _execute_twap env twap_id s1 =
       (twap_loop env twap_id q n ;;; update_twap twap_id (Twap.set_active false)) s1 /\
     length (py_range n) = Z.to_nat n /\
     (length (OrderManager.sent (snd (_execute_twap env twap_id s1)))
      <= length (OrderManager.sent s0) + Z.to_nat n)%nat /\
     twap_iteration_contract env twap_id q) /\
  (forall (env : Env.t Qc) (s0 : OrderManager.t Qc),
     let twap_id := "twap_BTCUSDT_"
                    ++ str_int (Env.time_time env (OrderManager.clock_reads s0)) in
     let s1 := snd (start_twap_order env "BTCUSDT" "BUY" (Q2Qc 1) 5 60 s0) in
     let fifth := Q2Qc (1 # 5) in
     (forall i, Env.cancel_requested env twap_id i = false) ->
     map (fun k => twap_remaining twap_id (snd (twap_loop env twap_id fifth k s1)))
         [1; 2; 3; 4; 5]
       = map (fun x => Some (Q2Qc x)) [4 # 5; 3 # 5; 2 # 5; 1 # 5; 0]%Q /\
     fst (_execute_twap env twap_id s1) = Returned tt /\
     twap_quantities twap_id (snd (_execute_twap env twap_id s1)) = Some (repeat fifth 5) /\
     twap_remaining twap_id (snd (_execute_twap env twap_id s1)) = Some (Q2Qc 0) /\
     twap_active twap_id (snd (_execute_twap env twap_id s1)) = Some false /\
     OrderManager.sent (snd (_execute_twap env twap_id s1)) =
       (OrderManager.sent s0 ++ repeat (market_request "BTCUSDT" "BUY" fifth) 5)%list) /\
  (let env := accepting_exchange (inr 0%float) in
   let twap_id := "twap_BTCUSDT_1700000000" in
   let s1 := snd (start_twap_order env "BTCUSDT" "BUY" 1%float 5 60 OrderManager.init) in
   let fifth := (1 / 5)%float in
   fst (_execute_twap env twap_id s1) = Returned tt /\
   twap_quantities twap_id (snd (_execute_twap env twap_id s1)) = Some (repeat fifth 5) /\
   twap_active twap_id (snd (_execute_twap env twap_id s1)) = Some false /\
   forallb (fun '(k, expected) =>
              match twap_remaining twap_id (snd (twap_loop env twap_id fifth k s1)) with
              | Some r => close_to r expected
              | None => false
              end)
           [(1, (4 / 5)%float); (2, (3 / 5)%float); (3, (2 / 5)%float); (4, (1 / 5)%float);
            (5, 0%float)] = true).
Proof.
  split; [| split].
  - intros env symbol side total duration interval s0 n Hdiv Hn twap_id s1 q.
    destruct (start_twap_order_progress env symbol side total duration interval q s0)
      as (tw & Hlook & Hdur & (_ & _ & Htot & Hitv & _) & Hsent).
    fold twap_id in Hlook. fold s1 in Hlook, Hsent.
    assert (Hrun : _execute_twap env twap_id s1 =
                   (twap_loop env twap_id q n ;;;
                    update_twap twap_id (Twap.set_active false)) s1).
    { rewrite (execute_twap_run env twap_id s1 tw Hlook).
      rewrite Hdur, Hitv, Hdiv, Htot. rewrite (exact_truediv total n) by lia. reflexivity. }
    split; [apply exact_truediv; lia |]. split; [exact Hrun |].
    split; [apply length_py_range |]. split; [| apply twap_iteration_meets_contract].
    rewrite Hrun, <- Hsent. unfold bind.
    pose proof (twap_loop_sends_at_most env twap_id q n s1) as Hbound.
    destruct (twap_loop env twap_id q n s1) as [[[] | e] s2]; simpl in *; exact Hbound.
  - intros env s0 twap_id s1 fifth Hcancel.
    assert (Hfifth : (Q2Qc 1 / Q2Qc (inject_Z 5))%Qc = fifth)
      by (apply Qc_is_canon; reflexivity).
    destruct (twap_equal_slices env "BTCUSDT" "BUY" (Q2Qc 1) 5 60 s0 5
                eq_refl ltac:(lia) Hcancel eq_refl eq_refl) as [Hpasses Hend].
    rewrite Hfifth in Hpasses, Hend.
    assert (Hk : forall k, (k <= 5)%nat ->
      twap_remaining twap_id (snd (twap_loop env twap_id fifth (Z.of_nat k) s1)) =
      Some (Q2Qc 1 - exact_of_nat k * fifth)%Qc).
    { intros k Hk. apply (Hpasses k). simpl. lia. }
    split; [| destruct Hend as (E1 & E2 & E3 & E4 & E5);
              split; [exact E1 |]; split; [exact E3 |]; split; [exact E2 |];
              split; [exact E4 | exact E5]].
    pose proof (Hk 1%nat ltac:(lia)) as H1. pose proof (Hk 2%nat ltac:(lia)) as H2.
    pose proof (Hk 3%nat ltac:(lia)) as H3. pose proof (Hk 4%nat ltac:(lia)) as H4.
    pose proof (Hk 5%nat ltac:(lia)) as H5.
    change (Z.of_nat 1) with 1 in H1. change (Z.of_nat 2) with 2 in H2.
    change (Z.of_nat 3) with 3 in H3. change (Z.of_nat 4) with 4 in H4.
    change (Z.of_nat 5) with 5 in H5.
    simpl map. rewrite H1, H2, H3, H4, H5.
    repeat f_equal; apply Qc_is_canon; reflexivity.
  - vm_compute. repeat split.
Qed.

Lemma twap_slicing_witness :
  let env := accepting_exchange (inr (Q2Qc 0)) in
  let twap_id := "twap_BTCUSDT_1700000000" in
  let s1 := snd (start_twap_order env "BTCUSDT" "BUY" (Q2Qc 1) 5 60 OrderManager.init) in
  let q := (Q2Qc 1 / Q2Qc (inject_Z 5))%Qc in
  py_truediv (Q2Qc 1) 5 = Returned q /\
  _execute_twap env twap_id s1 =
    (twap_loop env twap_id q 5 ;;; update_twap twap_id (Twap.set_active false)) s1 /\
  length (py_range 5) = Z.to_nat 5 /\
  (length (OrderManager.sent (snd (_execute_twap env twap_id s1)))
   <= length (@OrderManager.sent Qc OrderManager.init) + Z.to_nat 5)%nat /\
  twap_iteration_contract env twap_id q.
Proof.
  apply (proj1 twap_slicing (accepting_exchange (inr (Q2Qc 0))) "BTCUSDT" "BUY" (Q2Qc 1)
           5 60 OrderManager.init 5).
  - reflexivity.
  - lia.
Defined.

(** ** Grid: the price query and the placement loops *)

Section GridPlacement.
Context {F : Type} `{PyFloat F} (env : Env.t F).

Lemma get_current_price_run symbol (s : OrderManager.t F) :
  get_current_price env symbol s =
  (Returned (observed_price env symbol s), OrderManager.tick_price s).
Proof.
  unfold get_current_price, try_except, ticker_price, observed_price.
  now destruct (Env.get_symbol_ticker env _ _).
Qed.

Lemma read_grid_run grid_id (s : OrderManager.t F) (g : Grid.t F) :
  OrderManager.grid_orders s !! grid_id = Some g ->
  read_grid grid_id s = (Returned g, s).
Proof. intros Hlook. unfold read_grid, bind, get. now rewrite Hlook. Qed.

Lemma extend_orders_nil (g : Grid.t F) : Grid.extend_orders [] g = g.
Proof. destruct g. unfold Grid.extend_orders. simpl. now rewrite app_nil_r. Qed.

Lemma extend_orders_twice (rs1 rs2 : list (OrderResult.t F)) (g : Grid.t F) :
  Grid.extend_orders rs2 (Grid.extend_orders rs1 g) = Grid.extend_orders (rs1 ++ rs2) g.
Proof. unfold Grid.extend_orders. simpl. now rewrite app_assoc. Qed.

(** One level: the request goes out, and its result is kept only if it is
    not FAILED. *)
Lemma place_grid_level_run grid_id (g0 : Grid.t F) side price
    (s : OrderManager.t F) (g : Grid.t F) :
  OrderManager.grid_orders s !! grid_id = Some g ->
  let req := limit_request (Grid.symbol g0) side (Grid.quantity_per_level g0) price in
  let r := result_of_answer (Grid.symbol g0) side "LIMIT" (Grid.quantity_per_level g0)
             (Some price) (Env.futures_create_order env (OrderManager.sent s) req)
             (Env.datetime_now env (OrderManager.clock_reads s)) in
  exists s',
    place_grid_level env grid_id g0 side price s = (Returned tt, s') /\
    OrderManager.sent s' = (OrderManager.sent s ++ [req])%list /\
    OrderManager.clock_reads s' = S (OrderManager.clock_reads s) /\
    OrderManager.price_queries s' = OrderManager.price_queries s /\
    OrderManager.grid_orders s' !! grid_id =
      Some (Grid.extend_orders (if not_failed r then [r] else []) g).
Proof.
  intros Hlook req r. unfold place_grid_level.
  rewrite (bind_returned _ _ _ _ _ (place_limit_order_run env _ _ _ _ s)).
  fold req r. destruct (not_failed r).
  - eexists. split; [reflexivity |]. simpl. repeat split.
    rewrite lookup_alter_eq, Hlook. reflexivity.
  - eexists. split; [reflexivity |]. simpl. repeat split.
    rewrite Hlook, extend_orders_nil. reflexivity.
Qed.

(** One loop of [_place_grid_orders]: every price is submitted, in list
    order, whatever the earlier results were. *)
Lemma place_grid_levels_run grid_id (g0 : Grid.t F) side prices :
  forall (s : OrderManager.t F) (g : Grid.t F),
  OrderManager.grid_orders s !! grid_id = Some g ->
  exists s',
    for_each prices (place_grid_level env grid_id g0 side) s = (Returned tt, s') /\
    OrderManager.sent s' =
      (OrderManager.sent s
         ++ map (limit_request (Grid.symbol g0) side (Grid.quantity_per_level g0)) prices)%list /\
    OrderManager.clock_reads s' = (OrderManager.clock_reads s + length prices)%nat /\
    OrderManager.price_queries s' = OrderManager.price_queries s /\
    OrderManager.grid_orders s' !! grid_id =
      Some (Grid.extend_orders
              (List.filter not_failed
                 (grid_results env (Grid.symbol g0) side (Grid.quantity_per_level g0) prices
                    (OrderManager.sent s) (OrderManager.clock_reads s))) g).
Proof.
  induction prices as [| price prices IH]; intros s g Hlook.
  - exists s. simpl. rewrite app_nil_r, Nat.add_0_r, extend_orders_nil. auto.
  - destruct (place_grid_level_run grid_id g0 side price s g Hlook)
      as (s1 & Hrun1 & Hsent1 & Hclock1 & Hprice1 & Hlook1).
    destruct (IH s1 _ Hlook1) as (s2 & Hrun2 & Hsent2 & Hclock2 & Hprice2 & Hlook2).
    exists s2. simpl for_each.
    rewrite (bind_returned _ _ _ _ _ Hrun1).
    split; [exact Hrun2 |].
    rewrite Hsent2, Hclock2, Hprice2, Hlook2, Hsent1, Hclock1, Hprice1.
    rewrite extend_orders_twice. simpl.
    rewrite <- app_assoc. repeat split; [lia |].
    do 2 f_equal. now destruct (not_failed _).
Qed.

(** [_place_grid_orders]: all the buy levels, then all the sell levels. *)
Lemma place_grid_orders_run grid_id (s : OrderManager.t F) (g : Grid.t F) :
  OrderManager.grid_orders s !! grid_id = Some g ->
  let buys := map (limit_request (Grid.symbol g) "BUY" (Grid.quantity_per_level g))
                  (Grid.buy_levels g) in
  let sells := map (limit_request (Grid.symbol g) "SELL" (Grid.quantity_per_level g))
                   (Grid.sell_levels g) in
  let results :=
    (grid_results env (Grid.symbol g) "BUY" (Grid.quantity_per_level g) (Grid.buy_levels g)
       (OrderManager.sent s) (OrderManager.clock_reads s)
     ++ grid_results env (Grid.symbol g) "SELL" (Grid.quantity_per_level g) (Grid.sell_levels g)
          (OrderManager.sent s ++ buys)
          (OrderManager.clock_reads s + length (Grid.buy_levels g)))%list in
  exists s',
    _place_grid_orders env grid_id s = (Returned tt, s') /\
    OrderManager.sent s' = (OrderManager.sent s ++ buys ++ sells)%list /\
    OrderManager.price_queries s' = OrderManager.price_queries s /\
    OrderManager.grid_orders s' !! grid_id =
      Some (Grid.extend_orders (List.filter not_failed results) g).
Proof.
  intros Hlook buys sells results. unfold _place_grid_orders.
  rewrite (bind_returned _ _ _ _ _ (read_grid_run _ _ _ Hlook)).
  destruct (place_grid_levels_run grid_id g "BUY" (Grid.buy_levels g) s g Hlook)
    as (s1 & Hrun1 & Hsent1 & Hclock1 & Hprice1 & Hlook1).
  destruct (place_grid_levels_run grid_id g "SELL" (Grid.sell_levels g) s1 _ Hlook1)
    as (s2 & Hrun2 & Hsent2 & Hclock2 & Hprice2 & Hlook2).
  exists s2. rewrite (bind_returned _ _ _ _ _ Hrun1).
  split; [exact Hrun2 |].
  rewrite Hsent2, Hprice2, Hlook2, Hsent1, Hclock1, Hprice1.
  rewrite extend_orders_twice, <- app_assoc. repeat split.
  subst results. now rewrite List.filter_app.
Qed.

(** [start_grid_strategy], once the step and the classification are
    known. *)
Lemma start_grid_strategy_run symbol lower_price upper_price grid_levels quantity_per_level
    (s0 : OrderManager.t F) price_step buy_levels sell_levels :
  py_truediv (f_sub upper_price lower_price) (grid_levels - 1) = Returned price_step ->
  classify_levels lower_price price_step (observed_price env symbol s0)
    (py_range grid_levels) [] [] = Returned (buy_levels, sell_levels) ->
  let grid_id := "grid_" ++ symbol ++ "_"
                 ++ str_int (Env.time_time env (OrderManager.clock_reads s0)) in
  let buys := map (limit_request symbol "BUY" quantity_per_level) buy_levels in
  let sells := map (limit_request symbol "SELL" quantity_per_level) sell_levels in
  let results :=
    (grid_results env symbol "BUY" quantity_per_level buy_levels
       (OrderManager.sent s0) (S (OrderManager.clock_reads s0))
     ++ grid_results env symbol "SELL" quantity_per_level sell_levels
          (OrderManager.sent s0 ++ buys)
          (S (OrderManager.clock_reads s0) + length buy_levels))%list in
  exists s',
    start_grid_strategy env symbol lower_price upper_price grid_levels quantity_per_level s0
      = (Returned grid_id, s') /\
    OrderManager.sent s' = (OrderManager.sent s0 ++ buys ++ sells)%list /\
    OrderManager.price_queries s' = S (OrderManager.price_queries s0) /\
    OrderManager.grid_orders s' !! grid_id =
      Some (Grid.mk symbol lower_price upper_price grid_levels quantity_per_level
              buy_levels sell_levels (List.filter not_failed results) true).
Proof.
  intros Hstep Hclass grid_id buys sells results.
  unfold start_grid_strategy.
  unfold bind at 1, time_time. fold grid_id.
  unfold bind at 1, lift. rewrite Hstep.
  rewrite (bind_returned _ _ _ _ _ (get_current_price_run _ _)).
  unfold bind at 1, lift.
  change (observed_price env symbol (OrderManager.tick_clock s0))
    with (observed_price env symbol s0).
  rewrite Hclass. unfold bind at 1, modify. simpl fst. simpl snd.
  set (g := Grid.mk symbol lower_price upper_price grid_levels quantity_per_level
              buy_levels sell_levels [] true).
  set (s1 := OrderManager.with_grid_orders _ _).
  assert (Hlook : OrderManager.grid_orders s1 !! grid_id = Some g).
  { subst s1. simpl. apply lookup_insert_eq. }
  destruct (place_grid_orders_run grid_id s1 g Hlook) as (s2 & Hrun & Hsent & Hprice & Hlook2).
  exists s2. rewrite (bind_returned _ _ _ _ _ Hrun).
  split; [reflexivity |]. split; [exact Hsent |]. split; [exact Hprice |].
  rewrite Hlook2. reflexivity.
Qed.

End GridPlacement.

(** [start_grid_strategy] step by step. *)
Lemma start_grid_strategy_steps {F} `{PyFloat F} (env : Env.t F) symbol lower_price upper_price
    grid_levels quantity_per_level (s : OrderManager.t F) :
  start_grid_strategy env symbol lower_price upper_price grid_levels quantity_per_level s =
  let grid_id := "grid_" ++ symbol ++ "_"
                 ++ str_int (Env.time_time env (OrderManager.clock_reads s)) in
  match py_truediv (f_sub upper_price lower_price) (grid_levels - 1) with
  | Raised e => (Raised e, OrderManager.tick_clock s)
  | Returned price_step =>
      let s1 := OrderManager.tick_price (OrderManager.tick_clock s) in
      match classify_levels lower_price price_step (observed_price env symbol s)
              (py_range grid_levels) [] [] with
      | Raised e => (Raised e, s1)
      | Returned levels =>
          (_place_grid_orders env grid_id ;;; ret grid_id)
            (OrderManager.with_grid_orders
               (<[grid_id := Grid.mk symbol lower_price upper_price grid_levels
                               quantity_per_level (fst levels) (snd levels) [] true]>
                  (OrderManager.grid_orders s1)) s1)
      end
  end.
Proof.
  unfold start_grid_strategy. unfold bind at 1, time_time.
  unfold bind at 1, lift.
  destruct (py_truediv _ _) as [price_step | e]; [| reflexivity].
  rewrite (bind_returned _ _ _ _ _ (get_current_price_run env _ _)).
  unfold bind at 1, lift.
  change (observed_price env symbol (OrderManager.tick_clock s))
    with (observed_price env symbol s).
  destruct (classify_levels _ _ _ _ _ _) as [levels | e]; reflexivity.
Qed.

(** ** Grid: the levels and the placement in any arithmetic *)

Lemma filter_partition_permutation {A} (f : A -> bool) (l : list A) :
  Permutation (List.filter f l ++ List.filter (fun x => negb (f x)) l) l.
Proof.
  induction l as [| x l IH]; [constructor |]. cbn [List.filter].
  destruct (f x); cbn [negb app].
  - now constructor.
  - symmetry. apply Permutation_cons_app. now symmetry.
Qed.

Section GridAnyArithmetic.
Context {F : Type} `{PyFloat F} (env : Env.t F).

(** The classification loop computes the level prices in the order of
    the indices and puts each on one side. *)
Lemma classify_levels_filter (lower_price price_step current_price : F) (indices : list Z) :
  forall buy_levels sell_levels,
  classify_levels lower_price price_step current_price indices buy_levels sell_levels =
  outcome_bind (grid_level_prices lower_price price_step indices) (fun levels =>
    Returned
      ((buy_levels ++ List.filter (fun x => f_ltb x current_price) levels)%list,
       (sell_levels ++ List.filter (fun x => negb (f_ltb x current_price)) levels)%list)).
Proof.
  induction indices as [| i rest IH]; intros buy_levels sell_levels.
  - simpl. now rewrite !app_nil_r.
  - cbn [classify_levels grid_level_prices].
    destruct (level_price lower_price price_step i) as [p | e]; [| reflexivity].
    cbn [outcome_bind].
    destruct (f_ltb p current_price) eqn:Hlt; rewrite IH;
      destruct (grid_level_prices lower_price price_step rest) as [ps | e];
      cbn [outcome_bind List.filter]; rewrite ?Hlt; cbn [negb];
      try reflexivity; now rewrite <- app_assoc.
Qed.

Lemma grid_level_prices_Forall2 (lower_price price_step : F) (indices : list Z) :
  forall levels,
  grid_level_prices lower_price price_step indices = Returned levels ->
  Forall2 (fun i x => level_price lower_price price_step i = Returned x) indices levels.
Proof.
  induction indices as [| i rest IH]; intros levels Hrun.
  - injection Hrun as <-. constructor.
  - cbn [grid_level_prices] in Hrun.
    destruct (level_price lower_price price_step i) as [p | e] eqn:Hp; [| discriminate].
    cbn [outcome_bind] in Hrun.
    destruct (grid_level_prices lower_price price_step rest) as [ps | e]; [| discriminate].
    injection Hrun as <-. constructor; [exact Hp | now apply IH].
Qed.

Lemma grid_results_length symbol side (quantity : F) prices :
  forall history clock,
  length (grid_results env symbol side quantity prices history clock) = length prices.
Proof.
  induction prices as [| p ps IH]; intros history clock; simpl; [reflexivity | now rewrite IH].
Qed.

(** Every call of [start_grid_strategy]: either it raises, before any
    grid is registered and any order sent, or it returns the id, with
    the levels computed, classified, all submitted, and the results that
    are not FAILED recorded. *)
Lemma start_grid_strategy_any symbol lower_price upper_price grid_levels quantity_per_level
    (s0 : OrderManager.t F) :
  let grid_id := "grid_" ++ symbol ++ "_"
                 ++ str_int (Env.time_time env (OrderManager.clock_reads s0)) in
  let run := start_grid_strategy env symbol lower_price upper_price grid_levels
               quantity_per_level s0 in
  match fst run with
  | Returned id =>
      id = grid_id /\
      exists g price_step levels,
        OrderManager.grid_orders (snd run) !! grid_id = Some g /\
        py_truediv (f_sub upper_price lower_price) (grid_levels - 1) = Returned price_step /\
        grid_level_prices lower_price price_step (py_range grid_levels) = Returned levels /\
        Grid.buy_levels g
          = List.filter (fun x => f_ltb x (observed_price env symbol s0)) levels /\
        Grid.sell_levels g
          = List.filter (fun x => negb (f_ltb x (observed_price env symbol s0))) levels /\
        OrderManager.sent (snd run) =
          (OrderManager.sent s0
             ++ map (limit_request symbol "BUY" quantity_per_level) (Grid.buy_levels g)
             ++ map (limit_request symbol "SELL" quantity_per_level) (Grid.sell_levels g))%list /\
        Grid.active_orders g =
          List.filter not_failed
            (grid_results env symbol "BUY" quantity_per_level (Grid.buy_levels g)
               (OrderManager.sent s0) (S (OrderManager.clock_reads s0))
             ++ grid_results env symbol "SELL" quantity_per_level (Grid.sell_levels g)
                  (OrderManager.sent s0
                     ++ map (limit_request symbol "BUY" quantity_per_level) (Grid.buy_levels g))
                  (S (OrderManager.clock_reads s0) + length (Grid.buy_levels g)))%list
  | Raised _ =>
      OrderManager.sent (snd run) = OrderManager.sent s0 /\
      OrderManager.grid_orders (snd run) = OrderManager.grid_orders s0
  end.
Proof.
  intros grid_id run.
  destruct (py_truediv (f_sub upper_price lower_price) (grid_levels - 1))
    as [price_step | e] eqn:Hstep.
  - destruct (grid_level_prices lower_price price_step (py_range grid_levels))
      as [levels | e] eqn:Hlevels.
    + pose proof (classify_levels_filter lower_price price_step (observed_price env symbol s0)
                    (py_range grid_levels) [] []) as Hclass.
      rewrite Hlevels in Hclass. cbn [outcome_bind app] in Hclass.
      destruct (start_grid_strategy_run env symbol lower_price upper_price grid_levels
                  quantity_per_level s0 price_step _ _ Hstep Hclass)
        as (s' & Hrun & Hsent & _ & Hlook).
      subst run. rewrite Hrun. cbn [fst snd]. split; [reflexivity |].
      eexists _, price_step, levels. split; [exact Hlook |].
      cbn [Grid.buy_levels Grid.sell_levels Grid.active_orders]. auto 10.
    + subst run. rewrite start_grid_strategy_steps, Hstep.
      rewrite classify_levels_filter, Hlevels. cbn. auto.
  - subst run. rewrite start_grid_strategy_steps, Hstep. cbn. auto.
Qed.

End GridAnyArithmetic.

(** ** Grid: the levels in exact arithmetic *)

Lemma exact_level_price (lower_price price_step : Qc) (i : Z) :
  level_price lower_price price_step i = Returned (exact_level lower_price price_step i).
Proof. reflexivity. Qed.

Lemma classify_levels_exact (lower_price price_step current_price : Qc) (indices : list Z) :
  forall buy_levels sell_levels,
  classify_levels lower_price price_step current_price indices buy_levels sell_levels =
  Returned
    ((buy_levels ++ List.filter (fun x => f_ltb x current_price)
                      (map (exact_level lower_price price_step) indices))%list,
     (sell_levels ++ List.filter (fun x => negb (f_ltb x current_price))
                       (map (exact_level lower_price price_step) indices))%list).
Proof.
  induction indices as [| i rest IH]; intros buy_levels sell_levels.
  - simpl. now rewrite !app_nil_r.
  - cbn [classify_levels]. rewrite exact_level_price. cbn [outcome_bind map List.filter].
    destruct (f_ltb (exact_level lower_price price_step i) current_price) eqn:Hlt.
    + rewrite IH. cbn [negb]. now rewrite <- app_assoc.
    + rewrite IH. cbn [negb]. now rewrite <- app_assoc.
Qed.

Section GridLevels.
Context (lower_price upper_price : Qc) (grid_levels : Z).
Hypothesis band : (lower_price < upper_price)%Qc.
Hypothesis at_least_two : 2 <= grid_levels.

Let step := exact_step lower_price upper_price grid_levels.

Lemma exact_step_spec :
  (step * Q2Qc (inject_Z (grid_levels - 1)))%Qc = (upper_price - lower_price)%Qc.
Proof.
  unfold step, exact_step. rewrite Qcmult_comm. apply Qcmult_div_r.
  intros Heq. apply exact_of_int_zero_iff in Heq. lia.
Qed.

Lemma exact_step_pos : (0 < step)%Qc.
Proof.
  pose proof exact_step_spec as Hs. pose proof band as Hb. qc2q.
  assert (Hn : (1 <= inject_Z (grid_levels - 1))%Q).
  { replace 1%Q with (inject_Z 1) by reflexivity. rewrite <- Zle_Qle. lia. }
  nra.
Qed.

Lemma exact_level_bounds i :
  0 <= i < grid_levels ->
  (lower_price <= exact_level lower_price step i)%Qc /\
  (exact_level lower_price step i <= upper_price)%Qc.
Proof.
  intros Hi. pose proof exact_step_spec as Hs. pose proof exact_step_pos as Hp.
  unfold exact_level. qc2q.
  assert (H0 : (0 <= inject_Z i)%Q).
  { replace 0%Q with (inject_Z 0) by reflexivity. rewrite <- Zle_Qle. lia. }
  assert (H1 : (inject_Z i <= inject_Z (grid_levels - 1))%Q).
  { rewrite <- Zle_Qle. lia. }
  split; nra.
Qed.

Lemma exact_level_increasing i j :
  i < j -> (exact_level lower_price step i < exact_level lower_price step j)%Qc.
Proof.
  intros Hij. pose proof exact_step_pos as Hp. unfold exact_level. qc2q.
  assert (H1 : (inject_Z i < inject_Z j)%Q) by (rewrite <- Zlt_Qlt; lia).
  nra.
Qed.

Lemma exact_level_step i :
  (exact_level lower_price step (i + 1) - exact_level lower_price step i)%Qc = step.
Proof.
  unfold exact_level. qc2q. rewrite inject_Z_plus. simpl (inject_Z 1). ring.
Qed.

Lemma exact_level_first : exact_level lower_price step 0 = lower_price.
Proof. unfold exact_level. qc2q. simpl (inject_Z 0). ring. Qed.

Lemma exact_level_last : exact_level lower_price step (grid_levels - 1) = upper_price.
Proof.
  pose proof exact_step_spec as Hs. unfold exact_level. qc2q. lra.
Qed.

Lemma exact_levels_in x :
  In x (exact_levels lower_price upper_price grid_levels) <->
  exists i, 0 <= i < grid_levels /\ x = exact_level lower_price step i.
Proof.
  unfold exact_levels, py_range. rewrite in_map_iff. split.
  - intros (i & <- & Hi). apply in_map_iff in Hi as (k & <- & Hk). apply in_seq in Hk.
    exists (Z.of_nat k). split; [lia | reflexivity].
  - intros (i & Hi & ->). exists i. split; [reflexivity |].
    apply in_map_iff. exists (Z.to_nat i). split; [lia |]. apply in_seq. lia.
Qed.

Lemma exact_levels_sorted_from m : forall a,
  StronglySorted Qclt
    (map (exact_level lower_price step) (map Z.of_nat (seq a m))).
Proof.
  induction m as [| m IH]; intros a; simpl; constructor; [apply IH |].
  apply List.Forall_forall. intros x Hx.
  apply in_map_iff in Hx as (i & <- & Hi). apply in_map_iff in Hi as (k & <- & Hk).
  apply in_seq in Hk. apply exact_level_increasing. lia.
Qed.

Lemma exact_levels_sorted :
  StronglySorted Qclt (exact_levels lower_price upper_price grid_levels).
Proof. apply exact_levels_sorted_from. Qed.

Lemma exact_levels_length :
  length (exact_levels lower_price upper_price grid_levels) = Z.to_nat grid_levels.
Proof. unfold exact_levels. now rewrite length_map, length_py_range. Qed.

End GridLevels.

Lemma filter_none {A} (f : A -> bool) (l : list A) :
  (forall y, In y l -> f y = false) -> List.filter f l = [].
Proof.
  induction l as [| x l IH]; intros Hall; [reflexivity |]. cbn [List.filter].
  rewrite (Hall x (or_introl eq_refl)). apply IH. intros y Hy. apply Hall. now right.
Qed.


(** A threshold splits an ascending list into the prefix below it and the
    suffix at or above it. *)
Lemma sorted_threshold_split (p : Qc) (l : list Qc) :
  StronglySorted Qclt l ->
  (List.filter (fun x => f_ltb x p) l ++ List.filter (fun x => negb (f_ltb x p)) l)%list = l.
Proof.
  induction 1 as [| x l Hsorted IH Hall]; [reflexivity |].
  cbn [List.filter]. destruct (f_ltb x p) eqn:Hx; cbn [negb].
  - cbn [app]. f_equal. exact IH.
  - assert (Hnone : List.filter (fun y => f_ltb y p) l = []).
    { apply filter_none. intros y Hy.
      rewrite List.Forall_forall in Hall. specialize (Hall y Hy).
      apply exact_ltb_false in Hx. apply exact_ltb_false.
      apply Qclt_le_weak. eapply Qcle_lt_trans; eassumption. }
    rewrite Hnone in *. cbn [app] in *. f_equal. exact IH.
Qed.

(** ** Grid: starting in exact arithmetic *)

Section GridStart.
Context (env : Env.t Qc) (symbol : string) (lower_price upper_price : Qc) (grid_levels : Z)
        (quantity_per_level : Qc) (s0 : OrderManager.t Qc).

Let grid_id := "grid_" ++ symbol ++ "_"
               ++ str_int (Env.time_time env (OrderManager.clock_reads s0)).
Let current_price := observed_price env symbol s0.
Let levels := exact_levels lower_price upper_price grid_levels.
Let buy_levels := List.filter (fun x => f_ltb x current_price) levels.
Let sell_levels := List.filter (fun x => negb (f_ltb x current_price)) levels.
Let buys := map (limit_request symbol "BUY" quantity_per_level) buy_levels.
Let sells := map (limit_request symbol "SELL" quantity_per_level) sell_levels.
Let results :=
  (grid_results env symbol "BUY" quantity_per_level buy_levels
     (OrderManager.sent s0) (S (OrderManager.clock_reads s0))
   ++ grid_results env symbol "SELL" quantity_per_level sell_levels
        (OrderManager.sent s0 ++ buys)
        (S (OrderManager.clock_reads s0) + length buy_levels))%list.

(** Unless [grid_levels] is 1 (a division by zero), the call returns with
    the grid registered; the levels are classified by the observed price
    and every one of them has been submitted. *)
Lemma start_grid_strategy_exact :
  grid_levels <> 1 ->
  exists s',
    start_grid_strategy env symbol lower_price upper_price grid_levels quantity_per_level s0
      = (Returned grid_id, s') /\
    OrderManager.sent s' = (OrderManager.sent s0 ++ buys ++ sells)%list /\
    OrderManager.price_queries s' = S (OrderManager.price_queries s0) /\
    OrderManager.grid_orders s' !! grid_id =
      Some (Grid.mk symbol lower_price upper_price grid_levels quantity_per_level
              buy_levels sell_levels (List.filter not_failed results) true).
Proof.
  intros Hn.
  apply (start_grid_strategy_run env symbol lower_price upper_price grid_levels
           quantity_per_level s0 (exact_step lower_price upper_price grid_levels)).
  - apply exact_truediv. lia.
  - apply classify_levels_exact.
Qed.

End GridStart.

(** C6, as the code has it.  In any arithmetic, binary64 included,
    whenever [start_grid_strategy] returns, the levels of the registered
    grid (buy and sell levels together) are the values the code computes
    for [lower_price + i * price_step], [i = 0 .. grid_levels - 1], with
    [price_step = (upper_price - lower_price) / (grid_levels - 1)]
    computed once, and there are [grid_levels] of them.  In exact
    arithmetic, for [grid_levels >= 2] and [lower_price < upper_price]:
    the step the code computes is [(upper - lower) / (levels - 1)], level
    [i] is [lower + i * step], the levels of the registered grid (buy
    levels followed by sell levels) are these for [i = 0 .. levels - 1],
    they lie in [[lower, upper]], start at [lower], end at [upper],
    increase strictly, and consecutive levels differ by exactly the
    step. *)
Theorem grid_levels_evenly_spaced :
  (forall (F : Type) (PF : PyFloat F) (env : Env.t F) (symbol : string)
          (lower_price upper_price : F) (grid_levels : Z) (quantity_per_level : F)
          (s0 s' : OrderManager.t F) (id : string),
     start_grid_strategy env symbol lower_price upper_price grid_levels quantity_per_level s0
       = (Returned id, s') ->
     exists g price_step levels,
       id = "grid_" ++ symbol ++ "_"
            ++ str_int (Env.time_time env (OrderManager.clock_reads s0)) /\
       OrderManager.grid_orders s' !! id = Some g /\
       py_truediv (f_sub upper_price lower_price) (grid_levels - 1) = Returned price_step /\
       Forall2 (fun i x => level_price lower_price price_step i = Returned x)
               (py_range grid_levels) levels /\
       length levels = Z.to_nat grid_levels /\
       Permutation (Grid.buy_levels g ++ Grid.sell_levels g) levels) /\
  (forall (env : Env.t Qc) (symbol : string) (lower_price upper_price : Qc)
          (grid_levels : Z) (quantity_per_level : Qc) (s0 : OrderManager.t Qc),
     (lower_price < upper_price)%Qc ->
     2 <= grid_levels ->
     let step := ((upper_price - lower_price) / Q2Qc (inject_Z (grid_levels - 1)))%Qc in
     let level := fun i : Z => (lower_price + Q2Qc (inject_Z i) * step)%Qc in
     let levels := map level (py_range grid_levels) in
     py_truediv (f_sub upper_price lower_price) (grid_levels - 1) = Returned step /\
     (forall i, level_price lower_price step i = Returned (level i)) /\
     (exists g s',
        start_grid_strategy env symbol lower_price upper_price grid_levels quantity_per_level s0
          = (Returned ("grid_" ++ symbol ++ "_"
                       ++ str_int (Env.time_time env (OrderManager.clock_reads s0))), s') /\
        OrderManager.grid_orders s' !! ("grid_" ++ symbol ++ "_"
                       ++ str_int (Env.time_time env (OrderManager.clock_reads s0))) = Some g /\
        (Grid.buy_levels g ++ Grid.sell_levels g)%list = levels) /\
     length levels = Z.to_nat grid_levels /\
     (forall x, In x levels -> (lower_price <= x)%Qc /\ (x <= upper_price)%Qc) /\
     level 0 = lower_price /\ level (grid_levels - 1) = upper_price /\
     StronglySorted Qclt levels /\
     (forall i : Z, (level (i + 1)%Z - level i)%Qc = step)).
Proof.
  split.
  - intros F PF env symbol lower_price upper_price grid_levels quantity_per_level s0 s' id Hrun.
    pose proof (start_grid_strategy_any env symbol lower_price upper_price grid_levels
                  quantity_per_level s0) as Hany.
    cbv zeta in Hany. rewrite Hrun in Hany. cbn [fst snd] in Hany.
    destruct Hany as (-> & g & price_step & levels & Hlook & Hstep & Hlevels & Hbuy & Hsell & _).
    exists g, price_step, levels. split; [reflexivity |]. split; [exact Hlook |].
    split; [exact Hstep |]. split; [now apply grid_level_prices_Forall2 |]. split.
    + apply grid_level_prices_Forall2 in Hlevels. apply Forall2_length in Hlevels.
      now rewrite <- Hlevels, length_py_range.
    + rewrite Hbuy, Hsell. apply filter_partition_permutation.
  - intros env symbol lower_price upper_price grid_levels quantity_per_level s0
           Hband Hn step level levels.
    change levels with (exact_levels lower_price upper_price grid_levels).
    change level with (exact_level lower_price step).
    change step with (exact_step lower_price upper_price grid_levels).
    pose proof (exact_levels_sorted lower_price upper_price grid_levels Hband Hn) as Hsorted.
    split; [apply exact_truediv; lia |]. split; [intros i; apply exact_level_price |].
    split.
    { destruct (start_grid_strategy_exact env symbol lower_price upper_price grid_levels
                  quantity_per_level s0) as (s' & Hrun & _ & _ & Hlook); [lia |].
      eexists _, s'. split; [exact Hrun |]. split; [exact Hlook |].
      cbn [Grid.buy_levels Grid.sell_levels].
      apply sorted_threshold_split. exact Hsorted. }
    split; [apply exact_levels_length |]. split.
    { intros x Hx. apply exact_levels_in in Hx; try assumption.
      destruct Hx as (i & Hi & ->). now apply exact_level_bounds. }
    split; [apply exact_level_first |]. split; [now apply exact_level_last |].
    split; [exact Hsorted | intros i; apply exact_level_step].
Qed.

Lemma grid_levels_evenly_spaced_witness :
  let env := accepting_exchange (inr (Q2Qc 2000)) in
  let lower_price := Q2Qc 1800 in
  let upper_price := Q2Qc 2200 in
  let step := ((upper_price - lower_price) / Q2Qc (inject_Z (5 - 1)))%Qc in
  let level := fun i : Z => (lower_price + Q2Qc (inject_Z i) * step)%Qc in
  let levels := map level (py_range 5) in
  py_truediv (f_sub upper_price lower_price) (5 - 1) = Returned step /\
  (forall i, level_price lower_price step i = Returned (level i)) /\
  (exists g s',
     start_grid_strategy env "ETHUSDT" lower_price upper_price 5 (Q2Qc (1 # 10))
       OrderManager.init
       = (Returned ("grid_" ++ "ETHUSDT" ++ "_" ++ str_int 1700000000), s') /\
     OrderManager.grid_orders s' !! ("grid_" ++ "ETHUSDT" ++ "_" ++ str_int 1700000000)
       = Some g /\
     (Grid.buy_levels g ++ Grid.sell_levels g)%list = levels) /\
  length levels = Z.to_nat 5 /\
  (forall x, In x levels -> (lower_price <= x)%Qc /\ (x <= upper_price)%Qc) /\
  level 0 = lower_price /\ level (5 - 1) = upper_price /\
  StronglySorted Qclt levels /\
  (forall i : Z, (level (i + 1)%Z - level i)%Qc = step).
Proof.
  apply (proj2 grid_levels_evenly_spaced (accepting_exchange (inr (Q2Qc 2000))) "ETHUSDT"
           (Q2Qc 1800) (Q2Qc 2200) 5 (Q2Qc (1 # 10)) OrderManager.init).
  - reflexivity.
  - lia.
Defined.

(** C6 fails as stated on binary64: a grid from 0.1 to 1.0 with 8 levels
    (so [lower_price < upper_price] and [grid_levels >= 2]) has its last
    level, 1.0000000000000002, above [upper_price], hence outside
    [[lower_price, upper_price]]; and its steps are not constant: the
    second differs from the computed step and from the third.  The
    levels are within rounding of the exact ones: the last is within
    [2^-50] of 1.0. *)
Lemma grid_levels_binary64_inexact :
  let lower_price := (1 / 10)%float in
  let upper_price := 1%float in
  let run := start_grid_strategy (accepting_exchange (inr (1 / 2)%float)) "ETHUSDT"
               lower_price upper_price 8 (1 / 10)%float OrderManager.init in
  let levels := default [] ((fun g => (Grid.buy_levels g ++ Grid.sell_levels g)%list)
                              <$> OrderManager.grid_orders (snd run)
                                    !! "grid_ETHUSDT_1700000000") in
  let level i := nth i levels nan in
  let difference i := PrimFloat.sub (level (S i)) (level i) in
  fst run = Returned "grid_ETHUSDT_1700000000" /\
  length levels = 8%nat /\
  PrimFloat.ltb lower_price upper_price = true /\
  py_truediv (f_sub upper_price lower_price) (8 - 1) = Returned (difference 0%nat) /\
  PrimFloat.ltb upper_price (level 7%nat) = true /\
  PrimFloat.eqb (difference 1%nat) (difference 0%nat) = false /\
  PrimFloat.eqb (difference 1%nat) (difference 2%nat) = false /\
  close_to (level 7%nat) upper_price = true.
Proof. vm_compute. repeat split. Qed.

(** ** Grid: classification *)

(** C5.  In exact arithmetic, whenever [start_grid_strategy] returns
    (that is, unless [grid_levels] is 1): the levels are the values of
    [lower_price + i * price_step] for [i] in [range(grid_levels)]; the
    price is queried exactly once; a level strictly below the observed price is a buy level and
    not a sell level, a level at or above it is a sell level and not a
    buy level; no level is on both sides, the two sequences together are
    the generated levels, and the orders placed are BUY for the buy
    levels and SELL for the sell levels.  For 1800, 2200, 5 levels and an
    observed price of 2000 the levels are 1800, 1900, 2000, 2100, 2200,
    the buys 1800, 1900 and the sells 2000, 2100, 2200; so they are on
    binary64. *)
Theorem grid_classification :
  (forall (env : Env.t Qc) (symbol : string) (lower_price upper_price : Qc)
          (grid_levels : Z) (quantity_per_level : Qc) (s0 : OrderManager.t Qc),
     grid_levels <> 1 ->
     let grid_id := "grid_" ++ symbol ++ "_"
                    ++ str_int (Env.time_time env (OrderManager.clock_reads s0)) in
     let current_price := observed_price env symbol s0 in
     let step := exact_step lower_price upper_price grid_levels in
     let levels := exact_levels lower_price upper_price grid_levels in
     py_truediv (f_sub upper_price lower_price) (grid_levels - 1) = Returned step /\
     Forall2 (fun i x => level_price lower_price step i = Returned x)
             (py_range grid_levels) levels /\
     exists g s',
       start_grid_strategy env symbol lower_price upper_price grid_levels quantity_per_level s0
         = (Returned grid_id, s') /\
       OrderManager.grid_orders s' !! grid_id = Some g /\
       OrderManager.price_queries s' = S (OrderManager.price_queries s0) /\
       (forall x, In x levels -> (x < current_price)%Qc ->
                  In x (Grid.buy_levels g) /\ ~ In x (Grid.sell_levels g)) /\
       (forall x, In x levels -> (current_price <= x)%Qc ->
                  In x (Grid.sell_levels g) /\ ~ In x (Grid.buy_levels g)) /\
       (forall x, In x (Grid.buy_levels g) -> ~ In x (Grid.sell_levels g)) /\
       Permutation (Grid.buy_levels g ++ Grid.sell_levels g) levels /\
       OrderManager.sent s' =
         (OrderManager.sent s0
            ++ map (limit_request symbol "BUY" quantity_per_level) (Grid.buy_levels g)
            ++ map (limit_request symbol "SELL" quantity_per_level) (Grid.sell_levels g))%list) /\
  (forall (env : Env.t Qc) (s0 : OrderManager.t Qc),
     Env.get_symbol_ticker env (OrderManager.price_queries s0) "ETHUSDT" = inr (Q2Qc 2000) ->
     let grid_id := "grid_ETHUSDT_"
                    ++ str_int (Env.time_time env (OrderManager.clock_reads s0)) in
     exact_levels (Q2Qc 1800) (Q2Qc 2200) 5 = map Q2Qc [1800; 1900; 2000; 2100; 2200]%Q /\
     exists g s',
       start_grid_strategy env "ETHUSDT" (Q2Qc 1800) (Q2Qc 2200) 5 (Q2Qc (1 # 10)) s0
         = (Returned grid_id, s') /\
       OrderManager.grid_orders s' !! grid_id = Some g /\
       Grid.buy_levels g = map Q2Qc [1800; 1900]%Q /\
       Grid.sell_levels g = map Q2Qc [2000; 2100; 2200]%Q) /\
  (let run := start_grid_strategy (accepting_exchange (inr 2000%float)) "ETHUSDT"
                1800%float 2200%float 5 (1 / 10)%float OrderManager.init in
   fst run = Returned "grid_ETHUSDT_1700000000" /\
   (Grid.buy_levels <$> OrderManager.grid_orders (snd run) !! "grid_ETHUSDT_1700000000")
     = Some [1800; 1900]%float /\
   (Grid.sell_levels <$> OrderManager.grid_orders (snd run) !! "grid_ETHUSDT_1700000000")
     = Some [2000; 2100; 2200]%float).
Proof.
  split; [| split].
  - intros env symbol lower_price upper_price grid_levels quantity_per_level s0 Hn
           grid_id current_price step levels.
    destruct (start_grid_strategy_exact env symbol lower_price upper_price grid_levels
                quantity_per_level s0 Hn) as (s' & Hrun & Hsent & Hprice & Hlook).
    split; [apply exact_truediv; lia |].
    split; [subst levels; unfold exact_levels; apply Forall2_fmap_r, Forall_Forall2_diag,
            List.Forall_forall; intros i _; apply exact_level_price |].
    eexists _, s'. split; [exact Hrun |]. split; [exact Hlook |]. split; [exact Hprice |].
    cbn [Grid.buy_levels Grid.sell_levels]. fold current_price levels.
    split; [| split; [| split; [| split]]].
    + intros x Hx Hlt. apply exact_ltb_true in Hlt. rewrite !filter_In, Hlt.
      split; [auto |]. intros [_ Hfalse]. discriminate.
    + intros x Hx Hle. apply exact_ltb_false in Hle. rewrite !filter_In, Hle.
      split; [auto |]. intros [_ Hfalse]. discriminate.
    + intros x Hbuy Hsell. apply filter_In in Hbuy as [_ Hbuy].
      apply filter_In in Hsell as [_ Hsell]. rewrite Hbuy in Hsell. discriminate.
    + apply filter_partition_permutation.
    + exact Hsent.
  - intros env s0 Hticker grid_id.
    assert (Hlevels : exact_levels (Q2Qc 1800) (Q2Qc 2200) 5
                      = map Q2Qc [1800; 1900; 2000; 2100; 2200]%Q).
    { cbn [map]. unfold exact_levels, py_range. cbn [Z.to_nat Pos.to_nat Pos.iter_op seq map].
      repeat f_equal; apply Qc_is_canon; reflexivity. }
    split; [exact Hlevels |].
    destruct (start_grid_strategy_exact env "ETHUSDT" (Q2Qc 1800) (Q2Qc 2200) 5
                (Q2Qc (1 # 10)) s0) as (s' & Hrun & _ & _ & Hlook); [lia |].
    eexists _, s'. split; [exact Hrun |]. split; [exact Hlook |].
    cbn [Grid.buy_levels Grid.sell_levels].
    unfold observed_price. rewrite Hticker, Hlevels. split; reflexivity.
  - vm_compute. repeat split.
Qed.

Lemma grid_classification_witness :
  let env := accepting_exchange (inr (Q2Qc 2000)) in
  let step := exact_step (Q2Qc 1800) (Q2Qc 2200) 5 in
  let levels := exact_levels (Q2Qc 1800) (Q2Qc 2200) 5 in
  py_truediv (f_sub (Q2Qc 2200) (Q2Qc 1800)) (5 - 1) = Returned step /\
  Forall2 (fun i x => level_price (Q2Qc 1800) step i = Returned x) (py_range 5) levels /\
  exists g s',
    start_grid_strategy env "ETHUSDT" (Q2Qc 1800) (Q2Qc 2200) 5 (Q2Qc (1 # 10))
      OrderManager.init
      = (Returned ("grid_" ++ "ETHUSDT" ++ "_" ++ str_int 1700000000), s') /\
    OrderManager.grid_orders s' !! ("grid_" ++ "ETHUSDT" ++ "_" ++ str_int 1700000000)
      = Some g /\
    OrderManager.price_queries s' = 1%nat /\
    (forall x, In x levels -> (x < Q2Qc 2000)%Qc ->
               In x (Grid.buy_levels g) /\ ~ In x (Grid.sell_levels g)) /\
    (forall x, In x levels -> (Q2Qc 2000 <= x)%Qc ->
               In x (Grid.sell_levels g) /\ ~ In x (Grid.buy_levels g)) /\
    (forall x, In x (Grid.buy_levels g) -> ~ In x (Grid.sell_levels g)) /\
    Permutation (Grid.buy_levels g ++ Grid.sell_levels g) levels /\
    OrderManager.sent s' =
      ([] ++ map (limit_request "ETHUSDT" "BUY" (Q2Qc (1 # 10))) (Grid.buy_levels g)
          ++ map (limit_request "ETHUSDT" "SELL" (Q2Qc (1 # 10))) (Grid.sell_levels g))%list.
Proof.
  apply (proj1 grid_classification (accepting_exchange (inr (Q2Qc 2000))) "ETHUSDT"
           (Q2Qc 1800) (Q2Qc 2200) 5 (Q2Qc (1 # 10)) OrderManager.init).
  lia.
Defined.

(** ** Grid: best-effort placement *)

Lemma filter_not_failed_all {F} (rs : list (OrderResult.t F)) :
  Forall (fun r => OrderResult.status r <> "FAILED") (List.filter not_failed rs).
Proof.
  apply List.Forall_forall. intros r Hr. apply filter_In in Hr as [_ Hr].
  unfold not_failed in Hr. apply negb_true_iff in Hr. now apply String.eqb_neq in Hr.
Qed.

Lemma filter_strongly_sorted {A} (R : A -> A -> Prop) (f : A -> bool) (l : list A) :
  StronglySorted R l -> StronglySorted R (List.filter f l).
Proof.
  induction 1 as [| x l Hsorted IH Hall]; simpl; [constructor |].
  destruct (f x); [| exact IH]. constructor; [exact IH |].
  rewrite List.Forall_forall in *. intros y Hy. apply filter_In in Hy as [Hy _]. auto.
Qed.

Lemma exact_levels_nonpositive (lower_price upper_price : Qc) (grid_levels : Z) :
  grid_levels <= 0 -> exact_levels lower_price upper_price grid_levels = [].
Proof.
  intros Hn. unfold exact_levels, py_range. now replace (Z.to_nat grid_levels) with 0%nat by lia.
Qed.

(** The sign of the step is the sign of [upper_price - lower_price]. *)
Lemma exact_step_sign (lower_price upper_price : Qc) (grid_levels : Z) :
  2 <= grid_levels ->
  let step := exact_step lower_price upper_price grid_levels in
  ((lower_price < upper_price)%Qc -> (0 < step)%Qc) /\
  ((upper_price < lower_price)%Qc -> (step < 0)%Qc) /\
  (lower_price = upper_price -> step = Q2Qc 0).
Proof.
  intros Hn step.
  assert (Hs : (step * Q2Qc (inject_Z (grid_levels - 1)))%Qc = (upper_price - lower_price)%Qc).
  { unfold step, exact_step. rewrite Qcmult_comm. apply Qcmult_div_r.
    intros Heq. apply exact_of_int_zero_iff in Heq. lia. }
  assert (H1 : (1 <= inject_Z (grid_levels - 1))%Q).
  { replace 1%Q with (inject_Z 1) by reflexivity. rewrite <- Zle_Qle. lia. }
  split; [| split]; intros Hb; qc2q; nra.
Qed.

(** Levels that relate pairwise in the order of their indices are sorted
    by that relation. *)
Lemma exact_levels_sorted_by (R : Qc -> Qc -> Prop) (lower_price step : Qc) m :
  (forall i j, i < j -> R (exact_level lower_price step i) (exact_level lower_price step j)) ->
  forall a,
  StronglySorted R (map (exact_level lower_price step) (map Z.of_nat (seq a m))).
Proof.
  intros HR. induction m as [| m IH]; intros a; simpl; constructor; [apply IH |].
  apply List.Forall_forall. intros x Hx.
  apply in_map_iff in Hx as (i & <- & Hi). apply in_map_iff in Hi as (k & <- & Hk).
  apply in_seq in Hk. apply HR. lia.
Qed.

Lemma exact_level_difference (lower_price step : Qc) (i j : Z) :
  (exact_level lower_price step j - exact_level lower_price step i)%Qc
  = (Q2Qc (inject_Z (j - i)) * step)%Qc.
Proof.
  unfold exact_level. qc2q. unfold Z.sub. rewrite inject_Z_plus, inject_Z_opp. ring.
Qed.

(** A threshold splits a descending list into the prefix at or above it
    and the suffix below it. *)
Lemma sorted_descending_split (p : Qc) (l : list Qc) :
  StronglySorted (fun x y => (y < x)%Qc) l ->
  (List.filter (fun x => negb (f_ltb x p)) l ++ List.filter (fun x => f_ltb x p) l)%list = l.
Proof.
  induction 1 as [| x l Hsorted IH Hall]; [reflexivity |].
  cbn [List.filter]. destruct (f_ltb x p) eqn:Hx; cbn [negb].
  - assert (Hnone : List.filter (fun y => negb (f_ltb y p)) l = []).
    { apply filter_none. intros y Hy.
      rewrite List.Forall_forall in Hall. specialize (Hall y Hy).
      apply exact_ltb_true in Hx. apply negb_false_iff, exact_ltb_true.
      eapply Qclt_trans; eassumption. }
    rewrite Hnone in *. cbn [app] in *. f_equal. exact IH.
  - cbn [app]. f_equal. exact IH.
Qed.

Lemma grid_level_prices_exact (lower_price price_step : Qc) (indices : list Z) :
  grid_level_prices lower_price price_step indices
  = Returned (map (exact_level lower_price price_step) indices).
Proof.
  induction indices as [| i rest IH]; [reflexivity |].
  cbn [grid_level_prices map]. rewrite exact_level_price, IH. reflexivity.
Qed.

(** C8, as the code has it.  In any arithmetic, binary64 included, and
    for every call of [start_grid_strategy] whatever its parameters: if
    the call raises (a level count of 1, or an integer too large for a
    float), no grid has been registered and no order sent; if it returns,
    it has submitted one limit order for every level it computed, a BUY
    order for every buy level and then a SELL order for every sell level,
    each side in the order in which the levels were generated, whatever
    the results of the earlier placements were; the grid's
    [active_orders] are the results that are not FAILED, in placement
    order, so a FAILED result is not recorded.  In exact arithmetic the
    order of generation is ascending price order when [lower_price <
    upper_price] and descending price order when [upper_price <
    lower_price], and every level is [lower_price] when the two are
    equal. *)
Theorem grid_placement_best_effort :
  (forall (F : Type) (PF : PyFloat F) (env : Env.t F) (symbol : string)
          (lower_price upper_price : F) (grid_levels : Z) (quantity_per_level : F)
          (s0 : OrderManager.t F),
     let grid_id := "grid_" ++ symbol ++ "_"
                    ++ str_int (Env.time_time env (OrderManager.clock_reads s0)) in
     let run := start_grid_strategy env symbol lower_price upper_price grid_levels
                  quantity_per_level s0 in
     match fst run with
     | Returned id =>
         id = grid_id /\
         exists g price_step levels,
           OrderManager.grid_orders (snd run) !! grid_id = Some g /\
           py_truediv (f_sub upper_price lower_price) (grid_levels - 1)
             = Returned price_step /\
           grid_level_prices lower_price price_step (py_range grid_levels)
             = Returned levels /\
           length levels = Z.to_nat grid_levels /\
           Grid.buy_levels g
             = List.filter (fun x => f_ltb x (observed_price env symbol s0)) levels /\
           Grid.sell_levels g
             = List.filter (fun x => negb (f_ltb x (observed_price env symbol s0))) levels /\
           let buys := map (limit_request symbol "BUY" quantity_per_level)
                           (Grid.buy_levels g) in
           let sells := map (limit_request symbol "SELL" quantity_per_level)
                            (Grid.sell_levels g) in
           let results :=
             (grid_results env symbol "BUY" quantity_per_level (Grid.buy_levels g)
                (OrderManager.sent s0) (S (OrderManager.clock_reads s0))
              ++ grid_results env symbol "SELL" quantity_per_level (Grid.sell_levels g)
                   (OrderManager.sent s0 ++ buys)
                   (S (OrderManager.clock_reads s0) + length (Grid.buy_levels g)))%list in
           OrderManager.sent (snd run) = (OrderManager.sent s0 ++ buys ++ sells)%list /\
           length results = Z.to_nat grid_levels /\
           Grid.active_orders g = List.filter not_failed results /\
           Forall (fun r => OrderResult.status r <> "FAILED") (Grid.active_orders g)
     | Raised _ =>
         OrderManager.sent (snd run) = OrderManager.sent s0 /\
         OrderManager.grid_orders (snd run) = OrderManager.grid_orders s0
     end) /\
  (forall (env : Env.t Qc) (symbol : string) (lower_price upper_price : Qc)
          (grid_levels : Z) (quantity_per_level : Qc) (s0 : OrderManager.t Qc),
     grid_levels <> 1 ->
     let grid_id := "grid_" ++ symbol ++ "_"
                    ++ str_int (Env.time_time env (OrderManager.clock_reads s0)) in
     let levels := exact_levels lower_price upper_price grid_levels in
     exists g s',
       start_grid_strategy env symbol lower_price upper_price grid_levels quantity_per_level s0
         = (Returned grid_id, s') /\
       OrderManager.grid_orders s' !! grid_id = Some g /\
       grid_level_prices lower_price (exact_step lower_price upper_price grid_levels)
         (py_range grid_levels) = Returned levels /\
       ((lower_price < upper_price)%Qc ->
        StronglySorted Qclt levels /\
        (Grid.buy_levels g ++ Grid.sell_levels g)%list = levels /\
        StronglySorted Qclt (Grid.buy_levels g) /\
        StronglySorted Qclt (Grid.sell_levels g)) /\
       ((upper_price < lower_price)%Qc ->
        StronglySorted (fun x y => (y < x)%Qc) levels /\
        (Grid.sell_levels g ++ Grid.buy_levels g)%list = levels /\
        StronglySorted (fun x y => (y < x)%Qc) (Grid.buy_levels g) /\
        StronglySorted (fun x y => (y < x)%Qc) (Grid.sell_levels g)) /\
       (lower_price = upper_price ->
        Forall (fun x => x = lower_price) (Grid.buy_levels g ++ Grid.sell_levels g))).
Proof.
  split.
  - intros F PF env symbol lower_price upper_price grid_levels quantity_per_level s0
           grid_id run.
    pose proof (start_grid_strategy_any env symbol lower_price upper_price grid_levels
                  quantity_per_level s0) as Hany.
    cbv zeta in Hany. fold grid_id run in Hany.
    destruct (fst run) as [id | e]; [| exact Hany].
    destruct Hany as (Hid & g & price_step & levels & Hlook & Hstep & Hlevels & Hbuy & Hsell
                      & Hsent & Hactive).
    split; [exact Hid |]. exists g, price_step, levels.
    assert (Hlen : length levels = Z.to_nat grid_levels).
    { pose proof (grid_level_prices_Forall2 _ _ _ _ Hlevels) as Hall.
      apply Forall2_length in Hall. now rewrite <- Hall, length_py_range. }
    split; [exact Hlook |]. split; [exact Hstep |]. split; [exact Hlevels |].
    split; [exact Hlen |]. split; [exact Hbuy |]. split; [exact Hsell |].
    cbv zeta. split; [exact Hsent |]. split; [| split; [exact Hactive |]].
    + rewrite length_app, !grid_results_length, <- length_app, <- Hlen.
      apply Permutation_length. rewrite Hbuy, Hsell. apply filter_partition_permutation.
    + rewrite Hactive. apply filter_not_failed_all.
  - intros env symbol lower_price upper_price grid_levels quantity_per_level s0 Hn
           grid_id levels.
    destruct (start_grid_strategy_exact env symbol lower_price upper_price grid_levels
                quantity_per_level s0 Hn) as (s' & Hrun & _ & _ & Hlook).
    eexists _, s'. split; [exact Hrun |]. split; [exact Hlook |].
    cbn [Grid.buy_levels Grid.sell_levels]. fold levels.
    set (price := observed_price env symbol s0).
    split; [apply grid_level_prices_exact |].
    destruct (Z_le_gt_dec grid_levels 0) as [Hle | Hgt].
    + assert (Hnil : levels = []) by (now apply exact_levels_nonpositive).
      rewrite Hnil. cbn [List.filter app]. repeat split; constructor.
    + assert (Hn2 : 2 <= grid_levels) by lia.
      destruct (exact_step_sign lower_price upper_price grid_levels Hn2)
        as (Hpos & Hneg & Hzero).
      split; [| split].
      * intros Hband.
        pose proof (exact_levels_sorted lower_price upper_price grid_levels Hband Hn2)
          as Hsorted.
        split; [exact Hsorted |]. split; [now apply sorted_threshold_split |].
        split; now apply filter_strongly_sorted.
      * intros Hband. specialize (Hneg Hband).
        assert (Hsorted : StronglySorted (fun x y => (y < x)%Qc) levels).
        { unfold levels, exact_levels, py_range. apply exact_levels_sorted_by.
          intros i j Hij.
          pose proof (exact_level_difference lower_price
                        (exact_step lower_price upper_price grid_levels) i j) as Hd.
          assert (H1 : (0 < inject_Z (j - i))%Q).
          { replace 0%Q with (inject_Z 0) by reflexivity. rewrite <- Zlt_Qlt. lia. }
          qc2q. nra. }
        split; [exact Hsorted |]. split; [now apply sorted_descending_split |].
        split; now apply filter_strongly_sorted.
      * intros Heq. specialize (Hzero Heq). apply List.Forall_forall. intros x Hx.
        assert (Hin : In x levels).
        { apply in_app_or in Hx. destruct Hx as [Hx | Hx]; apply filter_In in Hx; tauto. }
        unfold levels, exact_levels in Hin. apply in_map_iff in Hin as (i & <- & _).
        unfold exact_level. rewrite Hzero. qc2q. ring.
Qed.

Lemma grid_placement_best_effort_witness :
  let env := rejecting_second (inr (Q2Qc 2000)) in
  let symbol := "ETHUSDT" in
  let lower_price := Q2Qc 2200 in
  let upper_price := Q2Qc 1800 in
  let quantity_per_level := Q2Qc (1 # 10) in
  let s0 := @OrderManager.init Qc in
  let grid_id := "grid_" ++ symbol ++ "_" ++ str_int 1700000000 in
  let levels := exact_levels lower_price upper_price 3 in
  exists g s',
    start_grid_strategy env symbol lower_price upper_price 3 quantity_per_level s0
      = (Returned grid_id, s') /\
    OrderManager.grid_orders s' !! grid_id = Some g /\
    grid_level_prices lower_price (exact_step lower_price upper_price 3) (py_range 3)
      = Returned levels /\
    ((lower_price < upper_price)%Qc ->
     StronglySorted Qclt levels /\
     (Grid.buy_levels g ++ Grid.sell_levels g)%list = levels /\
     StronglySorted Qclt (Grid.buy_levels g) /\
     StronglySorted Qclt (Grid.sell_levels g)) /\
    ((upper_price < lower_price)%Qc ->
     StronglySorted (fun x y => (y < x)%Qc) levels /\
     (Grid.sell_levels g ++ Grid.buy_levels g)%list = levels /\
     StronglySorted (fun x y => (y < x)%Qc) (Grid.buy_levels g) /\
     StronglySorted (fun x y => (y < x)%Qc) (Grid.sell_levels g)) /\
    (lower_price = upper_price ->
     Forall (fun x => x = lower_price) (Grid.buy_levels g ++ Grid.sell_levels g)).
Proof.
  apply (proj2 grid_placement_best_effort (rejecting_second (inr (Q2Qc 2000))) "ETHUSDT"
           (Q2Qc 2200) (Q2Qc 1800) 3 (Q2Qc (1 # 10)) OrderManager.init).
  lia.
Defined.

(** A band entered upside down is accepted: with lower 2200, upper 1800
    and 3 levels at an observed price of 2000, the levels are generated
    downwards, 2200, 2000, 1800; the BUY order for 1800 goes out first
    and the SELL orders follow at 2200 and then 2000. *)
Example grid_inverted_band_descends :
  let run := start_grid_strategy (accepting_exchange (inr (Q2Qc 2000))) "ETHUSDT"
               (Q2Qc 2200) (Q2Qc 1800) 3 (Q2Qc (1 # 10)) OrderManager.init in
  fst run = Returned "grid_ETHUSDT_1700000000" /\
  map this (exact_levels (Q2Qc 2200) (Q2Qc 1800) 3) = [2200; 2000; 1800]%Q /\
  map (fun req => (Request.side req, this <$> Request.price req)) (OrderManager.sent (snd run))
    = [("BUY", Some 1800%Q); ("SELL", Some 2200%Q); ("SELL", Some 2000%Q)].
Proof. vm_compute. repeat split. Qed.

(** C8 fails as stated: when the exchange rejects the order for level
    1900, all five levels are still submitted, but the FAILED result is
    not recorded: the grid's [active_orders] hold the four other results
    only. *)
Lemma grid_failed_result_not_recorded :
  let env := rejecting_second (inr (Q2Qc 2000)) in
  let tenth := Q2Qc (1 # 10) in
  let run := start_grid_strategy env "ETHUSDT" (Q2Qc 1800) (Q2Qc 2200) 5 tenth
               OrderManager.init in
  let recorded := default [] (Grid.active_orders
                    <$> OrderManager.grid_orders (snd run) !! "grid_ETHUSDT_1700000000") in
  fst run = Returned "grid_ETHUSDT_1700000000" /\
  map (fun req => (Request.side req, this <$> Request.price req)) (OrderManager.sent (snd run))
    = [("BUY", Some 1800%Q); ("BUY", Some 1900%Q); ("SELL", Some 2000%Q);
       ("SELL", Some 2100%Q); ("SELL", Some 2200%Q)] /\
  map OrderResult.status
      (grid_results env "ETHUSDT" "BUY" tenth [Q2Qc 1800; Q2Qc 1900] [] 1)
    = ["NEW"; "FAILED"] /\
  map (fun r => (OrderResult.status r, this <$> OrderResult.price r)) recorded
    = [("NEW", Some 1800%Q); ("NEW", Some 2000%Q); ("NEW", Some 2100%Q);
       ("NEW", Some 2200%Q)].
Proof. vm_compute. repeat split. Qed.

(** ** Grid: a failed price query *)



(** * Further properties of the engine *)

(** ** Unknown strategies and a zero interval *)

(** X1.  Running the TWAP task or the grid placement for an id that is
    not registered raises [KeyError] for that id and changes nothing. *)
Theorem unknown_strategy_id_raises {F} `{PyFloat F} (env : Env.t F) (id : string)
    (s : OrderManager.t F) :
  OrderManager.twap_orders s !! id = None ->
  OrderManager.grid_orders s !! id = None ->
  _execute_twap env id s = (Raised (KeyError id), s) /\
  _place_grid_orders env id s = (Raised (KeyError id), s).
Proof.
  intros Htwap Hgrid. split.
  - unfold _execute_twap. apply bind_raised. now apply read_twap_missing.
  - unfold _place_grid_orders. apply bind_raised.
    unfold read_grid, bind, get. now rewrite Hgrid.
Qed.

Lemma unknown_strategy_id_raises_witness :
  let env := accepting_exchange (inr (Q2Qc 2000)) in
  _execute_twap env "twap_BTCUSDT_1" OrderManager.init
    = (Raised (KeyError "twap_BTCUSDT_1"), OrderManager.init) /\
  _place_grid_orders env "twap_BTCUSDT_1" OrderManager.init
    = (Raised (KeyError "twap_BTCUSDT_1"), OrderManager.init).
Proof.
  apply (unknown_strategy_id_raises (accepting_exchange (inr (Q2Qc 2000))) "twap_BTCUSDT_1"
           OrderManager.init); reflexivity.
Defined.

(** X2.  A TWAP strategy started with [interval_seconds = 0] is accepted
    by [start_twap_order], and its task then raises [ZeroDivisionError]
    on the integer division of line 234: no order is placed and the
    strategy stays active. *)
Theorem twap_zero_interval_raises {F} `{PyFloat F} (env : Env.t F) (symbol side : string)
    (total_quantity : F) (duration_minutes : Z) (s0 : OrderManager.t F) :
  let twap_id := "twap_" ++ symbol ++ "_"
                 ++ str_int (Env.time_time env (OrderManager.clock_reads s0)) in
  let s1 := snd (start_twap_order env symbol side total_quantity duration_minutes 0 s0) in
  fst (start_twap_order env symbol side total_quantity duration_minutes 0 s0)
    = Returned twap_id /\
  _execute_twap env twap_id s1 = (Raised ZeroDivisionError, s1) /\
  twap_active twap_id s1 = Some true /\
  OrderManager.sent s1 = OrderManager.sent s0.
Proof.
  intros twap_id s1. subst s1. rewrite start_twap_order_run. cbn [fst snd].
  split; [reflexivity |].
  set (s1 := OrderManager.mk _ _ _ _ _ _ _).
  assert (Hlook : OrderManager.twap_orders s1 !! twap_id =
                  Some (Twap.mk symbol side total_quantity total_quantity duration_minutes 0
                          (Env.datetime_now env (S (OrderManager.clock_reads s0))) [] true)).
  { apply lookup_insert_eq. }
  split; [| split; [| reflexivity]].
  - rewrite (execute_twap_run env twap_id s1 _ Hlook). reflexivity.
  - unfold twap_active. now rewrite Hlook.
Qed.

(** ** How a TWAP task ends *)

Section TwapEnding.
Context {F : Type} `{PyFloat F} (env : Env.t F).

(** A loop that raises leaves the strategy active: only a pass that found
    it active gets as far as the sleep that raises. *)
Lemma twap_loop_raised_active twap_id q indices :
  forall (s : OrderManager.t F) (tw : Twap.t F) e s',
  OrderManager.twap_orders s !! twap_id = Some tw ->
  for_break indices (twap_iteration env twap_id q) s = (Raised e, s') ->
  twap_active twap_id s' = Some true.
Proof.
  induction indices as [| i rest IH]; intros s tw e s' Hlook Hrun; [discriminate |].
  cbn [for_break] in Hrun.
  destruct (twap_stops (twap_observed env twap_id i tw)) eqn:Hstop.
  - destruct (twap_iteration_break env twap_id q i s tw Hlook Hstop) as (s1 & Hit & _).
    rewrite (bind_returned _ _ _ _ _ Hit) in Hrun. discriminate.
  - destruct (twap_iteration_submit env twap_id q i s tw Hlook Hstop) as (s1 & Hit & _ & Hs1).
    unfold twap_stops in Hstop. apply orb_false_iff in Hstop as [Hact _].
    apply negb_false_iff in Hact.
    destruct (sleep_outcome env _) as [[] | e1].
    + rewrite (bind_returned _ _ _ _ _ Hit) in Hrun. eapply IH; [exact Hs1 | exact Hrun].
    + rewrite (bind_raised _ _ _ _ _ Hit) in Hrun. injection Hrun as _ <-.
      unfold twap_active. rewrite Hs1. simpl. now rewrite Hact.
Qed.

Lemma execute_twap_returned_inactive twap_id (s s' : OrderManager.t F) :
  _execute_twap env twap_id s = (Returned tt, s') -> twap_active twap_id s' = Some false.
Proof.
  intros Hrun.
  destruct (OrderManager.twap_orders s !! twap_id) as [tw |] eqn:Hlook.
  - rewrite (execute_twap_run env twap_id s tw Hlook) in Hrun.
    destruct (py_floordiv _ _) as [n | e]; [| discriminate].
    destruct (py_truediv _ _) as [q | e]; [| discriminate].
    pose proof (for_break_invariant
                  (fun s => is_Some (OrderManager.twap_orders s !! twap_id))
                  (twap_iteration env twap_id q) (py_range n)) as Hkeep.
    unfold bind in Hrun. fold (twap_loop env twap_id q n) in Hkeep.
    destruct (twap_loop env twap_id q n s) as [[[] | e] s1] eqn:Hloop; [| discriminate].
    injection Hrun as <-.
    assert (Hsome : is_Some (OrderManager.twap_orders s1 !! twap_id)).
    { change s1 with (snd (Returned tt, s1)). rewrite <- Hloop. apply Hkeep; [| eauto].
      intros i s2 [tw2 Hlook2].
      destruct (twap_stops (twap_observed env twap_id i tw2)) eqn:Hstop.
      - destruct (twap_iteration_break env twap_id q i s2 tw2 Hlook2 Hstop)
          as (s3 & -> & _ & Hs3). eauto.
      - destruct (twap_iteration_submit env twap_id q i s2 tw2 Hlook2 Hstop)
          as (s3 & -> & _ & Hs3). eauto. }
    destruct Hsome as [tw1 Hlook1].
    unfold twap_active. simpl. now rewrite lookup_alter_eq, Hlook1.
  - unfold _execute_twap in Hrun.
    rewrite (bind_raised _ _ _ _ _ (read_twap_missing _ _ Hlook)) in Hrun. discriminate.
Qed.

Lemma execute_twap_raised_active twap_id (s s' : OrderManager.t F) (tw : Twap.t F) e :
  OrderManager.twap_orders s !! twap_id = Some tw ->
  Twap.active tw = true ->
  _execute_twap env twap_id s = (Raised e, s') -> twap_active twap_id s' = Some true.
Proof.
  intros Hlook Hact Hrun.
  assert (Hs : twap_active twap_id s = Some true).
  { unfold twap_active. rewrite Hlook. simpl. now rewrite Hact. }
  rewrite (execute_twap_run env twap_id s tw Hlook) in Hrun.
  destruct (py_floordiv _ _) as [n | e1]; [| now injection Hrun as _ <-].
  destruct (py_truediv _ _) as [q | e1]; [| now injection Hrun as _ <-].
  unfold bind in Hrun.
  destruct (twap_loop env twap_id q n s) as [[[] | e1] s1] eqn:Hloop; [discriminate |].
  injection Hrun as _ <-.
  eapply twap_loop_raised_active; [exact Hlook | exact Hloop].
Qed.

End TwapEnding.

(** X3.  A started strategy is listed in the dashboard's TWAP panel.
    When its task returns, the strategy is inactive and no longer listed;
    when its task dies of an exception (a zero slice count, a zero
    interval, a sleep that raises), the strategy stays active and stays
    listed. *)
Theorem twap_panel_after_task {F} `{PyFloat F} (env : Env.t F) (symbol side : string)
    (total_quantity : F) (duration_minutes interval_seconds : Z) (s0 : OrderManager.t F) :
  let twap_id := "twap_" ++ symbol ++ "_"
                 ++ str_int (Env.time_time env (OrderManager.clock_reads s0)) in
  let s1 := snd (start_twap_order env symbol side total_quantity
                   duration_minutes interval_seconds s0) in
  is_Some (twap_panel s1 !! twap_id) /\
  (forall s2, _execute_twap env twap_id s1 = (Returned tt, s2) ->
              twap_active twap_id s2 = Some false /\ twap_panel s2 !! twap_id = None) /\
  (forall e s2, _execute_twap env twap_id s1 = (Raised e, s2) ->
                twap_active twap_id s2 = Some true /\ is_Some (twap_panel s2 !! twap_id)).
Proof.
  intros twap_id s1.
  assert (Hlook : OrderManager.twap_orders s1 !! twap_id =
                  Some (Twap.mk symbol side total_quantity total_quantity duration_minutes
                          interval_seconds
                          (Env.datetime_now env (S (OrderManager.clock_reads s0))) [] true)).
  { subst s1. rewrite start_twap_order_run. simpl. apply lookup_insert_eq. }
  assert (Hpanel : forall (s : OrderManager.t F) b, twap_active twap_id s = Some b ->
            if b then is_Some (twap_panel s !! twap_id) else twap_panel s !! twap_id = None).
  { intros s b Hb. unfold twap_active in Hb. unfold twap_panel.
    destruct (OrderManager.twap_orders s !! twap_id) as [tw |] eqn:Hs; [| discriminate].
    injection Hb as Hb. destruct b.
    - exists tw. apply map_lookup_filter_Some. auto.
    - apply map_lookup_filter_None. right. intros tw' Htw'. simpl.
      rewrite Hs in Htw'. injection Htw' as <-. now rewrite Hb. }
  split; [| split].
  - apply (Hpanel s1 true). unfold twap_active. now rewrite Hlook.
  - intros s2 Hrun. pose proof (execute_twap_returned_inactive env _ _ _ Hrun) as Hfalse.
    split; [exact Hfalse | exact (Hpanel s2 false Hfalse)].
  - intros e s2 Hrun.
    pose proof (execute_twap_raised_active env _ _ _ _ _ Hlook eq_refl Hrun) as Htrue.
    split; [exact Htrue | exact (Hpanel s2 true Htrue)].
Qed.

(** ** The records of a TWAP strategy against the requests sent *)

Section TwapRecords.
Context {F : Type} `{PyFloat F} (env : Env.t F).

Lemma result_of_answer_symbol_side symbol side ty (q : F) price answer ts :
  OrderResult.symbol (result_of_answer symbol side ty q price answer ts) = symbol /\
  OrderResult.side (result_of_answer symbol side ty q price answer ts) = side.
Proof. now destruct answer as [e | [[oid |] [st |]]]. Qed.

Lemma twap_iteration_records twap_id symbol side sent0 q i (s : OrderManager.t F) :
  twap_records_match twap_id symbol side sent0 s ->
  twap_records_match twap_id symbol side sent0 (snd (twap_iteration env twap_id q i s)).
Proof.
  intros (tw & Hlook & Hsym & Hside & Hsent & Hall).
  destruct (twap_observed_fields env twap_id i tw) as (Hs & Hd & _ & _ & Ho).
  destruct (twap_stops (twap_observed env twap_id i tw)) eqn:Hstop.
  - destruct (twap_iteration_break env twap_id q i s tw Hlook Hstop) as (s' & -> & Hsent' & Hs').
    exists (twap_observed env twap_id i tw). cbn [snd].
    rewrite Hs, Hd, Ho, Hsent'. auto.
  - destruct (twap_iteration_submit env twap_id q i s tw Hlook Hstop) as (s' & -> & Hsent' & Hs').
    eexists. cbn [snd]. split; [exact Hs' |]. cbn [Twap.set_remaining_quantity
      Twap.append_order Twap.symbol Twap.side Twap.orders].
    rewrite Hsent', Hsent, Ho, !Hs, !Hd, Hsym, Hside.
    split; [reflexivity |]. split; [reflexivity |]. split.
    + unfold twap_record_requests. rewrite map_app, <- app_assoc. cbn [map].
      now rewrite result_of_answer_quantity.
    + apply Forall_app. split; [exact Hall |]. constructor; [| constructor].
      rewrite result_of_answer_order_type.
      split; [reflexivity | apply result_of_answer_symbol_side].
Qed.

Lemma execute_twap_records twap_id symbol side sent0 (s : OrderManager.t F) :
  twap_records_match twap_id symbol side sent0 s ->
  twap_records_match twap_id symbol side sent0 (snd (_execute_twap env twap_id s)).
Proof.
  intros Hs. pose proof Hs as (tw & Hlook & _).
  rewrite (execute_twap_run env twap_id s tw Hlook).
  destruct (py_floordiv _ _) as [n | e]; [| exact Hs].
  destruct (py_truediv _ _) as [q | e]; [| exact Hs].
  pose proof (for_break_invariant (twap_records_match twap_id symbol side sent0)
                (twap_iteration env twap_id q) (py_range n)
                (fun i s1 => twap_iteration_records twap_id symbol side sent0 q i s1) s Hs)
    as Hloop.
  fold (twap_loop env twap_id q n) in Hloop. unfold bind.
  destruct (twap_loop env twap_id q n s) as [[[] | e] s1]; cbn [snd] in *; [| exact Hloop].
  destruct Hloop as (tw1 & Hlook1 & Hrest).
  exists (Twap.set_active false tw1). simpl.
  rewrite lookup_alter_eq, Hlook1. auto.
Qed.

End TwapRecords.

(** X4.  Whatever the exchange answers and however the task of a started
    strategy ends, the requests it has sent are exactly one MARKET
    request per recorded result, for the strategy's symbol and side and
    the result's quantity, in the order of the records: nothing is sent
    without being recorded and nothing is recorded without having been
    sent. *)
Theorem twap_records_match_requests {F} `{PyFloat F} (env : Env.t F) (symbol side : string)
    (total_quantity : F) (duration_minutes interval_seconds : Z) (s0 : OrderManager.t F) :
  let twap_id := "twap_" ++ symbol ++ "_"
                 ++ str_int (Env.time_time env (OrderManager.clock_reads s0)) in
  let s1 := snd (start_twap_order env symbol side total_quantity
                   duration_minutes interval_seconds s0) in
  let s2 := snd (_execute_twap env twap_id s1) in
  exists tw,
    OrderManager.twap_orders s2 !! twap_id = Some tw /\
    OrderManager.sent s2 =
      (OrderManager.sent s0 ++ twap_record_requests symbol side (Twap.orders tw))%list /\
    Forall (fun r => OrderResult.order_type r = "MARKET" /\
                     OrderResult.symbol r = symbol /\ OrderResult.side r = side)
           (Twap.orders tw).
Proof.
  intros twap_id s1 s2.
  assert (Hstart : twap_records_match twap_id symbol side (OrderManager.sent s0) s1).
  { subst s1. rewrite start_twap_order_run. eexists. simpl.
    split; [apply lookup_insert_eq |]. simpl. rewrite app_nil_r. auto. }
  destruct (execute_twap_records env twap_id symbol side _ s1 Hstart)
    as (tw & Hlook & _ & _ & Hsent & Hall).
  exists tw. auto.
Qed.

(** ** A TWAP task touches its own strategy only *)

Section TwapIsolation.
Context {F : Type} `{PyFloat F} (env : Env.t F) (twap_id : string).

Lemma twap_frame_refl (s : OrderManager.t F) : twap_frame twap_id s s.
Proof. unfold twap_frame. auto. Qed.

Lemma twap_frame_trans (s1 s2 s3 : OrderManager.t F) :
  twap_frame twap_id s1 s2 -> twap_frame twap_id s2 s3 -> twap_frame twap_id s1 s3.
Proof.
  intros (Ht & Hg & Ha & Hth & Hp) (Ht' & Hg' & Ha' & Hth' & Hp').
  unfold twap_frame. rewrite Hg', Ha', Hth', Hp'. repeat split; try assumption.
  intros other Hother. now rewrite Ht', Ht.
Qed.

Lemma keeps_ret {A} (a : A) : keeps_twap_frame (F:=F) twap_id (ret a).
Proof. intros s. apply twap_frame_refl. Qed.

Lemma keeps_raise {A} e : keeps_twap_frame (F:=F) (A:=A) twap_id (raise e).
Proof. intros s. apply twap_frame_refl. Qed.

Lemma keeps_lift {A} (o : outcome A) : keeps_twap_frame (F:=F) twap_id (lift o).
Proof. intros s. apply twap_frame_refl. Qed.

Lemma keeps_bind {A B} (c : M F A) (k : A -> M F B) :
  keeps_twap_frame twap_id c -> (forall a, keeps_twap_frame twap_id (k a)) ->
  keeps_twap_frame twap_id (bind c k).
Proof.
  intros Hc Hk s. specialize (Hc s). unfold bind.
  destruct (c s) as [[a | e] s1]; cbn [snd] in *; [| exact Hc].
  eapply twap_frame_trans; [exact Hc | apply Hk].
Qed.

Lemma keeps_for_break {A} (body : A -> M F ctl) xs :
  (forall x, keeps_twap_frame twap_id (body x)) ->
  keeps_twap_frame twap_id (for_break xs body).
Proof.
  intros Hbody. induction xs as [| x xs IH]; cbn [for_break]; [apply keeps_ret |].
  apply keeps_bind; [apply Hbody |]. intros []; [exact IH | apply keeps_ret].
Qed.

Lemma keeps_update_twap f : keeps_twap_frame twap_id (update_twap (F:=F) twap_id f).
Proof.
  intros s. unfold twap_frame. simpl. repeat split.
  intros other Hother. now apply lookup_alter_ne.
Qed.

Lemma keeps_read_twap : keeps_twap_frame twap_id (read_twap (F:=F) twap_id).
Proof.
  intros s. unfold read_twap, bind, get.
  destruct (OrderManager.twap_orders s !! twap_id); apply twap_frame_refl.
Qed.

Lemma keeps_place_market_order symbol side quantity :
  keeps_twap_frame twap_id (place_market_order env symbol side quantity).
Proof. intros s. rewrite place_market_order_run. unfold twap_frame. simpl. auto. Qed.

Lemma keeps_time_sleep secs : keeps_twap_frame (F:=F) twap_id (time_sleep env secs).
Proof. apply keeps_lift. Qed.

Lemma keeps_twap_iteration q i : keeps_twap_frame twap_id (twap_iteration env twap_id q i).
Proof.
  unfold twap_iteration. apply keeps_bind.
  { destruct (Env.cancel_requested env twap_id i); [apply keeps_update_twap | apply keeps_ret]. }
  intros _. apply keeps_bind; [apply keeps_read_twap |]. intros tw.
  destruct (negb (Twap.active tw)); [apply keeps_ret |].
  destruct (f_leb _ _); [apply keeps_ret |].
  apply keeps_bind; [apply keeps_place_market_order |]. intros r.
  apply keeps_bind; [apply keeps_update_twap |]. intros _.
  apply keeps_bind; [apply keeps_update_twap |]. intros _.
  apply keeps_bind; [apply keeps_time_sleep |]. intros _. apply keeps_ret.
Qed.

Lemma keeps_execute_twap : keeps_twap_frame twap_id (_execute_twap env twap_id).
Proof.
  unfold _execute_twap. apply keeps_bind; [apply keeps_read_twap |]. intros tw.
  apply keeps_bind; [apply keeps_lift |]. intros n.
  apply keeps_bind; [apply keeps_lift |]. intros q.
  apply keeps_bind; [| intros _; apply keeps_update_twap].
  apply keeps_for_break. intros i. apply keeps_twap_iteration.
Qed.

End TwapIsolation.

(** X5.  From every state and however it ends, the task of one TWAP
    strategy leaves every other TWAP strategy, every grid, the OCO
    entries and the thread list exactly as they were, and queries no
    price. *)
Theorem twap_task_touches_own_strategy_only {F} `{PyFloat F} (env : Env.t F)
    (twap_id : string) (s : OrderManager.t F) :
  let s' := snd (_execute_twap env twap_id s) in
  (forall other, other <> twap_id ->
     OrderManager.twap_orders s' !! other = OrderManager.twap_orders s !! other) /\
  OrderManager.grid_orders s' = OrderManager.grid_orders s /\
  OrderManager.active_orders s' = OrderManager.active_orders s /\
  OrderManager.threads s' = OrderManager.threads s /\
  OrderManager.price_queries s' = OrderManager.price_queries s.
Proof. apply keeps_execute_twap. Qed.

(** ** Cancellation *)

Section TwapCancel.
Context {F : Type} `{PyFloat F} (env : Env.t F) (twap_id : string).

(** A loop does not get past a pass that never continues. *)
Lemma for_break_stops_at {A} (mu : OrderManager.t F -> nat) (body : A -> M F ctl) y ys :
  (forall x s, (mu (snd (body x s)) <= mu s + 1)%nat) ->
  (forall s, fst (body y s) <> Returned Continue /\ mu (snd (body y s)) = mu s) ->
  forall xs s, (mu (snd (for_break (xs ++ y :: ys) body s)) <= mu s + length xs)%nat.
Proof.
  intros Hstep Hstop. induction xs as [| x xs IH]; intros s; simpl.
  - unfold bind. destruct (Hstop s) as [Hne Hmu].
    destruct (body y s) as [[[] | e] s1]; simpl in *; try lia. now contradiction Hne.
  - unfold bind. specialize (Hstep x s).
    destruct (body x s) as [[[] | e] s1]; simpl in *; try lia.
    specialize (IH s1). lia.
Qed.

Lemma py_range_split n j :
  0 <= j < n ->
  exists rest, py_range n = (py_range j ++ j :: rest)%list /\ length (py_range j) = Z.to_nat j.
Proof.
  intros Hj. unfold py_range.
  replace (Z.to_nat n) with (Z.to_nat j + S (Z.to_nat n - S (Z.to_nat j)))%nat by lia.
  rewrite seq_app, map_app. cbn [seq map Nat.add].
  rewrite Z2Nat.id by lia.
  eexists. split; [reflexivity |]. now rewrite length_map, length_seq.
Qed.

(** A cancelled pass never continues and sends nothing. *)
Lemma twap_iteration_cancelled q j (s : OrderManager.t F) :
  Env.cancel_requested env twap_id j = true ->
  fst (twap_iteration env twap_id q j s) <> Returned Continue /\
  length (OrderManager.sent (snd (twap_iteration env twap_id q j s)))
    = length (OrderManager.sent s).
Proof.
  intros Hcancel.
  destruct (OrderManager.twap_orders s !! twap_id) as [tw |] eqn:Hlook.
  - assert (Hstop : twap_stops (twap_observed env twap_id j tw) = true).
    { unfold twap_observed, twap_stops. now rewrite Hcancel. }
    destruct (twap_iteration_break env twap_id q j s tw Hlook Hstop) as (s' & -> & Hsent & _).
    cbn [fst snd]. rewrite Hsent. split; [discriminate | reflexivity].
  - unfold twap_iteration. rewrite Hcancel.
    assert (Hupd : update_twap twap_id (Twap.set_active false) s
                   = (Returned tt, OrderManager.with_twap_orders
                        (alter (Twap.set_active false) twap_id (OrderManager.twap_orders s)) s))
      by reflexivity.
    rewrite (bind_returned _ _ _ _ _ Hupd).
    assert (Hnone : OrderManager.twap_orders
                      (OrderManager.with_twap_orders
                         (alter (Twap.set_active false) twap_id (OrderManager.twap_orders s)) s)
                    !! twap_id = None).
    { simpl. now rewrite lookup_alter_eq, Hlook. }
    rewrite (bind_raised _ _ _ _ _ (read_twap_missing _ _ Hnone)).
    cbn [fst snd]. split; [discriminate | reflexivity].
Qed.

End TwapCancel.

(** X6.  If another thread has cleared the [active] flag by the time
    iteration [j] of a strategy's loop begins, the task sends at most [j]
    requests, from whatever state it runs: iterations [j] and later
    submit nothing. *)
Theorem twap_cancellation_stops_submissions {F} `{PyFloat F} (env : Env.t F)
    (twap_id : string) (j : Z) (s : OrderManager.t F) :
  0 <= j ->
  Env.cancel_requested env twap_id j = true ->
  (length (OrderManager.sent (snd (_execute_twap env twap_id s)))
   <= length (OrderManager.sent s) + Z.to_nat j)%nat.
Proof.
  intros Hj Hcancel.
  destruct (OrderManager.twap_orders s !! twap_id) as [tw |] eqn:Hlook.
  - rewrite (execute_twap_run env twap_id s tw Hlook).
    destruct (py_floordiv _ _) as [n | e]; [| simpl; lia].
    destruct (py_truediv _ _) as [q | e]; [| simpl; lia].
    assert (Hloop : (length (OrderManager.sent (snd (twap_loop env twap_id q n s)))
                     <= length (OrderManager.sent s) + Z.to_nat j)%nat).
    { destruct (Z_lt_le_dec j n) as [Hlt | Hge].
      - destruct (py_range_split n j) as (rest & Hsplit & Hlen); [lia |].
        unfold twap_loop. rewrite Hsplit, <- Hlen.
        apply (for_break_stops_at (fun s => length (OrderManager.sent s))).
        + intros i s1. apply twap_iteration_sends_at_most_one.
        + intros s1. now apply twap_iteration_cancelled.
      - pose proof (twap_loop_sends_at_most env twap_id q n s). lia. }
    unfold bind. destruct (twap_loop env twap_id q n s) as [[[] | e] s1]; simpl in *; exact Hloop.
  - unfold _execute_twap. rewrite (bind_raised _ _ _ _ _ (read_twap_missing _ _ Hlook)).
    simpl. lia.
Qed.

Lemma twap_cancellation_stops_submissions_witness :
  let env := cancelling_at 2 (inr (Q2Qc 0)) in
  let s1 := snd (start_twap_order env "BTCUSDT" "BUY" (Q2Qc 1) 5 60 OrderManager.init) in
  (length (OrderManager.sent (snd (_execute_twap env "twap_BTCUSDT_1700000000" s1)))
   <= length (OrderManager.sent s1) + Z.to_nat 2)%nat.
Proof.
  apply (twap_cancellation_stops_submissions (cancelling_at 2 (inr (Q2Qc 0)))
           "twap_BTCUSDT_1700000000" 2).
  - lia.
  - reflexivity.
Defined.

(** ** Strategy ids *)

(** X7.  Two TWAP strategies started for the same symbol within the same
    second get the same id: the second start overwrites the first
    strategy's entry (the registry is as if only the second had been
    started), while two background tasks have been launched for that one
    id. *)
Theorem twap_id_collision {F} `{PyFloat F} (env : Env.t F) (symbol : string)
    (side1 side2 : string) (total1 total2 : F) (duration1 duration2 interval1 interval2 : Z)
    (s0 : OrderManager.t F) :
  Env.time_time env (OrderManager.clock_reads s0)
    = Env.time_time env (S (S (OrderManager.clock_reads s0))) ->
  let run1 := start_twap_order env symbol side1 total1 duration1 interval1 s0 in
  let run2 := start_twap_order env symbol side2 total2 duration2 interval2 (snd run1) in
  exists twap_id start_time,
    fst run1 = Returned twap_id /\ fst run2 = Returned twap_id /\
    OrderManager.twap_orders (snd run2) =
      <[twap_id := Twap.mk symbol side2 total2 total2 duration2 interval2 start_time [] true]>
        (OrderManager.twap_orders s0) /\
    OrderManager.threads (snd run2) = (OrderManager.threads s0 ++ [twap_id; twap_id])%list.
Proof.
  intros Hsame run1 run2. subst run2 run1.
  rewrite (start_twap_order_run env symbol side1). cbn [fst snd].
  rewrite (start_twap_order_run env symbol side2). cbn [fst snd OrderManager.clock_reads
    OrderManager.twap_orders OrderManager.threads].
  rewrite <- Hsame. eexists _, _. split; [reflexivity |]. split; [reflexivity |].
  split; [apply insert_insert_eq | now rewrite <- app_assoc].
Qed.

Lemma twap_id_collision_witness :
  let env := same_second (inr (Q2Qc 0)) in
  let run1 := start_twap_order env "BTCUSDT" "BUY" (Q2Qc 1) 5 60 OrderManager.init in
  let run2 := start_twap_order env "BTCUSDT" "SELL" (Q2Qc 2) 10 30 (snd run1) in
  exists twap_id start_time,
    fst run1 = Returned twap_id /\ fst run2 = Returned twap_id /\
    OrderManager.twap_orders (snd run2) =
      <[twap_id := Twap.mk "BTCUSDT" "SELL" (Q2Qc 2) (Q2Qc 2) 10 30 start_time [] true]>
        (OrderManager.twap_orders OrderManager.init) /\
    OrderManager.threads (snd run2) = ([] ++ [twap_id; twap_id])%list.
Proof.
  apply (twap_id_collision (same_second (inr (Q2Qc 0))) "BTCUSDT" "BUY" "SELL"
           (Q2Qc 1) (Q2Qc 2) 5 10 60 30 OrderManager.init).
  reflexivity.
Defined.

(** ** TWAP: edge cases in exact arithmetic *)

(** X8.  When the slice count [duration_minutes * 60 // interval_seconds]
    is negative (a negative interval or duration), the task of a started
    strategy returns at once: the loop body never runs, no order is
    placed, the remaining quantity is still the total, and the strategy
    is inactive. *)
Theorem twap_negative_slice_count (env : Env.t Qc) (symbol side : string) (total_quantity : Qc)
    (duration_minutes interval_seconds : Z) (s0 : OrderManager.t Qc) (n : Z) :
  py_floordiv (duration_minutes * 60) interval_seconds = Returned n ->
  n < 0 ->
  let twap_id := "twap_" ++ symbol ++ "_"
                 ++ str_int (Env.time_time env (OrderManager.clock_reads s0)) in
  let s1 := snd (start_twap_order env symbol side total_quantity
                   duration_minutes interval_seconds s0) in
  let s2 := snd (_execute_twap env twap_id s1) in
  fst (_execute_twap env twap_id s1) = Returned tt /\
  OrderManager.sent s2 = OrderManager.sent s0 /\
  twap_remaining twap_id s2 = Some total_quantity /\
  twap_quantities twap_id s2 = Some [] /\
  twap_active twap_id s2 = Some false.
Proof.
  intros Hdiv Hn twap_id s1 s2.
  destruct (start_twap_order_progress env symbol side total_quantity duration_minutes
              interval_seconds (Q2Qc 0) s0)
    as (tw & Hlook & Hdur & (_ & _ & Htot & Hitv & _ & Hqs & Hrem) & Hsent).
  fold twap_id in Hlook. fold s1 in Hlook, Hsent.
  assert (Hrun : _execute_twap env twap_id s1 =
                 (Returned tt, OrderManager.with_twap_orders
                    (alter (Twap.set_active false) twap_id (OrderManager.twap_orders s1)) s1)).
  { rewrite (execute_twap_run env twap_id s1 tw Hlook).
    rewrite Hdur, Hitv, Hdiv, Htot. rewrite (exact_truediv total_quantity n) by lia.
    unfold twap_loop, py_range. replace (Z.to_nat n) with 0%nat by lia. reflexivity. }
  assert (Hrem' : Twap.remaining_quantity tw = total_quantity).
  { rewrite Hrem. unfold exact_of_nat. qc2q. simpl (inject_Z 0). ring. }
  subst s2. rewrite Hrun. cbn [fst snd]. split; [reflexivity |]. split; [exact Hsent |].
  unfold twap_remaining, twap_quantities, twap_active.
  cbn [OrderManager.twap_orders OrderManager.with_twap_orders].
  rewrite lookup_alter_eq, Hlook. cbn [fmap option_fmap option_map Twap.set_active
    Twap.remaining_quantity Twap.orders Twap.active].
  rewrite Hqs, Hrem'. auto.
Qed.

Lemma twap_negative_slice_count_witness :
  let env := accepting_exchange (inr (Q2Qc 0)) in
  let twap_id := "twap_" ++ "BTCUSDT" ++ "_" ++ str_int 1700000000 in
  let s1 := snd (start_twap_order env "BTCUSDT" "BUY" (Q2Qc 1) 5 (-60) OrderManager.init) in
  let s2 := snd (_execute_twap env twap_id s1) in
  fst (_execute_twap env twap_id s1) = Returned tt /\
  OrderManager.sent s2 = [] /\
  twap_remaining twap_id s2 = Some (Q2Qc 1) /\
  twap_quantities twap_id s2 = Some [] /\
  twap_active twap_id s2 = Some false.
Proof.
  apply (twap_negative_slice_count (accepting_exchange (inr (Q2Qc 0))) "BTCUSDT" "BUY"
           (Q2Qc 1) 5 (-60) OrderManager.init (-5)).
  - reflexivity.
  - lia.
Defined.

Section TwapBounds.
Context (env : Env.t Qc) (twap_id : string) (total q : Qc).

Lemma exact_min_cases (rem : Qc) :
  (0 < rem)%Qc ->
  (py_min q rem = rem /\ (rem < q)%Qc) \/ (py_min q rem = q /\ (q <= rem)%Qc).
Proof.
  intros Hrem. unfold py_min. destruct (f_ltb rem q) eqn:Hlt.
  - left. split; [reflexivity | now apply exact_ltb_true].
  - right. split; [reflexivity | now apply exact_ltb_false].
Qed.

Lemma twap_iteration_bounded i (s : OrderManager.t Qc) :
  (0 <= q)%Qc -> remaining_bounded twap_id total s ->
  remaining_bounded twap_id total (snd (twap_iteration env twap_id q i s)).
Proof.
  intros Hq (tw & Hlook & Hlo & Hhi).
  destruct (twap_observed_fields env twap_id i tw) as (_ & _ & _ & Hr & _).
  destruct (twap_stops (twap_observed env twap_id i tw)) eqn:Hstop.
  - destruct (twap_iteration_break env twap_id q i s tw Hlook Hstop) as (s' & -> & _ & Hs').
    eexists. split; [exact Hs' |]. now rewrite Hr.
  - destruct (twap_iteration_submit env twap_id q i s tw Hlook Hstop) as (s' & -> & _ & Hs').
    eexists. split; [exact Hs' |]. cbn [Twap.set_remaining_quantity Twap.remaining_quantity].
    unfold twap_stops in Hstop. apply orb_false_iff in Hstop as [_ Hpos].
    apply exact_leb_false in Hpos. rewrite Hr in *.
    destruct (exact_min_cases _ Hpos) as [[-> Hlt] | [-> Hle]]; qc2q; split; lra.
Qed.

Lemma twap_iteration_positive i (s : OrderManager.t Qc) :
  quantities_positive twap_id q s ->
  quantities_positive twap_id q (snd (twap_iteration env twap_id q i s)).
Proof.
  intros (tw & Hlook & Hq & Hall).
  destruct (twap_observed_fields env twap_id i tw) as (_ & _ & _ & Hr & Ho).
  destruct (twap_stops (twap_observed env twap_id i tw)) eqn:Hstop.
  - destruct (twap_iteration_break env twap_id q i s tw Hlook Hstop) as (s' & -> & _ & Hs').
    eexists. split; [exact Hs' |]. now rewrite Hr, Ho.
  - destruct (twap_iteration_submit env twap_id q i s tw Hlook Hstop) as (s' & -> & _ & Hs').
    eexists. split; [exact Hs' |].
    cbn [Twap.set_remaining_quantity Twap.append_order Twap.remaining_quantity Twap.orders].
    unfold twap_stops in Hstop. apply orb_false_iff in Hstop as [_ Hpos].
    apply exact_leb_false in Hpos. rewrite Hr, Ho in *.
    assert (Hqpos : (0 < q)%Qc).
    { destruct Hq as [Hq | Hq]; [exact Hq |]. now apply Qcle_not_lt in Hq. }
    split; [now left |]. apply Forall_app. split; [exact Hall |].
    constructor; [| constructor]. rewrite result_of_answer_quantity.
    destruct (exact_min_cases _ Hpos) as [[-> _] | [-> _]]; assumption.
Qed.

End TwapBounds.

Lemma exact_slice_sign (total : Qc) (n : Z) :
  1 <= n ->
  ((0 <= total)%Qc -> (0 <= total / Q2Qc (inject_Z n))%Qc) /\
  ((0 < total)%Qc -> (0 < total / Q2Qc (inject_Z n))%Qc).
Proof.
  intros Hn.
  assert (HN : Q2Qc (inject_Z n) <> Q2Qc 0).
  { intros Heq. apply exact_of_int_zero_iff in Heq. lia. }
  pose proof (Qcmult_div_r total _ HN) as Hq.
  set (q := (total / Q2Qc (inject_Z n))%Qc) in *.
  assert (H1 : (1 <= inject_Z n)%Q) by (rewrite (Zle_Qle 1 n) in Hn; exact Hn).
  split; intros Ht; qc2q; nra.
Qed.

(** X9.  For a strategy started with a total quantity that is not
    negative, the remaining quantity is between 0 and the total after
    every number of passes of the loop (for any non-negative slice) and
    when the task has ended, however it ends. *)
Theorem twap_remaining_within_bounds (env : Env.t Qc) (symbol side : string)
    (total_quantity : Qc) (duration_minutes interval_seconds : Z) (s0 : OrderManager.t Qc) :
  (0 <= total_quantity)%Qc ->
  let twap_id := "twap_" ++ symbol ++ "_"
                 ++ str_int (Env.time_time env (OrderManager.clock_reads s0)) in
  let s1 := snd (start_twap_order env symbol side total_quantity
                   duration_minutes interval_seconds s0) in
  (forall q k, (0 <= q)%Qc ->
     exists r, twap_remaining twap_id (snd (twap_loop env twap_id q k s1)) = Some r /\
               (0 <= r)%Qc /\ (r <= total_quantity)%Qc) /\
  (exists r, twap_remaining twap_id (snd (_execute_twap env twap_id s1)) = Some r /\
             (0 <= r)%Qc /\ (r <= total_quantity)%Qc).
Proof.
  intros Htotal twap_id s1.
  assert (Hlook : OrderManager.twap_orders s1 !! twap_id =
                  Some (Twap.mk symbol side total_quantity total_quantity duration_minutes
                          interval_seconds
                          (Env.datetime_now env (S (OrderManager.clock_reads s0))) [] true)).
  { subst s1. rewrite start_twap_order_run. simpl. apply lookup_insert_eq. }
  assert (Hstart : remaining_bounded twap_id total_quantity s1).
  { eexists. split; [exact Hlook |]. simpl. split; [exact Htotal | apply Qcle_refl]. }
  assert (Hread : forall s, remaining_bounded twap_id total_quantity s ->
            exists r, twap_remaining twap_id s = Some r /\ (0 <= r)%Qc /\ (r <= total_quantity)%Qc).
  { intros s (tw & Hs & Hb). exists (Twap.remaining_quantity tw).
    unfold twap_remaining. now rewrite Hs. }
  assert (Hloop : forall q k, (0 <= q)%Qc ->
            remaining_bounded twap_id total_quantity (snd (twap_loop env twap_id q k s1))).
  { intros q k Hq. unfold twap_loop. apply for_break_invariant; [| exact Hstart].
    intros i s. now apply twap_iteration_bounded. }
  split; [intros q k Hq; apply Hread; now apply Hloop |].
  apply Hread. rewrite (execute_twap_run env twap_id s1 _ Hlook). simpl.
  destruct (py_floordiv _ _) as [n | e]; [| exact Hstart].
  destruct (Z.eq_dec n 0) as [-> | Hn0]; [exact Hstart |].
  rewrite (exact_truediv total_quantity n Hn0).
  assert (Hl : remaining_bounded twap_id total_quantity
                 (snd (twap_loop env twap_id (total_quantity / Q2Qc (inject_Z n))%Qc n s1))).
  { destruct (Z_lt_le_dec n 1) as [Hneg | Hpos].
    - unfold twap_loop, py_range. replace (Z.to_nat n) with 0%nat by lia. exact Hstart.
    - apply Hloop. now apply exact_slice_sign. }
  unfold bind. destruct (twap_loop env twap_id _ n s1) as [[[] | e] s2]; cbn [snd] in *;
    [| exact Hl].
  destruct Hl as (tw & Hs & Hb). exists (Twap.set_active false tw). simpl.
  rewrite lookup_alter_eq, Hs. auto.
Qed.

Lemma twap_remaining_within_bounds_witness :
  let env := rejecting_second (inr (Q2Qc 0)) in
  let twap_id := "twap_" ++ "BTCUSDT" ++ "_" ++ str_int 1700000000 in
  let s1 := snd (start_twap_order env "BTCUSDT" "BUY" (Q2Qc 1) 5 60 OrderManager.init) in
  (forall q k, (0 <= q)%Qc ->
     exists r, twap_remaining twap_id (snd (twap_loop env twap_id q k s1)) = Some r /\
               (0 <= r)%Qc /\ (r <= Q2Qc 1)%Qc) /\
  (exists r, twap_remaining twap_id (snd (_execute_twap env twap_id s1)) = Some r /\
             (0 <= r)%Qc /\ (r <= Q2Qc 1)%Qc).
Proof.
  apply (twap_remaining_within_bounds (rejecting_second (inr (Q2Qc 0))) "BTCUSDT" "BUY"
           (Q2Qc 1) 5 60 OrderManager.init).
  discriminate.
Defined.

(** ** TWAP: the sign of the quantities submitted *)

(** On binary64, a number that is below another and is not at or below
    zero is above zero: it is not a NaN. *)
Lemma binary64_guard_law (r x : float) :
  PrimFloat.ltb r x = true -> PrimFloat.leb r 0 = false -> PrimFloat.ltb 0 r = true.
Proof.
  intros Hlt Hle. rewrite ltb_spec in *. rewrite leb_spec in Hle.
  change (Prim2SF 0) with (S754_zero false) in *.
  destruct (Prim2SF r) as [[] | [] | | [] m e]; try discriminate; reflexivity.
Qed.

Lemma exact_guard_law (r x : Qc) :
  f_ltb r x = true -> f_leb r f_zero = false -> f_ltb f_zero r = true.
Proof. intros _ Hle. apply exact_ltb_true. now apply exact_leb_false in Hle. Qed.

Section TwapPositiveSlices.
Context {F : Type} `{PyFloat F} (env : Env.t F) (twap_id : string) (q : F).
Hypothesis guard_law :
  forall r x : F, f_ltb r x = true -> f_leb r f_zero = false -> f_ltb f_zero r = true.
Hypothesis slice_positive : f_ltb f_zero q = true.

(** A pass submits the slice, which is positive, or a remaining quantity
    that is below the slice and has passed the test of line 241. *)
Lemma twap_iteration_recorded_positive i (s : OrderManager.t F) :
  recorded_positive twap_id s ->
  recorded_positive twap_id (snd (twap_iteration env twap_id q i s)).
Proof.
  intros (tw & Hlook & Hall).
  destruct (twap_observed_fields env twap_id i tw) as (_ & _ & _ & Hr & Ho).
  destruct (twap_stops (twap_observed env twap_id i tw)) eqn:Hstop.
  - destruct (twap_iteration_break env twap_id q i s tw Hlook Hstop) as (s' & -> & _ & Hs').
    eexists. split; [exact Hs' |]. now rewrite Ho.
  - destruct (twap_iteration_submit env twap_id q i s tw Hlook Hstop) as (s' & -> & _ & Hs').
    eexists. split; [exact Hs' |].
    cbn [Twap.set_remaining_quantity Twap.append_order Twap.orders]. rewrite Ho.
    apply Forall_app. split; [exact Hall |]. constructor; [| constructor].
    rewrite result_of_answer_quantity.
    unfold twap_stops in Hstop. apply orb_false_iff in Hstop as [_ Hpos].
    unfold py_min.
    destruct (f_ltb (Twap.remaining_quantity (twap_observed env twap_id i tw)) q) eqn:Hlt;
      [| exact slice_positive].
    eapply guard_law; eassumption.
Qed.

Lemma twap_loop_recorded_positive k (s : OrderManager.t F) :
  recorded_positive twap_id s ->
  recorded_positive twap_id (snd (twap_loop env twap_id q k s)).
Proof.
  unfold twap_loop. apply for_break_invariant.
  intros i s1. apply twap_iteration_recorded_positive.
Qed.

End TwapPositiveSlices.

(** The task of a strategy whose computed slice is positive records
    positive quantities only. *)
Lemma execute_twap_recorded_positive {F} `{PyFloat F} (env : Env.t F) twap_id
    (s : OrderManager.t F) (tw : Twap.t F) n q :
  (forall r x : F, f_ltb r x = true -> f_leb r f_zero = false -> f_ltb f_zero r = true) ->
  OrderManager.twap_orders s !! twap_id = Some tw ->
  Twap.orders tw = [] ->
  py_floordiv (Twap.duration_minutes tw * 60) (Twap.interval_seconds tw) = Returned n ->
  py_truediv (Twap.total_quantity tw) n = Returned q ->
  f_ltb f_zero q = true ->
  recorded_positive twap_id (snd (_execute_twap env twap_id s)).
Proof.
  intros Hlaw Hlook Hnone Hdiv Hq Hpos.
  assert (Hstart : recorded_positive twap_id s).
  { exists tw. split; [exact Hlook |]. rewrite Hnone. constructor. }
  rewrite (execute_twap_run env twap_id s tw Hlook), Hdiv, Hq.
  pose proof (twap_loop_recorded_positive env twap_id q Hlaw Hpos n s Hstart) as Hloop.
  unfold bind. destruct (twap_loop env twap_id q n s) as [[[] | e] s1]; cbn [snd] in *;
    [| exact Hloop].
  destruct Hloop as (tw1 & Hlook1 & Hall). exists (Twap.set_active false tw1). simpl.
  rewrite lookup_alter_eq, Hlook1. auto.
Qed.

(** X10.  The task of a started strategy never submits an order of zero
    or negative quantity as long as the slice it computes is positive:
    every request it has sent, and every result it has recorded, has a
    positive quantity.  In exact arithmetic this holds whatever
    parameters the strategy was started with (a slice that is not
    positive comes with a total that is not positive, and then the loop
    breaks at once).  On binary64 it holds whenever the computed slice
    compares above 0.0, and not otherwise: started with the smallest
    positive float as its total and two slices, the task computes a
    slice of 0.0 and submits two orders of quantity 0.0. *)
Theorem twap_never_submits_nonpositive :
  (forall (env : Env.t Qc) (symbol side : string) (total_quantity : Qc)
          (duration_minutes interval_seconds : Z) (s0 : OrderManager.t Qc),
     let twap_id := "twap_" ++ symbol ++ "_"
                    ++ str_int (Env.time_time env (OrderManager.clock_reads s0)) in
     let s1 := snd (start_twap_order env symbol side total_quantity
                      duration_minutes interval_seconds s0) in
     let s2 := snd (_execute_twap env twap_id s1) in
     exists tw,
       OrderManager.twap_orders s2 !! twap_id = Some tw /\
       OrderManager.sent s2 =
         (OrderManager.sent s0 ++ twap_record_requests symbol side (Twap.orders tw))%list /\
       Forall (fun r => (0 < OrderResult.quantity r)%Qc) (Twap.orders tw) /\
       Forall (fun req => (0 < Request.quantity req)%Qc)
              (twap_record_requests symbol side (Twap.orders tw))) /\
  (forall (env : Env.t float) (symbol side : string) (total_quantity : float)
          (duration_minutes interval_seconds : Z) (s0 : OrderManager.t float)
          (n : Z) (quantity_per_interval : float),
     let twap_id := "twap_" ++ symbol ++ "_"
                    ++ str_int (Env.time_time env (OrderManager.clock_reads s0)) in
     let s1 := snd (start_twap_order env symbol side total_quantity
                      duration_minutes interval_seconds s0) in
     let s2 := snd (_execute_twap env twap_id s1) in
     py_floordiv (duration_minutes * 60) interval_seconds = Returned n ->
     py_truediv total_quantity n = Returned quantity_per_interval ->
     PrimFloat.ltb 0 quantity_per_interval = true ->
     exists tw,
       OrderManager.twap_orders s2 !! twap_id = Some tw /\
       OrderManager.sent s2 =
         (OrderManager.sent s0 ++ twap_record_requests symbol side (Twap.orders tw))%list /\
       Forall (fun r => PrimFloat.ltb 0 (OrderResult.quantity r) = true) (Twap.orders tw) /\
       Forall (fun req => PrimFloat.ltb 0 (Request.quantity req) = true)
              (twap_record_requests symbol side (Twap.orders tw))) /\
  (let env := accepting_exchange (inr 0%float) in
   let twap_id := "twap_BTCUSDT_1700000000" in
   let s1 := snd (start_twap_order env "BTCUSDT" "BUY" smallest_positive 2 60
                    OrderManager.init) in
   let s2 := snd (_execute_twap env twap_id s1) in
   PrimFloat.ltb 0 smallest_positive = true /\
   py_floordiv (2 * 60) 60 = Returned 2 /\
   py_truediv smallest_positive 2 = Returned 0%float /\
   fst (_execute_twap env twap_id s1) = Returned tt /\
   map (fun req => (Request.type req, Request.quantity req)) (OrderManager.sent s2)
     = [("MARKET", 0%float); ("MARKET", 0%float)] /\
   twap_quantities twap_id s2 = Some [0%float; 0%float] /\
   twap_remaining twap_id s2 = Some smallest_positive).
Proof.
  split; [| split].
  - intros env symbol side total_quantity duration_minutes interval_seconds s0 twap_id s1 s2.
    assert (Hmatch : twap_records_match twap_id symbol side (OrderManager.sent s0) s1).
    { subst s1. rewrite start_twap_order_run. eexists. simpl.
      split; [apply lookup_insert_eq |]. simpl. rewrite app_nil_r. auto. }
    destruct (execute_twap_records env twap_id symbol side _ s1 Hmatch)
      as (tw & Hlook2 & _ & _ & Hsent2 & _).
    fold s2 in Hlook2, Hsent2.
    assert (Hlook : OrderManager.twap_orders s1 !! twap_id =
                    Some (Twap.mk symbol side total_quantity total_quantity duration_minutes
                            interval_seconds
                            (Env.datetime_now env (S (OrderManager.clock_reads s0))) [] true)).
    { subst s1. rewrite start_twap_order_run. simpl. apply lookup_insert_eq. }
    assert (Hpos : exists tw', OrderManager.twap_orders s2 !! twap_id = Some tw' /\
                     Forall (fun r => (0 < OrderResult.quantity r)%Qc) (Twap.orders tw')).
    { assert (Hnone : exists tw', OrderManager.twap_orders s1 !! twap_id = Some tw' /\
                        Forall (fun r => (0 < OrderResult.quantity r)%Qc) (Twap.orders tw')).
      { eexists. split; [exact Hlook | constructor]. }
      subst s2. rewrite (execute_twap_run env twap_id s1 _ Hlook). simpl.
      destruct (py_floordiv _ _) as [n | e]; [| exact Hnone].
      destruct (Z.eq_dec n 0) as [-> | Hn0]; [exact Hnone |].
      rewrite (exact_truediv total_quantity n Hn0).
      set (q := (total_quantity / Q2Qc (inject_Z n))%Qc).
      assert (Hl : exists tw', OrderManager.twap_orders (snd (twap_loop env twap_id q n s1))
                                 !! twap_id = Some tw' /\
                     Forall (fun r => (0 < OrderResult.quantity r)%Qc) (Twap.orders tw')).
      { destruct (Z_lt_le_dec n 1) as [Hneg | Hge].
        - unfold twap_loop, py_range. replace (Z.to_nat n) with 0%nat by lia. exact Hnone.
        - assert (Hstart : quantities_positive twap_id q s1).
          { eexists. split; [exact Hlook |]. split; [| constructor]. simpl.
            destruct (Qclt_le_dec 0 total_quantity) as [Ht | Ht]; [left | now right].
            now apply exact_slice_sign. }
          pose proof (for_break_invariant (quantities_positive twap_id q)
                        (twap_iteration env twap_id q) (py_range n)
                        (fun i s => twap_iteration_positive env twap_id q i s) s1 Hstart)
            as (tw' & Hs & _ & Hall).
          exists tw'. auto. }
      unfold bind. destruct (twap_loop env twap_id q n s1) as [[[] | e] s3]; cbn [snd] in *;
        [| exact Hl].
      destruct Hl as (tw' & Hs & Hall). exists (Twap.set_active false tw'). simpl.
      rewrite lookup_alter_eq, Hs. auto. }
    destruct Hpos as (tw' & Hlook' & Hall). rewrite Hlook2 in Hlook'. injection Hlook' as <-.
    exists tw. split; [exact Hlook2 |]. split; [exact Hsent2 |]. split; [exact Hall |].
    unfold twap_record_requests. apply Forall_map. exact Hall.
  - intros env symbol side total_quantity duration_minutes interval_seconds s0 n q
           twap_id s1 s2 Hdiv Hq Hpos.
    assert (Hmatch : twap_records_match twap_id symbol side (OrderManager.sent s0) s1).
    { subst s1. rewrite start_twap_order_run. eexists. simpl.
      split; [apply lookup_insert_eq |]. simpl. rewrite app_nil_r. auto. }
    destruct (execute_twap_records env twap_id symbol side _ s1 Hmatch)
      as (tw & Hlook2 & _ & _ & Hsent2 & _).
    fold s2 in Hlook2, Hsent2.
    assert (Hlook : OrderManager.twap_orders s1 !! twap_id =
                    Some (Twap.mk symbol side total_quantity total_quantity duration_minutes
                            interval_seconds
                            (Env.datetime_now env (S (OrderManager.clock_reads s0))) [] true)).
    { subst s1. rewrite start_twap_order_run. simpl. apply lookup_insert_eq. }
    destruct (@execute_twap_recorded_positive float binary64_float env twap_id s1 _ n q
                binary64_guard_law Hlook
                eq_refl Hdiv Hq Hpos) as (tw' & Hlook' & Hall).
    fold s2 in Hlook'. rewrite Hlook2 in Hlook'. injection Hlook' as <-.
    exists tw. split; [exact Hlook2 |]. split; [exact Hsent2 |]. split; [exact Hall |].
    unfold twap_record_requests. apply Forall_map. exact Hall.
  - vm_compute. repeat split.
Qed.

Lemma twap_never_submits_nonpositive_witness :
  let env := accepting_exchange (inr 0%float) in
  let twap_id := "twap_" ++ "BTCUSDT" ++ "_" ++ str_int 1700000000 in
  let s1 := snd (start_twap_order env "BTCUSDT" "BUY" 1%float 5 60 OrderManager.init) in
  let s2 := snd (_execute_twap env twap_id s1) in
  exists tw,
    OrderManager.twap_orders s2 !! twap_id = Some tw /\
    OrderManager.sent s2 =
      ([] ++ twap_record_requests "BTCUSDT" "BUY" (Twap.orders tw))%list /\
    Forall (fun r => PrimFloat.ltb 0 (OrderResult.quantity r) = true) (Twap.orders tw) /\
    Forall (fun req => PrimFloat.ltb 0 (Request.quantity req) = true)
           (twap_record_requests "BTCUSDT" "BUY" (Twap.orders tw)).
Proof.
  apply (proj1 (proj2 twap_never_submits_nonpositive) (accepting_exchange (inr 0%float))
           "BTCUSDT" "BUY" 1%float 5 60 OrderManager.init 5 (1 / 5)%float).
  - reflexivity.
  - reflexivity.
  - reflexivity.
Defined.

(** ** TWAP: when every slice is rejected *)

Section TwapAllRejected.
Context {F : Type} `{PyFloat F} (env : Env.t F) (twap_id : string) (total : F).
Hypothesis rejects : forall history req, accepted (Env.futures_create_order env history req) = false.

Lemma remaining_after_app (records : list (OrderResult.t F)) (r : OrderResult.t F) :
  remaining_after total (records ++ [r])
  = f_sub (remaining_after total records) (OrderResult.quantity r).
Proof. unfold remaining_after. now rewrite map_app, fold_left_app. Qed.

Lemma twap_iteration_rejections_consumed q i (s : OrderManager.t F) :
  rejections_consumed twap_id total s ->
  rejections_consumed twap_id total (snd (twap_iteration env twap_id q i s)).
Proof.
  intros (tw & Hlook & Hall & Hrem).
  destruct (twap_observed_fields env twap_id i tw) as (_ & _ & _ & Hr & Ho).
  destruct (twap_stops (twap_observed env twap_id i tw)) eqn:Hstop.
  - destruct (twap_iteration_break env twap_id q i s tw Hlook Hstop) as (s' & -> & _ & Hs').
    eexists. split; [exact Hs' |]. now rewrite Hr, Ho.
  - destruct (twap_iteration_submit env twap_id q i s tw Hlook Hstop) as (s' & -> & _ & Hs').
    eexists. split; [exact Hs' |].
    cbn [Twap.set_remaining_quantity Twap.append_order Twap.orders Twap.remaining_quantity].
    rewrite Ho, Hr. split.
    + apply Forall_app. split; [exact Hall |]. constructor; [| constructor].
      match goal with
      | |- context [result_of_answer ?a ?b ?c ?d ?e ?f ?g] =>
          destruct (result_of_answer_refused a b c d e f g (rejects _ _)) as (msg & ->)
      end.
      auto.
    + now rewrite remaining_after_app, result_of_answer_quantity, Hrem.
Qed.

Lemma execute_twap_rejections_consumed (s : OrderManager.t F) :
  rejections_consumed twap_id total s ->
  rejections_consumed twap_id total (snd (_execute_twap env twap_id s)).
Proof.
  intros Hs. pose proof Hs as (tw & Hlook & _).
  rewrite (execute_twap_run env twap_id s tw Hlook).
  destruct (py_floordiv _ _) as [n | e]; [| exact Hs].
  destruct (py_truediv _ _) as [q | e]; [| exact Hs].
  pose proof (for_break_invariant (rejections_consumed twap_id total)
                (twap_iteration env twap_id q) (py_range n)
                (fun i s1 => twap_iteration_rejections_consumed q i s1) s Hs) as Hloop.
  fold (twap_loop env twap_id q n) in Hloop. unfold bind.
  destruct (twap_loop env twap_id q n s) as [[[] | e] s1]; cbn [snd] in *; [| exact Hloop].
  destruct Hloop as (tw1 & Hlook1 & Hrest).
  exists (Twap.set_active false tw1). simpl.
  rewrite lookup_alter_eq, Hlook1. auto.
Qed.

End TwapAllRejected.

(** X11.  When the exchange rejects every order of a started strategy,
    then in any arithmetic, binary64 included, and however the task
    ends: every result recorded is FAILED with an empty order id, one
    for each request sent, and yet the quantity of every one of them has
    been taken off the remaining quantity, which is the total minus the
    rejected quantities.  In exact arithmetic, with a slice count [n >=
    1], a positive total, nobody cancelling and an interval that
    [time.sleep] accepts, the task runs to its end: [n] rejections, a
    remaining quantity of 0, the strategy inactive.  On binary64, for a
    total of 1.0 over 5 slices, it also ends with 5 rejections and the
    strategy inactive, the remaining quantity being the rounding residue
    [2^-54]. *)
Theorem twap_rejected_slices_consume_quantity :
  (forall (F : Type) (PF : PyFloat F) (env : Env.t F) (symbol side : string)
          (total_quantity : F) (duration_minutes interval_seconds : Z)
          (s0 : OrderManager.t F),
     let twap_id := "twap_" ++ symbol ++ "_"
                    ++ str_int (Env.time_time env (OrderManager.clock_reads s0)) in
     let s1 := snd (start_twap_order env symbol side total_quantity
                      duration_minutes interval_seconds s0) in
     let s2 := snd (_execute_twap env twap_id s1) in
     (forall history req, accepted (Env.futures_create_order env history req) = false) ->
     exists tw,
       OrderManager.twap_orders s2 !! twap_id = Some tw /\
       OrderManager.sent s2 =
         (OrderManager.sent s0 ++ twap_record_requests symbol side (Twap.orders tw))%list /\
       Forall (fun r => OrderResult.status r = "FAILED" /\ OrderResult.order_id r = "")
              (Twap.orders tw) /\
       Twap.remaining_quantity tw = remaining_after total_quantity (Twap.orders tw)) /\
  (forall (env : Env.t Qc) (symbol side : string) (total_quantity : Qc)
          (duration_minutes interval_seconds : Z) (s0 : OrderManager.t Qc) (n : Z),
     let twap_id := "twap_" ++ symbol ++ "_"
                    ++ str_int (Env.time_time env (OrderManager.clock_reads s0)) in
     let s1 := snd (start_twap_order env symbol side total_quantity
                      duration_minutes interval_seconds s0) in
     let s2 := snd (_execute_twap env twap_id s1) in
     (forall history req, accepted (Env.futures_create_order env history req) = false) ->
     py_floordiv (duration_minutes * 60) interval_seconds = Returned n ->
     1 <= n ->
     (forall i, Env.cancel_requested env twap_id i = false) ->
     (0 < total_quantity)%Qc ->
     sleep_outcome env interval_seconds = Returned tt ->
     fst (_execute_twap env twap_id s1) = Returned tt /\
     twap_remaining twap_id s2 = Some (Q2Qc 0) /\
     twap_active twap_id s2 = Some false /\
     exists tw,
       OrderManager.twap_orders s2 !! twap_id = Some tw /\
       length (Twap.orders tw) = Z.to_nat n /\
       Forall (fun r => OrderResult.status r = "FAILED" /\ OrderResult.order_id r = "")
              (Twap.orders tw)) /\
  (let env := rejecting_exchange (inr 0%float) in
   let twap_id := "twap_BTCUSDT_1700000000" in
   let s1 := snd (start_twap_order env "BTCUSDT" "BUY" 1%float 5 60 OrderManager.init) in
   let s2 := snd (_execute_twap env twap_id s1) in
   let records := default [] (Twap.orders <$> OrderManager.twap_orders s2 !! twap_id) in
   fst (_execute_twap env twap_id s1) = Returned tt /\
   map OrderResult.status records = ["FAILED"; "FAILED"; "FAILED"; "FAILED"; "FAILED"] /\
   twap_remaining twap_id s2 = Some (Z.ldexp 1 (-54)) /\
   twap_active twap_id s2 = Some false).
Proof.
  split; [| split].
  - intros F PF env symbol side total_quantity duration_minutes interval_seconds s0
           twap_id s1 s2 Hrej.
    assert (Hlook : OrderManager.twap_orders s1 !! twap_id =
                    Some (Twap.mk symbol side total_quantity total_quantity duration_minutes
                            interval_seconds
                            (Env.datetime_now env (S (OrderManager.clock_reads s0))) [] true)).
    { subst s1. rewrite start_twap_order_run. simpl. apply lookup_insert_eq. }
    assert (Hmatch : twap_records_match twap_id symbol side (OrderManager.sent s0) s1).
    { subst s1. rewrite start_twap_order_run. eexists. simpl.
      split; [apply lookup_insert_eq |]. simpl. rewrite app_nil_r. auto. }
    destruct (execute_twap_records env twap_id symbol side _ s1 Hmatch)
      as (tw & Hlook2 & _ & _ & Hsent2 & _).
    fold s2 in Hlook2, Hsent2.
    assert (Hstart : rejections_consumed twap_id total_quantity s1).
    { eexists. split; [exact Hlook |]. split; [constructor | reflexivity]. }
    destruct (execute_twap_rejections_consumed env twap_id total_quantity Hrej s1 Hstart)
      as (tw' & Hlook' & Hall & Hrem).
    fold s2 in Hlook'. rewrite Hlook2 in Hlook'. injection Hlook' as <-.
    exists tw. auto.
  - intros env symbol side total_quantity duration_minutes interval_seconds s0 n
           twap_id s1 s2 Hrej Hdiv Hn Hcancel Htotal Hsleep.
    destruct (twap_equal_slices env symbol side total_quantity duration_minutes
                interval_seconds s0 n Hdiv Hn Hcancel Htotal Hsleep)
      as [_ (Hret & Hrem & Hqs & Hact & _)].
    fold twap_id s1 s2 in Hret, Hrem, Hqs, Hact.
    split; [exact Hret |]. split; [exact Hrem |]. split; [exact Hact |].
    assert (Hlook : OrderManager.twap_orders s1 !! twap_id =
                    Some (Twap.mk symbol side total_quantity total_quantity duration_minutes
                            interval_seconds
                            (Env.datetime_now env (S (OrderManager.clock_reads s0))) [] true)).
    { subst s1. rewrite start_twap_order_run. simpl. apply lookup_insert_eq. }
    assert (Hstart : rejections_consumed twap_id total_quantity s1).
    { eexists. split; [exact Hlook |]. split; [constructor | reflexivity]. }
    destruct (execute_twap_rejections_consumed env twap_id total_quantity Hrej s1 Hstart)
      as (tw & Hlook2 & Hall & _).
    fold s2 in Hlook2. exists tw.
    split; [exact Hlook2 |]. split; [| exact Hall].
    unfold twap_quantities in Hqs. rewrite Hlook2 in Hqs. injection Hqs as Hqs.
    rewrite <- (length_map OrderResult.quantity), Hqs. apply repeat_length.
  - vm_compute. repeat split.
Qed.

Lemma twap_rejected_slices_consume_quantity_witness :
  let env := rejecting_exchange (inr (Q2Qc 0)) in
  let twap_id := "twap_" ++ "BTCUSDT" ++ "_" ++ str_int 1700000000 in
  let s1 := snd (start_twap_order env "BTCUSDT" "BUY" (Q2Qc 1) 5 60 OrderManager.init) in
  let s2 := snd (_execute_twap env twap_id s1) in
  fst (_execute_twap env twap_id s1) = Returned tt /\
  twap_remaining twap_id s2 = Some (Q2Qc 0) /\
  twap_active twap_id s2 = Some false /\
  exists tw,
    OrderManager.twap_orders s2 !! twap_id = Some tw /\
    length (Twap.orders tw) = Z.to_nat 5 /\
    Forall (fun r => OrderResult.status r = "FAILED" /\ OrderResult.order_id r = "")
           (Twap.orders tw).
Proof.
  apply (proj1 (proj2 twap_rejected_slices_consume_quantity)
           (rejecting_exchange (inr (Q2Qc 0))) "BTCUSDT" "BUY" (Q2Qc 1) 5 60
           OrderManager.init 5).
  - reflexivity.
  - reflexivity.
  - lia.
  - reflexivity.
  - reflexivity.
  - reflexivity.
Defined.

(** ** Grid: degenerate level counts *)

(** X12.  With [grid_levels = 1] the step is a division by zero:
    [start_grid_strategy] raises [ZeroDivisionError] before the price is
    queried; no grid is registered and no order placed.  This holds in
    exact arithmetic and on binary64. *)
Theorem grid_single_level_raises :
  (forall (env : Env.t Qc) (symbol : string) (lower_price upper_price quantity_per_level : Qc)
          (s0 : OrderManager.t Qc),
     let run := start_grid_strategy env symbol lower_price upper_price 1 quantity_per_level s0 in
     fst run = Raised ZeroDivisionError /\
     OrderManager.grid_orders (snd run) = OrderManager.grid_orders s0 /\
     OrderManager.sent (snd run) = OrderManager.sent s0 /\
     OrderManager.price_queries (snd run) = OrderManager.price_queries s0) /\
  (forall (env : Env.t float) (symbol : string)
          (lower_price upper_price quantity_per_level : float) (s0 : OrderManager.t float),
     let run := start_grid_strategy env symbol lower_price upper_price 1 quantity_per_level s0 in
     fst run = Raised ZeroDivisionError /\
     OrderManager.grid_orders (snd run) = OrderManager.grid_orders s0 /\
     OrderManager.sent (snd run) = OrderManager.sent s0 /\
     OrderManager.price_queries (snd run) = OrderManager.price_queries s0).
Proof. split; intros; repeat split. Qed.

(** X13.  In exact arithmetic, with [grid_levels <= 0] the call succeeds:
    it queries the price once and registers an active grid that has no
    levels and no orders, and it places no order. *)
Theorem grid_without_levels (env : Env.t Qc) (symbol : string)
    (lower_price upper_price : Qc) (grid_levels : Z) (quantity_per_level : Qc)
    (s0 : OrderManager.t Qc) :
  grid_levels <= 0 ->
  let grid_id := "grid_" ++ symbol ++ "_"
                 ++ str_int (Env.time_time env (OrderManager.clock_reads s0)) in
  exists s',
    start_grid_strategy env symbol lower_price upper_price grid_levels quantity_per_level s0
      = (Returned grid_id, s') /\
    OrderManager.grid_orders s' !! grid_id =
      Some (Grid.mk symbol lower_price upper_price grid_levels quantity_per_level
              [] [] [] true) /\
    OrderManager.sent s' = OrderManager.sent s0 /\
    OrderManager.price_queries s' = S (OrderManager.price_queries s0).
Proof.
  intros Hn grid_id.
  destruct (start_grid_strategy_exact env symbol lower_price upper_price grid_levels
              quantity_per_level s0) as (s' & Hrun & Hsent & Hprice & Hlook); [lia |].
  rewrite (exact_levels_nonpositive _ _ _ Hn) in Hsent, Hlook. cbn in Hsent, Hlook.
  rewrite app_nil_r in Hsent.
  exists s'. auto.
Qed.

Lemma grid_without_levels_witness :
  let env := accepting_exchange (inr (Q2Qc 2000)) in
  let grid_id := "grid_" ++ "ETHUSDT" ++ "_" ++ str_int 1700000000 in
  exists s',
    start_grid_strategy env "ETHUSDT" (Q2Qc 1800) (Q2Qc 2200) 0 (Q2Qc (1 # 10))
      OrderManager.init = (Returned grid_id, s') /\
    OrderManager.grid_orders s' !! grid_id =
      Some (Grid.mk "ETHUSDT" (Q2Qc 1800) (Q2Qc 2200) 0 (Q2Qc (1 # 10)) [] [] [] true) /\
    OrderManager.sent s' = [] /\
    OrderManager.price_queries s' = 1%nat.
Proof.
  apply (grid_without_levels (accepting_exchange (inr (Q2Qc 2000))) "ETHUSDT"
           (Q2Qc 1800) (Q2Qc 2200) 0 (Q2Qc (1 # 10)) OrderManager.init).
  lia.
Defined.

(** ** Grid: when every level is rejected *)

Lemma grid_results_all_rejected {F} (env : Env.t F) symbol side (quantity : F) prices :
  (forall history req, accepted (Env.futures_create_order env history req) = false) ->
  forall history clock,
    List.filter not_failed (grid_results env symbol side quantity prices history clock) = [].
Proof.
  intros Hrej. induction prices as [| p ps IH]; intros history clock; [reflexivity |].
  cbn [grid_results List.filter].
  destruct (result_of_answer_refused symbol side "LIMIT" quantity (Some p) _
              (Env.datetime_now env clock) (Hrej history (limit_request symbol side quantity p)))
    as (msg & ->).
  cbn. apply IH.
Qed.

(** X14.  In exact arithmetic, when the exchange rejects every order of a
    grid ([grid_levels] not 1), [start_grid_strategy] still returns the
    strategy id and registers the grid as active: one request per level
    has been sent, and the grid has no resting order at all. *)
Theorem grid_all_levels_rejected (env : Env.t Qc) (symbol : string)
    (lower_price upper_price : Qc) (grid_levels : Z) (quantity_per_level : Qc)
    (s0 : OrderManager.t Qc) :
  (forall history req, accepted (Env.futures_create_order env history req) = false) ->
  grid_levels <> 1 ->
  let grid_id := "grid_" ++ symbol ++ "_"
                 ++ str_int (Env.time_time env (OrderManager.clock_reads s0)) in
  exists g s',
    start_grid_strategy env symbol lower_price upper_price grid_levels quantity_per_level s0
      = (Returned grid_id, s') /\
    OrderManager.grid_orders s' !! grid_id = Some g /\
    Grid.active g = true /\
    Grid.active_orders g = [] /\
    length (OrderManager.sent s') = (length (OrderManager.sent s0) + Z.to_nat grid_levels)%nat.
Proof.
  intros Hrej Hn grid_id.
  destruct (start_grid_strategy_exact env symbol lower_price upper_price grid_levels
              quantity_per_level s0 Hn) as (s' & Hrun & Hsent & _ & Hlook).
  eexists _, s'. split; [exact Hrun |]. split; [exact Hlook |]. split; [reflexivity |].
  cbn [Grid.active_orders]. split.
  - rewrite List.filter_app, !grid_results_all_rejected by exact Hrej. reflexivity.
  - rewrite Hsent, !length_app, !length_map, <- length_app.
    rewrite (Permutation_length (filter_partition_permutation _ _)).
    unfold exact_levels. now rewrite length_map, length_py_range.
Qed.

Lemma grid_all_levels_rejected_witness :
  let env := rejecting_exchange (inr (Q2Qc 2000)) in
  let grid_id := "grid_" ++ "ETHUSDT" ++ "_" ++ str_int 1700000000 in
  exists g s',
    start_grid_strategy env "ETHUSDT" (Q2Qc 1800) (Q2Qc 2200) 5 (Q2Qc (1 # 10))
      OrderManager.init = (Returned grid_id, s') /\
    OrderManager.grid_orders s' !! grid_id = Some g /\
    Grid.active g = true /\
    Grid.active_orders g = [] /\
    length (OrderManager.sent s') = (length (@OrderManager.sent Qc OrderManager.init)
                                     + Z.to_nat 5)%nat.
Proof.
  apply (grid_all_levels_rejected (rejecting_exchange (inr (Q2Qc 2000))) "ETHUSDT"
           (Q2Qc 1800) (Q2Qc 2200) 5 (Q2Qc (1 # 10)) OrderManager.init).
  - reflexivity.
  - lia.
Defined.

(** ** OCO: what is returned and what is stored *)

(** X15.  The result of [place_oco_order] is always typed LIMIT, never
    OCO, and carries the limit price.  When it is not FAILED, looking up
    its order id in [active_orders] gives the entry with the stop prices
    and every other key is as before; when the submission was refused,
    the order id is empty and [active_orders] is unchanged. *)
Theorem oco_result_and_metadata {F} `{PyFloat F} (env : Env.t F) (symbol side : string)
    (quantity price stop_price stop_limit_price : F) (s : OrderManager.t F) :
  let answer := Env.futures_create_order env (OrderManager.sent s)
                  (limit_request symbol side quantity price) in
  exists r s',
    place_oco_order env symbol side quantity price stop_price stop_limit_price s
      = (Returned r, s') /\
    OrderResult.order_type r = "LIMIT" /\
    OrderResult.price r = Some price /\
    (if not_failed r
     then OrderManager.active_orders s' !! OrderResult.order_id r =
            Some (Oco.mk "OCO" stop_price stop_limit_price symbol side quantity) /\
          forall other, other <> OrderResult.order_id r ->
            OrderManager.active_orders s' !! other = OrderManager.active_orders s !! other
     else OrderManager.active_orders s' = OrderManager.active_orders s) /\
    (if accepted answer then True
     else OrderResult.order_id r = "" /\
          OrderManager.active_orders s' = OrderManager.active_orders s).
Proof.
  intros answer.
  pose proof (place_limit_order_run env symbol side quantity price s) as Hlimit.
  fold answer in Hlimit.
  set (r := result_of_answer _ _ _ _ _ _ _) in Hlimit.
  set (s1 := after_submit _ s) in Hlimit.
  exists r.
  exists (if not_failed r
          then OrderManager.with_active_orders
                 (<[OrderResult.order_id r :=
                      Oco.mk "OCO" stop_price stop_limit_price symbol side quantity]>
                    (OrderManager.active_orders s1)) s1
          else s1).
  split.
  { unfold place_oco_order, try_except, bind at 1. rewrite Hlimit.
    unfold bind, modify, ret. now destruct (not_failed r). }
  split; [apply result_of_answer_order_type |].
  split; [subst r; now destruct answer as [e | [[oid |] [st |]]] |].
  split.
  - destruct (not_failed r); [| reflexivity]. simpl. split.
    + apply lookup_insert_eq.
    + intros other Hother. now apply lookup_insert_ne.
  - destruct (accepted answer) eqn:Hacc; [exact I |].
    destruct (result_of_answer_refused symbol side "LIMIT" quantity (Some price) answer
                (Env.datetime_now env (OrderManager.clock_reads s)) Hacc) as (msg & Hr).
    fold r in Hr. rewrite Hr. simpl. auto.
Qed.

(** ** The stop order *)

(** X16.  [place_stop_limit_order] never raises, whatever the client call
    does: it returns a result typed STOP_MARKET whose price is the stop
    price, FAILED with an empty id and a message when the call raised or
    its answer lacked a key, with a non-empty id and no message
    otherwise.  The call it makes is a STOP_MARKET request with
    [stopPrice = stop_price]; the [limit_price] argument reaches neither
    the request nor the result. *)
Theorem stop_order_never_raises_and_ignores_limit {F} `{PyFloat F} (env : Env.t F)
    (create_stop_order : StopRequest.t F -> M F OrderDict.t) (symbol side : string)
    (quantity stop_price limit_price : F) (s : OrderManager.t F) :
  let req := StopRequest.mk symbol side "STOP_MARKET" quantity stop_price "GTC" in
  let answer := answer_of_outcome (fst (create_stop_order req s)) in
  let run := place_stop_limit_order env create_stop_order symbol side quantity
               stop_price limit_price s in
  submitter_contract answer run /\
  (exists r, fst run = Returned r /\
             OrderResult.order_type r = "STOP_MARKET" /\
             OrderResult.price r = Some stop_price /\
             OrderResult.quantity r = quantity) /\
  snd run = OrderManager.tick_clock (snd (create_stop_order req s)) /\
  (forall other_limit,
     place_stop_limit_order env create_stop_order symbol side quantity stop_price other_limit s
     = run).
Proof.
  intros req answer run.
  assert (Hrun : run = (Returned (result_of_answer symbol side "STOP_MARKET" quantity
                                    (Some stop_price) answer
                                    (Env.datetime_now env
                                       (OrderManager.clock_reads (snd (create_stop_order req s))))),
                        OrderManager.tick_clock (snd (create_stop_order req s)))).
  { subst run answer. unfold place_stop_limit_order, try_except, bind at 1. fold req.
    destruct (create_stop_order req s) as [[[[oid |] [st |]] | e] s1]; reflexivity. }
  rewrite Hrun. cbn [fst snd].
  split; [apply result_of_answer_contract |]. split; [| split; [reflexivity |]].
  - eexists. split; [reflexivity |].
    split; [apply result_of_answer_order_type |].
    split; [now destruct answer as [e | [[oid |] [st |]]] | apply result_of_answer_quantity].
  - intros other_limit. rewrite <- Hrun. reflexivity.
Qed.

(** ** The client's queries *)

Lemma trading_symbols_returned (entries : list SymbolInfo.t) :
  Forall readable_entry entries ->
  exists symbols,
    trading_symbols entries = Returned symbols /\
    forall x, In x symbols <-> In (SymbolInfo.mk (Some x) (Some "TRADING")) entries.
Proof.
  induction 1 as [| [sym st] rest (st' & Hst & Hsym) _ (symbols & Hrest & Hin)].
  - exists []. split; [reflexivity |]. intros x. reflexivity.
  - simpl in Hst, Hsym. subst st. cbn [trading_symbols SymbolInfo.status SymbolInfo.symbol
      outcome_get outcome_bind].
    destruct (String.eqb st' "TRADING") eqn:Htr.
    + apply String.eqb_eq in Htr. subst st'. destruct (Hsym eq_refl) as [name ->].
      cbn [outcome_get outcome_bind]. rewrite Hrest. cbn [outcome_bind].
      exists (name :: symbols). split; [reflexivity |]. intros x. simpl. rewrite Hin.
      split; (intros [Hx | Hx]; [left | now right]); congruence.
    + exists symbols. split; [exact Hrest |]. intros x. rewrite Hin. simpl.
      split; [now right |]. intros [Hx | Hx]; [| exact Hx].
      apply String.eqb_neq in Htr. congruence.
Qed.

Lemma trading_symbols_raised (entries : list SymbolInfo.t) :
  ~ Forall readable_entry entries -> exists e, trading_symbols entries = Raised e.
Proof.
  induction entries as [| [sym st] rest IH]; intros Hbad; [now contradiction Hbad |].
  cbn [trading_symbols SymbolInfo.status SymbolInfo.symbol].
  destruct st as [st |]; cbn [outcome_get outcome_bind]; [| eauto].
  destruct (String.eqb st "TRADING") eqn:Htr.
  - destruct sym as [name |]; cbn [outcome_get outcome_bind]; [| eauto].
    destruct IH as [e ->]; [| cbn; eauto].
    intros Hrest. apply Hbad. constructor; [| exact Hrest].
    exists st. simpl. eauto.
  - apply IH. intros Hrest. apply Hbad. constructor; [| exact Hrest].
    exists st. simpl. split; [reflexivity |]. intros ->. discriminate.
Qed.

Lemma classic_forall_readable (entries : list SymbolInfo.t) :
  Forall readable_entry entries \/ ~ Forall readable_entry entries.
Proof.
  induction entries as [| [sym st] rest [IH | IH]].
  - left. constructor.
  - destruct st as [st |].
    + destruct (String.eqb st "TRADING") eqn:Htr.
      * destruct sym as [name |].
        -- left. constructor; [| exact IH]. exists st. simpl. eauto.
        -- right. intros Hall. inversion Hall as [| ? ? (st' & Hst & Hsym) _]; subst.
           simpl in *. injection Hst as <-. apply String.eqb_eq in Htr.
           destruct (Hsym Htr) as [? ?]. discriminate.
      * left. constructor; [| exact IH]. exists st. simpl. split; [reflexivity |].
        intros ->. discriminate.
    + right. intros Hall. inversion Hall as [| ? ? (st' & Hst & _) _]; subst. discriminate.
  - right. intros Hall. inversion Hall; subst. now apply IH.
Qed.

(** X17.  [validate_symbol] never raises.  It returns [True] exactly when
    the client answered with a [symbols] list every entry of which can be
    read (it has a status, and a symbol if the status is TRADING) and
    which lists the upper-cased symbol with status TRADING; a client
    exception, a missing key or a single unreadable entry gives
    [False], even if the symbol is listed. *)
Theorem validate_symbol_true_iff (upper : string -> string)
    (get_exchange_info : exn + ExchangeInfo.t) (symbol : string) :
  exists b,
    validate_symbol upper get_exchange_info symbol = Returned b /\
    (b = true <->
     exists entries,
       get_exchange_info = inr (ExchangeInfo.mk (Some entries)) /\
       Forall readable_entry entries /\
       In (SymbolInfo.mk (Some (upper symbol)) (Some "TRADING")) entries).
Proof.
  unfold validate_symbol.
  destruct get_exchange_info as [e | [[entries |]]]; cbn [outcome_bind outcome_try
    ExchangeInfo.symbols outcome_get].
  - exists false. split; [reflexivity |]. split; [discriminate |].
    intros (entries & Heq & _). discriminate.
  - destruct (classic_forall_readable entries) as [Hall | Hbad].
    + destruct (trading_symbols_returned entries Hall) as (symbols & -> & Hin).
      cbn [outcome_bind outcome_try]. eexists. split; [reflexivity |].
      rewrite bool_decide_eq_true, list_elem_of_In, Hin. split.
      * intros Hlisted. exists entries. auto.
      * intros (entries' & Heq & _ & Hlisted). injection Heq as <-. exact Hlisted.
    + destruct (trading_symbols_raised entries Hbad) as (e & ->).
      cbn [outcome_bind outcome_try]. exists false. split; [reflexivity |].
      split; [discriminate |]. intros (entries' & Heq & Hall & _).
      injection Heq as <-. now contradiction Hbad.
  - exists false. split; [reflexivity |]. split; [discriminate |].
    intros (entries & Heq & _). discriminate.
Qed.

Section Balances.
Context {F : Type}.

Lemma balance_dict_returned (items : list (BalanceItem.t F)) :
  Forall readable_item items ->
  forall built, exists m,
    balance_dict items built = Returned m /\
    (forall a, (forall item, In item items -> BalanceItem.asset item <> Some a) ->
               m !! a = built !! a) /\
    (forall a b before after,
       items = (before ++ BalanceItem.mk (Some a) (Returned b) :: after)%list ->
       (forall item, In item after -> BalanceItem.asset item <> Some a) ->
       m !! a = Some b).
Proof.
  induction 1 as [| [asset balance] rest ([k Hk] & b0 & Hb) _ IH]; intros built.
  - exists built. split; [reflexivity |]. split; [reflexivity |].
    intros a b before after Heq. now destruct before.
  - simpl in Hk, Hb. subst asset balance.
    cbn [balance_dict BalanceItem.asset BalanceItem.balance outcome_get outcome_bind].
    destruct (IH (<[k := b0]> built)) as (m & Hrun & Hfresh & Hlast).
    exists m. split; [exact Hrun |]. split.
    + intros a Hnone. rewrite Hfresh.
      * apply lookup_insert_ne. intros ->. now apply (Hnone _ (or_introl eq_refl)).
      * intros item Hitem. apply Hnone. now right.
    + intros a b before after Heq Hafter. destruct before as [| first before].
      * simpl in Heq. injection Heq as -> -> ->.
        rewrite (Hfresh a Hafter). apply lookup_insert_eq.
      * simpl in Heq. injection Heq as _ Heq. eapply Hlast; eassumption.
Qed.

Lemma balance_dict_raised (items : list (BalanceItem.t F)) bad :
  In bad items -> ~ readable_item bad ->
  forall built, exists e, balance_dict items built = Raised e.
Proof.
  intros Hin Hbad. induction items as [| [asset balance] rest IH]; intros built;
    [now destruct Hin |].
  cbn [balance_dict BalanceItem.asset BalanceItem.balance].
  destruct asset as [k |]; cbn [outcome_get outcome_bind]; [| eauto].
  destruct balance as [b | e]; cbn [outcome_bind]; [| eauto].
  destruct Hin as [<- | Hin]; [| now apply IH].
  contradiction Hbad. split; simpl; eauto.
Qed.

End Balances.

(** X18.  [get_account_balance] never raises.  When every item of the
    client's answer can be read, the dictionary it returns maps each
    asset to the balance of the last item naming it, and holds no other
    asset; when the client raised, or a single item lacks its asset or
    its balance does not convert, the result is the empty dictionary:
    all balances are dropped. *)
Theorem account_balance_last_wins_or_empty {F}
    (futures_account_balance : exn + list (BalanceItem.t F)) :
  exists m,
    get_account_balance futures_account_balance = Returned m /\
    match futures_account_balance with
    | inl _ => m = ∅
    | inr items =>
        (Forall readable_item items ->
         (forall a b before after,
            items = (before ++ BalanceItem.mk (Some a) (Returned b) :: after)%list ->
            (forall item, In item after -> BalanceItem.asset item <> Some a) ->
            m !! a = Some b) /\
         (forall a, (forall item, In item items -> BalanceItem.asset item <> Some a) ->
                    m !! a = None)) /\
        (forall bad, In bad items -> ~ readable_item bad -> m = ∅)
    end.
Proof.
  unfold get_account_balance.
  destruct futures_account_balance as [e | items]; cbn [outcome_bind outcome_try].
  - exists ∅. auto.
  - destruct (balance_dict items ∅) as [m | e] eqn:Hrun; cbn [outcome_try].
    + exists m. split; [reflexivity |]. split.
      * intros Hall. destruct (balance_dict_returned items Hall ∅) as (m' & Hrun' & Hfresh & Hlast).
        rewrite Hrun in Hrun'. injection Hrun' as <-. split; [exact Hlast |].
        intros a Hnone. rewrite (Hfresh a Hnone). apply lookup_empty.
      * intros bad Hin Hbad. destruct (balance_dict_raised items bad Hin Hbad ∅) as (e & He).
        rewrite Hrun in He. discriminate.
    + exists ∅. split; [reflexivity |]. split; [| reflexivity].
      intros Hall. destruct (balance_dict_returned items Hall ∅) as (m' & Hrun' & _).
      rewrite Hrun in Hrun'. discriminate.
Qed.

(** ** The dashboard's report of a market order *)

(** X19.  The market order button never fails.  It shows the success
    banner with the order id when the exchange accepted the order, and
    the error banner with [str(e)] when the submission raised [e] with a
    non-empty message or the answer lacked a key; for an exception whose
    message is empty it shows the success banner with an empty order
    id. *)
Theorem market_order_button_banner {F} `{PyFloat F} (env : Env.t F) (symbol side : string)
    (quantity : F) (s : OrderManager.t F) :
  let answer := Env.futures_create_order env (OrderManager.sent s)
                  (market_request symbol side quantity) in
  exists shown,
    market_order_button env symbol side quantity s
      = (Returned shown, after_submit (market_request symbol side quantity) s) /\
    shown =
      match answer with
      | inl e =>
          match str_exn e with
          | EmptyString => st_success "Order placed successfully! Order ID: "
          | msg => st_error ("Error: " ++ msg)
          end
      | inr order =>
          match OrderDict.orderId order, OrderDict.status order with
          | Some oid, Some _ =>
              st_success ("Order placed successfully! Order ID: " ++ str_int oid)
          | None, _ => st_error "Error: 'orderId'"
          | Some _, None => st_error "Error: 'status'"
          end
      end.
Proof.
  intros answer. unfold market_order_button.
  rewrite (bind_returned _ _ _ _ _ (place_market_order_run env symbol side quantity s)).
  fold answer. eexists. split; [reflexivity |].
  unfold report_order.
  destruct answer as [e | [[oid |] [st |]]]; cbn; try reflexivity.
  now destruct (str_exn e).
Qed.

(** ** A failed price query against a price of zero *)

Lemma observed_price_zero_priced {F} `{PyFloat F} (env : Env.t F) symbol
    (s : OrderManager.t F) :
  observed_price (zero_priced env) symbol s = observed_price env symbol s.
Proof. unfold observed_price. simpl. now destruct (Env.get_symbol_ticker env _ _). Qed.

(** X20.  A failed price query cannot be told from a market price of
    0.0: [get_current_price] and [start_grid_strategy] give the same
    result and the same state whether the ticker raises or answers
    0.0. *)
Theorem failed_query_is_price_zero {F} `{PyFloat F} (env : Env.t F) (symbol : string)
    (lower_price upper_price : F) (grid_levels : Z) (quantity_per_level : F)
    (s : OrderManager.t F) :
  get_current_price (zero_priced env) symbol s = get_current_price env symbol s /\
  start_grid_strategy (zero_priced env) symbol lower_price upper_price grid_levels
    quantity_per_level s
  = start_grid_strategy env symbol lower_price upper_price grid_levels quantity_per_level s.
Proof.
  split.
  - now rewrite !get_current_price_run, observed_price_zero_priced.
  - rewrite !start_grid_strategy_steps, observed_price_zero_priced. reflexivity.
Qed.

(** ** TWAP: a negative interval with a positive slice count *)

(** [time.sleep] never accepts a negative length: it overflows when the
    length is below the range of the interpreter's clock and is refused
    as negative otherwise. *)
Lemma sleep_outcome_negative {F} (env : Env.t F) (secs : Z) :
  secs < 0 ->
  sleep_outcome env secs =
  Raised (if Z.ltb secs (- pytime_max_seconds)
          then OverflowError
          else ValueError "sleep length must be non-negative").
Proof.
  intros Hneg. unfold sleep_outcome.
  destruct (Z.ltb secs (- pytime_max_seconds)); [reflexivity |].
  replace (Z.ltb pytime_max_seconds secs) with false
    by (symmetry; apply Z.ltb_ge; unfold pytime_max_seconds; lia).
  cbn [orb]. now rewrite (proj2 (Z.ltb_lt _ _) Hneg).
Qed.

(** X21.  When the interval is negative and the slice count is still at
    least 1 (a negative duration as well), with a total above zero and
    nobody cancelling before the first pass, then in any arithmetic the
    task submits its first slice and dies in [time.sleep]: with
    [OverflowError] when the interval is below -9223372036 and with
    [ValueError] otherwise.  One order, of [min(slice, total)], has been
    placed and recorded and taken off the remaining quantity, and the
    strategy stays active.  In exact arithmetic the slice is [total / n]
    and is the quantity of that order. *)
Theorem twap_negative_interval_dies_after_first_slice :
  (forall (F : Type) (PF : PyFloat F) (env : Env.t F) (symbol side : string)
          (total_quantity : F) (duration_minutes interval_seconds : Z)
          (s0 : OrderManager.t F) (n : Z) (quantity_per_interval : F),
     let twap_id := "twap_" ++ symbol ++ "_"
                    ++ str_int (Env.time_time env (OrderManager.clock_reads s0)) in
     let s1 := snd (start_twap_order env symbol side total_quantity
                      duration_minutes interval_seconds s0) in
     let s2 := snd (_execute_twap env twap_id s1) in
     let order_quantity := py_min quantity_per_interval total_quantity in
     py_floordiv (duration_minutes * 60) interval_seconds = Returned n ->
     1 <= n ->
     py_truediv total_quantity n = Returned quantity_per_interval ->
     interval_seconds < 0 ->
     Env.cancel_requested env twap_id 0 = false ->
     f_leb total_quantity f_zero = false ->
     fst (_execute_twap env twap_id s1) =
       Raised (if Z.ltb interval_seconds (- pytime_max_seconds)
               then OverflowError
               else ValueError "sleep length must be non-negative") /\
     OrderManager.sent s2 =
       (OrderManager.sent s0 ++ [market_request symbol side order_quantity])%list /\
     twap_quantities twap_id s2 = Some [order_quantity] /\
     twap_remaining twap_id s2 = Some (f_sub total_quantity order_quantity) /\
     twap_active twap_id s2 = Some true) /\
  (forall (total_quantity : Qc) (n : Z),
     1 <= n ->
     (0 < total_quantity)%Qc ->
     let quantity_per_interval := (total_quantity / Q2Qc (inject_Z n))%Qc in
     py_truediv total_quantity n = Returned quantity_per_interval /\
     f_leb total_quantity f_zero = false /\
     py_min quantity_per_interval total_quantity = quantity_per_interval).
Proof.
  split.
  - intros F PF env symbol side total_quantity duration_minutes interval_seconds s0 n q
           twap_id s1 s2 order_quantity Hdiv Hn Hq Hneg Hcancel Htotal.
    assert (Hlook : OrderManager.twap_orders s1 !! twap_id =
                    Some (Twap.mk symbol side total_quantity total_quantity duration_minutes
                            interval_seconds
                            (Env.datetime_now env (S (OrderManager.clock_reads s0))) [] true)).
    { subst s1. rewrite start_twap_order_run. simpl. apply lookup_insert_eq. }
    assert (Hsent1 : OrderManager.sent s1 = OrderManager.sent s0).
    { subst s1. now rewrite start_twap_order_run. }
    set (tw := Twap.mk _ _ _ _ _ _ _ _ _) in Hlook.
    assert (Hobs : twap_observed env twap_id 0 tw = tw).
    { unfold twap_observed. now rewrite Hcancel. }
    assert (Hgo : twap_stops (twap_observed env twap_id 0 tw) = false).
    { rewrite Hobs. unfold twap_stops. cbn [tw Twap.active Twap.remaining_quantity negb orb].
      exact Htotal. }
    destruct (twap_iteration_submit env twap_id q 0 s1 tw Hlook Hgo) as (s' & Hit & Hsent & Hs').
    rewrite Hobs in Hit, Hsent, Hs'. cbn [tw Twap.interval_seconds Twap.symbol Twap.side
      Twap.remaining_quantity] in Hit, Hsent, Hs'.
    rewrite (sleep_outcome_negative env interval_seconds Hneg) in Hit.
    fold order_quantity in Hsent, Hs'.
    assert (Hrun : _execute_twap env twap_id s1
                   = (Raised (if Z.ltb interval_seconds (- pytime_max_seconds)
                              then OverflowError
                              else ValueError "sleep length must be non-negative"), s')).
    { rewrite (execute_twap_run env twap_id s1 tw Hlook).
      cbn [tw Twap.duration_minutes Twap.interval_seconds Twap.total_quantity].
      rewrite Hdiv, Hq.
      unfold twap_loop, py_range.
      replace (Z.to_nat n) with (S (Z.to_nat n - 1)) by lia. cbn [seq map for_break].
      apply bind_raised. apply bind_raised. exact Hit. }
    subst s2. rewrite Hrun. cbn [fst snd]. split; [reflexivity |].
    rewrite Hsent, Hsent1. split; [reflexivity |].
    unfold twap_quantities, twap_remaining, twap_active. rewrite Hs'. simpl.
    now rewrite result_of_answer_quantity.
  - intros total_quantity n Hn Htotal q.
    split; [apply exact_truediv; lia |]. split; [now apply exact_leb_false |].
    unfold py_min. pose proof (proj2 (exact_slice_sign total_quantity n Hn) Htotal) as Hqpos.
    fold q in Hqpos.
    assert (Hle : (q <= total_quantity)%Qc).
    { assert (HN : Q2Qc (inject_Z n) <> Q2Qc 0).
      { intros Heq. apply exact_of_int_zero_iff in Heq. lia. }
      pose proof (Qcmult_div_r total_quantity _ HN) as Hq. fold q in Hq.
      assert (H1 : (1 <= inject_Z n)%Q) by (rewrite (Zle_Qle 1 n) in Hn; exact Hn).
      qc2q. nra. }
    now rewrite (proj2 (exact_ltb_false _ _) Hle).
Qed.

Lemma twap_negative_interval_dies_after_first_slice_witness :
  (let env := accepting_exchange (inr 0%float) in
   let twap_id := "twap_" ++ "BTCUSDT" ++ "_" ++ str_int 1700000000 in
   let s1 := snd (start_twap_order env "BTCUSDT" "BUY" 1%float (-5) (-60) OrderManager.init) in
   let s2 := snd (_execute_twap env twap_id s1) in
   let order_quantity := py_min (1 / 5)%float 1%float in
   fst (_execute_twap env twap_id s1) =
     Raised (if Z.ltb (-60) (- pytime_max_seconds)
             then OverflowError
             else ValueError "sleep length must be non-negative") /\
   OrderManager.sent s2 = ([] ++ [market_request "BTCUSDT" "BUY" order_quantity])%list /\
   twap_quantities twap_id s2 = Some [order_quantity] /\
   twap_remaining twap_id s2 = Some (f_sub 1%float order_quantity) /\
   twap_active twap_id s2 = Some true) /\
  (let env := accepting_exchange (inr (Q2Qc 0)) in
   let twap_id := "twap_" ++ "BTCUSDT" ++ "_" ++ str_int 1700000000 in
   let s1 := snd (start_twap_order env "BTCUSDT" "BUY" (Q2Qc 1) (-10000000000) (-10000000000)
                    OrderManager.init) in
   let s2 := snd (_execute_twap env twap_id s1) in
   let order_quantity := py_min (Q2Qc 1 / Q2Qc (inject_Z 60))%Qc (Q2Qc 1) in
   fst (_execute_twap env twap_id s1) =
     Raised (if Z.ltb (-10000000000) (- pytime_max_seconds)
             then OverflowError
             else ValueError "sleep length must be non-negative") /\
   OrderManager.sent s2 = ([] ++ [market_request "BTCUSDT" "BUY" order_quantity])%list /\
   twap_quantities twap_id s2 = Some [order_quantity] /\
   twap_remaining twap_id s2 = Some (f_sub (Q2Qc 1) order_quantity) /\
   twap_active twap_id s2 = Some true).
Proof.
  split.
  - apply (proj1 twap_negative_interval_dies_after_first_slice float binary64_float
             (accepting_exchange (inr 0%float)) "BTCUSDT" "BUY" 1%float (-5) (-60)
             OrderManager.init 5 (1 / 5)%float).
    + reflexivity.
    + lia.
    + reflexivity.
    + lia.
    + reflexivity.
    + reflexivity.
  - apply (proj1 twap_negative_interval_dies_after_first_slice Qc exact_float
             (accepting_exchange (inr (Q2Qc 0))) "BTCUSDT" "BUY" (Q2Qc 1)
             (-10000000000) (-10000000000) OrderManager.init 60).
    + reflexivity.
    + lia.
    + apply exact_truediv. lia.
    + lia.
    + reflexivity.
    + reflexivity.
Defined.

(** ** What a placement leaves alone *)

(** X22.  A market or limit placement, accepted or not, adds exactly its
    one request to the requests sent and reads the clock once; it
    changes no strategy, no OCO entry and no thread, and queries no
    price. *)
Theorem placement_changes_log_and_clock_only {F} `{PyFloat F} (env : Env.t F)
    (symbol side : string) (quantity price : F) (s : OrderManager.t F) :
  let after req s' :=
    OrderManager.sent s' = (OrderManager.sent s ++ [req])%list /\
    OrderManager.clock_reads s' = S (OrderManager.clock_reads s) /\
    OrderManager.active_orders s' = OrderManager.active_orders s /\
    OrderManager.twap_orders s' = OrderManager.twap_orders s /\
    OrderManager.grid_orders s' = OrderManager.grid_orders s /\
    OrderManager.threads s' = OrderManager.threads s /\
    OrderManager.price_queries s' = OrderManager.price_queries s in
  after (market_request symbol side quantity)
        (snd (place_market_order env symbol side quantity s)) /\
  after (limit_request symbol side quantity price)
        (snd (place_limit_order env symbol side quantity price s)).
Proof.
  intros after. rewrite place_market_order_run, place_limit_order_run.
  split; unfold after; simpl; auto 10.
Qed.
